(** * gorillapkg: version normalisation and install-location resolution

    A shallow embedding of the string-level logic of the [gorillapkg]
    packaging tool: the two revisions of [parseVersion], the two revisions
    of [normalizeInstallLocation], [resolveInstallLocation] with the table
    of [getStandardDirectories], and the pre-install script bundling of
    [getPreinstallScripts] / [includePreinstallScripts].

    Go strings are byte sequences; they are modelled by [string], whose
    characters are the 256 byte values.  Go's [int] is the 64-bit
    two's-complement integer of the amd64 Windows build; it is modelled by
    [Z] with the wrap-around written out. *)

From Stdlib Require Import ZArith String Ascii List Lia Bool.
From stdpp Require Import base gmap strings list sorting.

Local Open Scope Z_scope.

(** stdpp keeps [simpl] from unfolding the append of strings; the proofs
    below compute with it. *)
Local Arguments String.append !_ _ : simpl nomatch.

(** ** Bytes *)

Definition byteVal (c : ascii) : Z := Z.of_N (N_of_ascii c).

Definition byteOf (z : Z) : ascii := ascii_of_N (Z.to_N z).

(** ** Package [strings] *)

Module Strings.

(** [strings.Split(s, sep)] for a one-byte separator: the pieces between
    the occurrences of the separator, always at least one piece. *)
Fixpoint Split (s : string) (sep : ascii) : list string :=
  match s with
  | EmptyString => [EmptyString]
  | String c s' =>
      if Ascii.eqb c sep then EmptyString :: Split s' sep
      else match Split s' sep with
           | p :: ps => String c p :: ps
           | [] => [String c EmptyString]
           end
  end.

(** [strings.Join(elems, sep)]. *)
Fixpoint Join (elems : list string) (sep : string) : string :=
  match elems with
  | [] => EmptyString
  | [e] => e
  | e :: rest => e +:+ sep +:+ Join rest sep
  end.

(** [strings.ReplaceAll(s, old, new)] for one-byte [old] and [new]. *)
Fixpoint ReplaceAll (s : string) (old new : ascii) : string :=
  match s with
  | EmptyString => EmptyString
  | String c s' =>
      String (if Ascii.eqb c old then new else c) (ReplaceAll s' old new)
  end.

(** [strings.HasPrefix(s, prefix)]:
    [len(s) >= len(prefix) && s[:len(prefix)] == prefix]. *)
Definition HasPrefix (s prefix : string) : bool :=
  (String.length prefix <=? String.length s)%nat
  && String.eqb (String.substring 0 (String.length prefix) s) prefix.

(** [strings.HasSuffix(s, suffix)]:
    [len(s) >= len(suffix) && s[len(s)-len(suffix):] == suffix]. *)
Definition HasSuffix (s suffix : string) : bool :=
  (String.length suffix <=? String.length s)%nat
  && String.eqb
       (String.substring (String.length s - String.length suffix)
          (String.length suffix) s)
       suffix.

(** [strings.TrimRight(s, cutset)] for a one-byte cutset: every trailing
    occurrence of the byte is removed. *)
Fixpoint TrimRight (s : string) (cut : ascii) : string :=
  match s with
  | EmptyString => EmptyString
  | String c s' =>
      match TrimRight s' cut with
      | EmptyString =>
          if Ascii.eqb c cut then EmptyString else String c EmptyString
      | r => String c r
      end
  end.

(** [utf8.RuneSelf = 0x80]: bytes below it are single-byte runes. *)
Definition RuneSelf : Z := 128.

Fixpoint isASCII (s : string) : bool :=
  match s with
  | EmptyString => true
  | String c s' => (byteVal c <? RuneSelf) && isASCII s'
  end.

Definition lowerByte (c : ascii) : ascii :=
  if (65 <=? byteVal c) && (byteVal c <=? 90) then byteOf (byteVal c + 32)
  else c.

Fixpoint mapBytes (f : ascii -> ascii) (s : string) : string :=
  match s with
  | EmptyString => EmptyString
  | String c s' => String (f c) (mapBytes f s')
  end.

Section ToLower.
(** [strings.Map(unicode.ToLower, s)], the path [strings.ToLower] takes
    for a string with a byte outside ASCII; it depends on UTF-8
    decoding and on the Unicode case tables. *)
Variable mapUnicodeLower : string -> string.

(** [strings.ToLower]: an ASCII-only string has ['A'..'Z'] shifted to
    lower case byte by byte, any other string goes through the Unicode
    mapping. *)
Definition ToLower (s : string) : string :=
  if isASCII s then mapBytes lowerByte s else mapUnicodeLower s.
End ToLower.

(** [strings.TrimPrefix(s, prefix)]: [s[len(prefix):]] when [s] has the
    prefix, [s] otherwise. *)
Definition TrimPrefix (s prefix : string) : string :=
  if HasPrefix s prefix
  then String.substring (String.length prefix)
         (String.length s - String.length prefix) s
  else s.

End Strings.

(** ** Package [strconv] *)

Module Strconv.

Definition dquote : ascii := byteOf 34.
Definition backslash : ascii := byteOf 92.

Definition lowerhex : string := "0123456789abcdef".

Definition hexDigit (z : Z) : ascii :=
  match String.get (Z.to_nat z) lowerhex with
  | Some c => c
  | None => "0"%char
  end.

(** [appendEscapedRune] with the double quote as delimiter, for a rune
    below [utf8.RuneSelf]: quote and backslash are backslashed, printable
    ASCII ([0x20 <= r < 0x7F]) is kept, the control characters with a
    short form use it, the others are written [\xhh]. *)
Definition escapeByte (c : ascii) : string :=
  let r := byteVal c in
  if (r =? 34) || (r =? 92) then String backslash (String c EmptyString)
  else if (32 <=? r) && (r <? 127) then String c EmptyString
  else match r with
       | 7 => "\a"
       | 8 => "\b"
       | 12 => "\f"
       | 10 => "\n"
       | 13 => "\r"
       | 9 => "\t"
       | 11 => "\v"
       | _ => "\x" +:+ String (hexDigit (Z.shiftr r 4))
                        (String (hexDigit (Z.land r 15)) EmptyString)
       end.

Fixpoint escapeBytes (s : string) : string :=
  match s with
  | EmptyString => EmptyString
  | String c s' => escapeByte c +:+ escapeBytes s'
  end.

Section Quote.
(** [strconv.Quote] on a string with a byte outside ASCII: it depends
    on UTF-8 decoding and on the Unicode printability tables. *)
Variable quoteUnicode : string -> string.

(** [strconv.Quote(s)], which is also what the verb [%q] of package
    [fmt] prints for a string. *)
Definition Quote (s : string) : string :=
  if Strings.isASCII s
  then String dquote (escapeBytes s +:+ String dquote EmptyString)
  else quoteUnicode s.
End Quote.

(** [strconv.IntSize] and the bounds of [int]. *)
Definition intSize : Z := 64.
Definition maxUint64 : Z := 2 ^ 64 - 1.
Definition minInt : Z := - 2 ^ (intSize - 1).
Definition maxInt : Z := 2 ^ (intSize - 1) - 1.

(** Conversion to [int]: two's-complement wrap-around. *)
Definition wrapInt (z : Z) : Z :=
  (z + 2 ^ (intSize - 1)) mod 2 ^ intSize - 2 ^ (intSize - 1).

Inductive numErr := ErrSyntax | ErrRange.

(** The error type [strconv.NumError]. *)
Record NumError := { Func : string; Num : string; Err : numErr }.

Definition numErr_Error (e : numErr) : string :=
  match e with
  | ErrSyntax => "invalid syntax"
  | ErrRange => "value out of range"
  end.

(** The method [Error] of [NumError]. *)
Definition NumError_Error (quoteUnicode : string -> string) (e : NumError)
  : string :=
  "strconv." +:+ Func e +:+ ": parsing " +:+ Quote quoteUnicode (Num e)
    +:+ ": " +:+ numErr_Error (Err e).

Definition digitVal (c : ascii) : option Z :=
  let b := byteVal c in
  if (48 <=? b) && (b <=? 57) then Some (b - 48) else None.

(** The digit loop of [ParseUint(s, 10, 0)]: a byte that is not a decimal
    digit is a syntax error; the accumulator leaving the [uint64] range
    is a range error, reported with the value [maxUint64]. *)
Fixpoint parseUintLoop (s : string) (n : Z) : Z * option numErr :=
  match s with
  | EmptyString => (n, None)
  | String c s' =>
      match digitVal c with
      | None => (0, Some ErrSyntax)
      | Some d =>
          if n >=? maxUint64 / 10 + 1 then (maxUint64, Some ErrRange)
          else
            let n1 := n * 10 + d in
            if n1 >? maxUint64 then (maxUint64, Some ErrRange)
            else parseUintLoop s' n1
      end
  end.

Definition ParseUint (s : string) : Z * option numErr :=
  match s with
  | EmptyString => (0, Some ErrSyntax)
  | _ => parseUintLoop s 0
  end.

(** [ParseInt(s, 10, 0)]: an optional sign, then [ParseUint], then the
    check against the [int] range. *)
Definition ParseInt (s : string) : Z * option numErr :=
  match s with
  | EmptyString => (0, Some ErrSyntax)
  | String c rest =>
      let neg := Ascii.eqb c "-" in
      let s1 := if Ascii.eqb c "+" || neg then rest else s in
      match ParseUint s1 with
      | (_, Some ErrSyntax) => (0, Some ErrSyntax)
      | (un, _) =>
          let cutoff := 2 ^ (intSize - 1) in
          if negb neg && (un >=? cutoff) then (cutoff - 1, Some ErrRange)
          else if neg && (un >? cutoff) then (- cutoff, Some ErrRange)
          else (if neg then - un else un, None)
      end
  end.

(** [strconv.Atoi(s)]: [ParseInt(s, 10, 0)] with the error renamed to
    [Atoi] (the fast path for short inputs computes the same result). *)
Definition Atoi (s : string) : Z + NumError :=
  match ParseInt s with
  | (i, None) => inl i
  | (_, Some e) => inr {| Func := "Atoi"; Num := s; Err := e |}
  end.

(** Decimal digits of a non-negative number, most significant first. *)
Fixpoint formatBits (fuel : nat) (u : Z) (acc : string) : string :=
  match fuel with
  | O => acc
  | S fuel' =>
      if u <? 10 then String (byteOf (48 + u)) acc
      else formatBits fuel' (u / 10) (String (byteOf (48 + u mod 10)) acc)
  end.

(** [strconv.FormatInt(i, 10)], which is what the verb [%d] prints for an
    [int]; a 64-bit magnitude has at most 20 decimal digits. *)
Definition FormatInt (i : Z) : string :=
  if i <? 0 then String "-" (formatBits 20 (- i) EmptyString)
  else formatBits 20 i EmptyString.

End Strconv.

(** ** Packages [io/fs] and [os] *)

Module Os.

(** The type bits of [io/fs.FileMode]. *)
Definition ModeDir : Z := Z.shiftl 1 31.
Definition ModeSymlink : Z := Z.shiftl 1 27.
Definition ModeDevice : Z := Z.shiftl 1 26.
Definition ModeNamedPipe : Z := Z.shiftl 1 25.
Definition ModeSocket : Z := Z.shiftl 1 24.
Definition ModeCharDevice : Z := Z.shiftl 1 21.
Definition ModeIrregular : Z := Z.shiftl 1 19.

Definition ModeType : Z :=
  Z.lor ModeDir
    (Z.lor ModeSymlink
       (Z.lor ModeNamedPipe
          (Z.lor ModeSocket
             (Z.lor ModeDevice (Z.lor ModeCharDevice ModeIrregular))))).

Definition ModePerm : Z := 511.

(** [FileMode.IsRegular]: no type bit is set. *)
Definition IsRegular (m : Z) : bool := Z.land m ModeType =? 0.

(** What the code reads of an [os.DirEntry]. *)
Record DirEntry := { Name : string; Type_ : Z }.

(** An error of package [os]: its message and whether [os.IsNotExist]
    holds of it. *)
Record osError := { osMessage : string; osNotExist : bool }.

(** [os.IsNotExist(err)]; [None] is the nil error. *)
Definition IsNotExist (err : option osError) : bool :=
  match err with
  | Some e => osNotExist e
  | None => false
  end.

(** The calls the code makes to the operating system, on a state of the
    file system. *)
Class FileSystem (W : Type) := {
  Stat : string -> W -> option osError;
  ReadDir : string -> W -> list DirEntry + osError;
  ReadFile : string -> W -> string + osError;
  MkdirAll : string -> Z -> W -> W * option osError;
  WriteFile : string -> string -> Z -> W -> W * option osError
}.

End Os.

(** ** Package [sort] *)

Module Sort.

(** [sort.Strings]: ascending in the order [<] of Go strings, which
    compares byte by byte. *)
Definition Strings (l : list string) : list string :=
  merge_sort String.le l.

End Sort.

(** The line feed. *)
Definition newline : string := String (byteOf 10) EmptyString.

(** ** Errors

    The errors of the tool are made by [fmt.Errorf]: an error value is its
    message.  A fallible function returns [inl] of its result or [inr] of
    the message. *)

Definition error : Type := string.

Definition result (A : Type) : Type := A + error.

Definition bind {A B : Type} (r : result A) (k : A -> result B) : result B :=
  match r with
  | inl a => k a
  | inr e => inr e
  end.

Notation "x <~ r ;; k" := (bind r (fun x => k))
  (at level 100, r at next level, k at level 200, right associativity).

(** [s[n:]] for [n <= len(s)]. *)
Fixpoint sliceFrom (n : nat) (s : string) : string :=
  match n, s with
  | O, _ => s
  | S n', String _ s' => sliceFrom n' s'
  | S _, EmptyString => EmptyString
  end.

(** The double quote, as a string. *)
Definition quoteMark : string := String Strconv.dquote EmptyString.

(** ** Package [path/filepath]: [Walk] *)

Module Filepath.

(** [filepath.Separator] of the Windows build, and [filepath.ToSlash]. *)
Definition Separator : ascii := Strconv.backslash.

Definition ToSlash (path : string) : string :=
  if Ascii.eqb Separator "/" then path
  else Strings.ReplaceAll path Separator "/".

(** What [os.Lstat] and the reading of directory names find under a path:
    an entry whose [Lstat] fails, an entry that is not a directory, a
    directory whose names cannot be read, or a directory with its entries
    by name, in the sorted order in which [Walk] visits them. *)
#[warnings="-register-all"]
Inductive FileTree :=
| LstatFails (err : Os.osError)
| NotDir
| DirUnread (err : Os.osError)
| DirOf (children : list (string * FileTree)).

(** [info.IsDir()] of an entry whose [Lstat] succeeds. *)
Definition isDir (t : FileTree) : bool :=
  match t with
  | NotDir => false
  | _ => true
  end.

(** What a [WalkFunc] returns besides nil: [filepath.SkipDir] or another
    error (the functions of this program never return [SkipAll]). *)
Inductive walkError := SkipDir | walkFailed (err : error).

Section Walk.
Variable Join : list string -> string.
Context {S : Type}.

(** The [WalkFunc], on the state its closure updates: it receives the
    path, [info.IsDir()] when [info] is not nil, and the error. *)
Variable walkFn :
  string -> option bool -> option Os.osError -> S -> S * option walkError.

(** The loop of [walk] over the names of a directory. *)
Fixpoint walkNames
    (walkChild : string -> FileTree -> S -> S * option walkError)
    (path : string) (names : list (string * FileTree)) (s : S)
  : S * option walkError :=
  match names with
  | [] => (s, None)
  | (name, child) :: rest =>
      let filename := Join [path; name] in
      match child with
      | LstatFails err =>
          match walkFn filename None (Some err) s with
          | (s1, Some (walkFailed e)) => (s1, Some (walkFailed e))
          | (s1, _) => walkNames walkChild path rest s1
          end
      | _ =>
          match walkChild filename child s with
          | (s1, None) => walkNames walkChild path rest s1
          | (s1, Some e) =>
              match isDir child, e with
              | true, SkipDir => walkNames walkChild path rest s1
              | _, _ => (s1, Some e)
              end
          end
      end
  end.

(** [walk], on an entry whose [Lstat] succeeded. *)
Fixpoint walk (path : string) (t : FileTree) (s : S) {struct t}
  : S * option walkError :=
  match t with
  | LstatFails err => walkFn path None (Some err) s
  | NotDir => walkFn path (Some false) None s
  | DirUnread err => walkFn path (Some true) (Some err) s
  | DirOf children =>
      match walkFn path (Some true) None s with
      | (s1, Some err1) => (s1, Some err1)
      | (s1, None) => walkNames walk path children s1
      end
  end.

(** [filepath.Walk(root, fn)]. *)
Definition Walk (root : string) (t : FileTree) (s : S) : S * option error :=
  match walk root t s with
  | (s1, Some (walkFailed err)) => (s1, Some err)
  | (s1, _) => (s1, None)
  end.
End Walk.

(** The view [Walk] has of a file system. *)
Class TreeView (W : Type) := {
  Snapshot : string -> W -> FileTree
}.

End Filepath.

(** ** Package [os]: files that are written through a handle *)

Module OsFile.

(** [os.OpenFile(name, os.O_APPEND|os.O_WRONLY, perm)] and [os.Create(name)],
    which each give a handle or an error, and [Write] / [WriteString] on
    the handle, named here by the path it was opened on.  The deferred
    [Close] changes nothing of what the code observes. *)
Class FileHandles (W : Type) := {
  OpenAppend : string -> Z -> W -> option Os.osError;
  Create : string -> W -> W * option Os.osError;
  FileWrite : string -> string -> W -> W * option Os.osError
}.

(** [os.Remove(name)]. *)
Class FileRemoval (W : Type) := {
  Remove : string -> W -> W * option Os.osError
}.

End OsFile.

(** ** [main.go]: the pass-through [parseVersion] (the same function is in
    both revisions of [part_000]), the [normalizeInstallLocation] that adds
    a trailing backslash, and the bundling of the pre-install scripts *)

Module MainGo.

Section ParseVersion.
Variable quoteUnicode : string -> string.

(** The loop over [parts], with the slice [numericParts] built so far. *)
Fixpoint checkParts (parts numericParts : list string)
  : result (list string) :=
  match parts with
  | [] => inl numericParts
  | part :: rest =>
      match Strconv.Atoi part with
      | inr _ =>
          inr ("invalid version part: "
                 +:+ Strconv.Quote quoteUnicode part
                 +:+ " is not a number")
      | inl _ => checkParts rest (numericParts ++ [part])
      end
  end.

Definition parseVersion (versionStr : string) : result string :=
  let parts := Strings.Split versionStr "." in
  numericParts <~ checkParts parts [] ;;
  inl (Strings.Join numericParts ".").
End ParseVersion.

Definition normalizeInstallLocation (path : string) : string :=
  let path := Strings.ReplaceAll path "/" Strconv.backslash in
  if negb (Strings.HasSuffix path (String Strconv.backslash EmptyString))
  then path +:+ String Strconv.backslash EmptyString
  else path.

(** The pre-install scripts. *)

Section WithFileSystem.
Context {W : Type} `{Os.FileSystem W}.

(** [filepath.Join] and [filepath.Dir]. *)
Variable Join : list string -> string.
Variable Dir : string -> string.

(** The Unicode path of [strings.ToLower]. *)
Variable mapUnicodeLower : string -> string.

Definition isPreinstall (entry : Os.DirEntry) : bool :=
  Os.IsRegular (Os.Type_ entry)
  && Strings.HasPrefix
       (Strings.ToLower mapUnicodeLower (Os.Name entry)) "preinstall"
  && Strings.HasSuffix
       (Strings.ToLower mapUnicodeLower (Os.Name entry)) ".ps1".

(** The loop over the directory entries. *)
Fixpoint collectScripts (entries : list Os.DirEntry)
    (preScripts : list string) : list string :=
  match entries with
  | [] => preScripts
  | entry :: rest =>
      if isPreinstall entry
      then collectScripts rest (preScripts ++ [Os.Name entry])
      else collectScripts rest preScripts
  end.

Definition getPreinstallScripts (projectDir : string) (w : W)
  : result (list string) :=
  let scriptsDir := Join [projectDir; "scripts"] in
  if Os.IsNotExist (Os.Stat scriptsDir w) then inl []
  else
    match Os.ReadDir scriptsDir w with
    | inr err => inr (Os.osMessage err)
    | inl entries => inl (Sort.Strings (collectScripts entries []))
    end.

(** The loop that reads the scripts, with the bytes combined so far. *)
Fixpoint combineScripts (projectDir : string) (w : W)
    (preScripts : list string) (combined : string) : result string :=
  match preScripts with
  | [] => inl combined
  | script :: rest =>
      match Os.ReadFile (Join [projectDir; "scripts"; script]) w with
      | inr err =>
          inr ("failed to read " +:+ script +:+ ": " +:+ Os.osMessage err)
      | inl content =>
          let combined := combined +:+ "# Contents of " +:+ script
                            +:+ newline in
          let combined := combined +:+ content in
          let combined := combined +:+ newline in
          combineScripts projectDir w rest combined
      end
  end.

Definition includePreinstallScripts (projectDir : string) (w : W)
  : W * option error :=
  match getPreinstallScripts projectDir w with
  | inr err => (w, Some err)
  | inl preScripts =>
      if (List.length preScripts =? 0)%nat then (w, None)
      else
        let beforeModifyPath :=
          Join [projectDir; "tools"; "chocolateyBeforeModify.ps1"] in
        match combineScripts projectDir w preScripts EmptyString with
        | inr err => (w, Some err)
        | inl combined =>
            match Os.MkdirAll (Dir beforeModifyPath) Os.ModePerm w with
            | (w1, Some err) =>
                (w1, Some ("failed to create tools directory: "
                             +:+ Os.osMessage err))
            | (w1, None) =>
                match Os.WriteFile beforeModifyPath combined 420 w1 with
                | (w2, Some err) =>
                    (w2, Some ("failed to write chocolateyBeforeModify.ps1: "
                                 +:+ Os.osMessage err))
                | (w2, None) => (w2, None)
                end
            end
        end
  end.
End WithFileSystem.

(** The post-install scripts and the check of the project directory. *)

Section Project.
Context {W : Type} `{Os.FileSystem W}.
Variable Join : list string -> string.
Variable mapUnicodeLower : string -> string.

Definition verifyProjectStructure (projectDir : string) (w : W)
  : option error :=
  let payloadPath := Join [projectDir; "payload"] in
  let scriptsPath := Join [projectDir; "scripts"] in
  let payloadExists := false in
  let scriptsExists := false in
  let payloadExists :=
    if negb (Os.IsNotExist (Os.Stat payloadPath w)) then true
    else payloadExists in
  let scriptsExists :=
    if negb (Os.IsNotExist (Os.Stat scriptsPath w)) then true
    else scriptsExists in
  if negb payloadExists && negb scriptsExists
  then Some ("either 'payload' or 'scripts' directory must exist "
               +:+ "in the project directory")
  else
    let buildInfoPath := Join [projectDir; "build-info.yaml"] in
    if Os.IsNotExist (Os.Stat buildInfoPath w)
    then Some "'build-info.yaml' file is missing in the project directory"
    else None.

Definition isPostinstall (entry : Os.DirEntry) : bool :=
  Os.IsRegular (Os.Type_ entry)
  && Strings.HasPrefix
       (Strings.ToLower mapUnicodeLower (Os.Name entry)) "postinstall"
  && Strings.HasSuffix
       (Strings.ToLower mapUnicodeLower (Os.Name entry)) ".ps1".

(** The loop of [getPostinstallScripts] over the directory entries. *)
Fixpoint collectPostScripts (entries : list Os.DirEntry)
    (postScripts : list string) : list string :=
  match entries with
  | [] => postScripts
  | entry :: rest =>
      if isPostinstall entry
      then collectPostScripts rest (postScripts ++ [Os.Name entry])
      else collectPostScripts rest postScripts
  end.

Definition getPostinstallScripts (projectDir : string) (w : W)
  : result (list string) :=
  let scriptsDir := Join [projectDir; "scripts"] in
  if Os.IsNotExist (Os.Stat scriptsDir w) then inl []
  else
    match Os.ReadDir scriptsDir w with
    | inr err => inr (Os.osMessage err)
    | inl entries => inl (Sort.Strings (collectPostScripts entries []))
    end.
End Project.

(** The install script, the payload check and the manifest. *)

Record ProductInfo := {
  Identifier : string;
  Version : string;
  Name : string;
  Developer : string;
  Description : string
}.

Record BuildInfo := {
  InstallLocation : string;
  PostInstallAction : string;
  SigningCertificate : string;
  Product : ProductInfo
}.

Record FileRef := { Src : string; Target : string }.

(** [Metadata] and [Package]; the field [XMLName] of [Package] only names
    the XML element and is never set. *)
Record Metadata := {
  ID : string;
  MetaVersion : string;
  Authors : string;
  MetaDescription : string;
  Tags : string;
  Readme : string
}.

Record Package := { PackageMetadata : Metadata; Files : list FileRef }.

(** [xml.NewEncoder(file).Encode(nuspec)] on the file created at a path. *)
Class XmlEncoder (W : Type) := {
  Encode : string -> Package -> W -> W * option error
}.

(** The text written when the payload has files. *)
Definition payloadBlock : string :=
  "if ($installLocation -and $installLocation -ne '') {" +:+ newline +:+
    "    try {" +:+ newline +:+
    "        New-Item -ItemType Directory -Force -Path $installLocation | Out-Null" +:+
    newline +:+ "        Write-Host " +:+ quoteMark +:+
    "Created or verified install location: $installLocation" +:+
    quoteMark +:+ newline +:+ "    } catch {" +:+ newline +:+
    "        Write-Error " +:+ quoteMark +:+
    "Failed to create or access: $installLocation" +:+ quoteMark +:+
    newline +:+ "        exit 1" +:+ newline +:+ "    }" +:+ newline +:+
    "} else {" +:+ newline +:+ "    Write-Host " +:+ quoteMark +:+
    "No install location specified, skipping creation of directories." +:+
    quoteMark +:+ newline +:+ "}" +:+ newline +:+ newline +:+
    "$payloadPath = " +:+ quoteMark +:+ "$PSScriptRoot\..\payload" +:+
    quoteMark +:+ newline +:+
    "$payloadPath = [System.IO.Path]::GetFullPath($payloadPath)" +:+
    newline +:+ "$payloadPath = $payloadPath.TrimEnd('\', '/')" +:+
    newline +:+ newline +:+ "Write-Host " +:+ quoteMark +:+
    "Payload path: $payloadPath" +:+ quoteMark +:+ newline +:+
    "Get-ChildItem -Path $payloadPath -Recurse | ForEach-Object {" +:+
    newline +:+ "    $fullName = $_.FullName" +:+ newline +:+
    "    $relativePath = $fullName.Substring($payloadPath.Length)" +:+
    newline +:+ "    $relativePath = $relativePath.TrimStart('\', '/')" +:+
    newline +:+
    "    $destinationPath = Join-Path $installLocation $relativePath" +:+
    newline +:+ newline +:+ "    if ($_.PSIsContainer) {" +:+ newline +:+
    "        New-Item -ItemType Directory -Force -Path $destinationPath | Out-Null" +:+
    newline +:+ "        Write-Host " +:+ quoteMark +:+
    "Created directory: $destinationPath" +:+ quoteMark +:+ newline +:+
    "    } else {" +:+ newline +:+
    "        Copy-Item -Path $fullName -Destination $destinationPath -Force" +:+
    newline +:+ "        Write-Host " +:+ quoteMark +:+
    "Copied: $($fullName) -> $destinationPath" +:+ quoteMark +:+ newline +:+
    newline +:+ "        if (-not (Test-Path -Path $destinationPath)) {" +:+
    newline +:+ "            Write-Error " +:+ quoteMark +:+
    "Failed to copy: $($fullName)" +:+ quoteMark +:+ newline +:+
    "            exit 1" +:+ newline +:+ "        }" +:+ newline +:+
    "    }" +:+ newline +:+ "}" +:+ newline.

(** The text written when it has none. *)
Definition scriptOnlyBlock : string :=
  "Write-Host " +:+ quoteMark +:+
    "No payload files found. Script-only install - skipping directory creation and file copy." +:+
    quoteMark +:+ newline.

Section Build.
Context {W : Type} `{Os.FileSystem W} `{Filepath.TreeView W}
  `{OsFile.FileHandles W} `{XmlEncoder W}.
Variable Join : list string -> string.
Variable Dir : string -> string.

(** [filepath.Rel(basepath, targpath)]; the code drops its error. *)
Variable Rel : string -> string -> string.
Variable mapUnicodeLower : string -> string.

(** The [WalkFunc] of [payloadDirectoryHasFiles], on [hasFiles]. *)
Definition hasFilesFn (path : string) (isDir : option bool)
    (err : option Os.osError) (hasFiles : bool)
  : bool * option Filepath.walkError :=
  match err with
  | Some e => (hasFiles, Some (Filepath.walkFailed (Os.osMessage e)))
  | None =>
      match isDir with
      | Some false => (true, Some Filepath.SkipDir)
      | _ => (hasFiles, None)
      end
  end.

Definition payloadDirectoryHasFiles (payloadDir : string) (w : W)
  : bool * option error :=
  if Os.IsNotExist (Os.Stat payloadDir w) then (false, None)
  else
    let hasFiles := false in
    Filepath.Walk Join hasFilesFn payloadDir
      (Filepath.Snapshot payloadDir w) hasFiles.

(** The post-install action of [createChocolateyInstallScript]. *)
Definition appendAction (buildInfo : BuildInfo) (script : string)
  : result string :=
  let action := Strings.ToLower mapUnicodeLower (PostInstallAction buildInfo) in
  if negb (String.eqb action EmptyString)
  then
    let script := script +:+ newline +:+ "# Executing post-install action"
                    +:+ newline in
    if String.eqb action "logout"
    then inl (script +:+ "Write-Host 'Logging out...'" +:+ newline
                +:+ "shutdown /l" +:+ newline)
    else if String.eqb action "restart"
    then inl (script +:+ "Write-Host 'Restarting system...'" +:+ newline
                +:+ "shutdown /r /t 0" +:+ newline)
    else if String.eqb action "none"
    then inl (script +:+ "Write-Host 'No post-install action required.'"
                +:+ newline)
    else inr ("unsupported post-install action: " +:+ action)
  else inl script.

(** The loop that appends the post-install scripts through the handle. *)
Fixpoint appendPostScripts (projectDir scriptPath : string)
    (postScripts : list string) (w : W) : W * option error :=
  match postScripts with
  | [] => (w, None)
  | script :: rest =>
      match Os.ReadFile (Join [projectDir; "scripts"; script]) w with
      | inr err =>
          (w, Some ("failed to read " +:+ script +:+ ": " +:+ Os.osMessage err))
      | inl content =>
          match OsFile.FileWrite scriptPath
                  (newline +:+ "# Post-install script: " +:+ script
                     +:+ newline) w with
          | (w1, Some err) => (w1, Some (Os.osMessage err))
          | (w1, None) =>
              match OsFile.FileWrite scriptPath content w1 with
              | (w2, Some err) => (w2, Some (Os.osMessage err))
              | (w2, None) =>
                  match OsFile.FileWrite scriptPath newline w2 with
                  | (w3, Some err) => (w3, Some (Os.osMessage err))
                  | (w3, None) =>
                      appendPostScripts projectDir scriptPath rest w3
                  end
              end
          end
      end
  end.

Definition createChocolateyInstallScript (buildInfo : BuildInfo)
    (projectDir : string) (w : W) : W * option error :=
  let scriptPath := Join [projectDir; "tools"; "chocolateyInstall.ps1"] in
  let payloadPath := Join [projectDir; "payload"] in
  match payloadDirectoryHasFiles payloadPath w with
  | (_, Some err) => (w, Some ("failed to check payload folder: " +:+ err))
  | (hasPayloadFiles, None) =>
      let installLocation :=
        normalizeInstallLocation (InstallLocation buildInfo) in
      let script := "$ErrorActionPreference = 'Stop'" +:+ newline +:+ newline in
      let script := script +:+ "$installLocation = '" +:+ installLocation
                      +:+ "'" +:+ newline +:+ newline in
      let script :=
        if hasPayloadFiles then script +:+ payloadBlock
        else script +:+ scriptOnlyBlock in
      match appendAction buildInfo script with
      | inr err => (w, Some err)
      | inl script =>
          match Os.MkdirAll (Dir scriptPath) Os.ModePerm w with
          | (w1, Some err) =>
              (w1, Some ("failed to create tools directory: "
                           +:+ Os.osMessage err))
          | (w1, None) =>
              match Os.WriteFile scriptPath script 420 w1 with
              | (w2, Some err) =>
                  (w2, Some ("failed to write chocolateyInstall.ps1: "
                               +:+ Os.osMessage err))
              | (w2, None) =>
                  match getPostinstallScripts Join mapUnicodeLower
                          projectDir w2 with
                  | inr err => (w2, Some err)
                  | inl postScripts =>
                      if (0 <? List.length postScripts)%nat
                      then
                        match OsFile.OpenAppend scriptPath 384 w2 with
                        | Some err =>
                            (w2, Some ("failed to open chocolateyInstall.ps1 "
                                         +:+ "for append: " +:+ Os.osMessage err))
                        | None =>
                            appendPostScripts projectDir scriptPath
                              postScripts w2
                        end
                      else (w2, None)
                  end
              end
          end
      end
  end.

(** The [WalkFunc] of [generateNuspec], on [nuspec.Files]. *)
Definition nuspecFn (projectDir path : string) (isDir : option bool)
    (err : option Os.osError) (files : list FileRef)
  : list FileRef * option Filepath.walkError :=
  match err with
  | Some e => (files, Some (Filepath.walkFailed (Os.osMessage e)))
  | None =>
      match isDir with
      | Some false =>
          let relPath := Rel projectDir path in
          let relPath := Filepath.ToSlash relPath in
          (files ++ [{| Src := relPath; Target := relPath |}], None)
      | _ => (files, None)
      end
  end.

Definition generateNuspec (buildInfo : BuildInfo) (projectDir : string)
    (w : W) : W * result string :=
  let product := Product buildInfo in
  let nuspecPath := Join [projectDir; Name product +:+ ".nuspec"] in
  let description := Description product in
  let description :=
    if String.eqb description EmptyString
    then Name product +:+ " version " +:+ Version product +:+ " for "
           +:+ Identifier product +:+ " by " +:+ Developer product
    else description in
  let metadata :=
    {| ID := Identifier product;
       MetaVersion := Version product;
       Authors := Developer product;
       MetaDescription := description;
       Tags := "admin";
       Readme := EmptyString |} in
  let files : list FileRef := [] in
  let payloadPath := Join [projectDir; "payload"] in
  match (if negb (Os.IsNotExist (Os.Stat payloadPath w))
         then Filepath.Walk Join (nuspecFn projectDir) payloadPath
                (Filepath.Snapshot payloadPath w) files
         else (files, None)) with
  | (_, Some err) => (w, inr ("error walking payload directory: " +:+ err))
  | (files, None) =>
      let files :=
        files ++ [{| Src := Join ["tools"; "chocolateyInstall.ps1"];
                     Target := Join ["tools"; "chocolateyInstall.ps1"] |}] in
      match getPreinstallScripts Join mapUnicodeLower projectDir w with
      | inr err => (w, inr err)
      | inl preScripts =>
          let files :=
            if (0 <? List.length preScripts)%nat
            then files
                   ++ [{| Src := Join ["tools"; "chocolateyBeforeModify.ps1"];
                          Target :=
                            Join ["tools"; "chocolateyBeforeModify.ps1"] |}]
            else files in
          match OsFile.Create nuspecPath w with
          | (w1, Some err) =>
              (w1, inr ("failed to create .nuspec file: " +:+ Os.osMessage err))
          | (w1, None) =>
              match Encode nuspecPath
                      {| PackageMetadata := metadata; Files := files |} w1 with
              | (w2, Some err) =>
                  (w2, inr ("failed to encode .nuspec: " +:+ err))
              | (w2, None) => (w2, inl nuspecPath)
              end
          end
      end
  end.
End Build.

End MainGo.

(** ** [part_001]: the [parseVersion] that reduces minor and build *)

Module Part001.

Section ParseVersion.
Variable quoteUnicode : string -> string.

(** [strconv.Atoi(s)]; on an error the function returns
    [fmt.Errorf] of the label, a colon and the error printed by [%v]. *)
Definition atoiOr (label s : string) : result Z :=
  match Strconv.Atoi s with
  | inl n => inl n
  | inr e => inr (label +:+ ": " +:+ Strconv.NumError_Error quoteUnicode e)
  end.

(** The end of the function: [minor % 256], [build % 65536] (the
    remainder of Go truncates towards zero) and the [Sprintf]. *)
Definition finish (major minor build : Z) : result string :=
  let minor := Z.rem minor 256 in
  let build := Z.rem build 65536 in
  inl (Strconv.FormatInt major +:+ "." +:+ Strconv.FormatInt minor
         +:+ "." +:+ Strconv.FormatInt build).

Definition parseVersion (versionStr : string) : result string :=
  let parts := Strings.Split versionStr "." in
  match parts with
  | [p0; p1; p2] =>
      major <~ (if (String.length p0 =? 4)%nat
                then atoiOr "invalid year" (sliceFrom 2 p0)
                else atoiOr "invalid major version" p0) ;;
      minor <~ atoiOr "invalid minor version" p1 ;;
      build <~ atoiOr "invalid build version" p2 ;;
      finish major minor build
  | [p0; p1; p2; p3] =>
      major <~ atoiOr "invalid major version" p0 ;;
      minor <~ atoiOr "invalid minor version" p1 ;;
      build <~ atoiOr "invalid build version" p2 ;;
      extra <~ atoiOr "invalid extra build number" p3 ;;
      let build :=
        Strconv.wrapInt (Strconv.wrapInt (build * 1000) + extra) in
      finish major minor build
  | _ => inr ("invalid version format: " +:+ versionStr)
  end.
End ParseVersion.

End Part001.

(** ** [part_000]: [NormalizePath], the table of standard directories,
    [resolveInstallLocation] and the trimming [normalizeInstallLocation] *)

Module Part000.

(** [filepath.Separator] of the Windows build. *)
Definition Separator : ascii := Strconv.backslash.

(** [filepath.FromSlash]. *)
Definition FromSlash (path : string) : string :=
  if Ascii.eqb Separator "/" then path
  else Strings.ReplaceAll path "/" Separator.

Definition NormalizePath (input : string) : string :=
  FromSlash (Strings.ReplaceAll input Strconv.backslash "/").

Section StandardDirectories.
(** [filepath.Join], which cleans the joined path by the rules of the
    operating system. *)
Variable Join : list string -> string.

(** The map literal, in source order. *)
Definition standardEntries (homeDir : string) : list (string * string) :=
  [ ("C:\Program Files", "ProgramFilesFolder");
    ("C:\Program Files (x86)", "ProgramFiles6432Folder");
    ("C:\Program Files\Common Files", "CommonFilesFolder");
    ("C:\Program Files\Common Files (x86)", "CommonFiles6432Folder");
    ("C:\ProgramData", "CommonAppDataFolder");
    ("C:\Windows", "WindowsFolder");
    ("C:\Windows\System32", "SystemFolder");
    ("C:\Windows\SysWOW64", "System64Folder");
    ("C:\Windows\Fonts", "FontsFolder");
    (Join [homeDir; "AppData"; "Local"], "LocalAppDataFolder");
    (Join [homeDir; "AppData"; "Roaming"], "AppDataFolder");
    (Join [homeDir; "Desktop"], "DesktopFolder");
    (Join [homeDir; "Documents"], "PersonalFolder");
    (Join [homeDir; "Favorites"], "FavoritesFolder");
    (Join [homeDir; "My Pictures"], "MyPicturesFolder");
    (Join [homeDir; "NetHood"], "NetHoodFolder");
    (Join [homeDir; "PrintHood"], "PrintHoodFolder");
    (Join [homeDir; "Recent"], "RecentFolder");
    (Join [homeDir; "SendTo"], "SendToFolder");
    (Join [homeDir; "Start Menu"], "StartMenuFolder");
    (Join [homeDir; "Startup"], "StartupFolder");
    ("C:\Windows\System", "System16Folder");
    ("C:\Windows\Temp", "TempFolder");
    ("C:\Windows\System32\config\systemprofile\AppData\Local",
      "LocalAppDataFolder") ].

(** A map literal stores its entries one after the other: of two entries
    with the same key the later one stays. *)
Definition mapLiteral (entries : list (string * string))
  : gmap string string :=
  foldl (fun m kv => <[kv.1 := kv.2]> m) ∅ entries.

(** [getStandardDirectories], given the result of [os.UserHomeDir]
    ([None] when it fails: [log.Fatalf] then ends the process and no
    table is returned). *)
Definition getStandardDirectories (userHomeDir : option string)
  : option (gmap string string) :=
  match userHomeDir with
  | None => None
  | Some homeDir => Some (mapLiteral (standardEntries homeDir))
  end.
End StandardDirectories.

(** [resolveInstallLocation]; the two [log.Printf] calls only write to
    the log. *)
Definition resolveInstallLocation (installLocation : string)
    (dirs : gmap string string) : string :=
  let normalized := NormalizePath installLocation in
  match dirs !! normalized with
  | Some identifier => identifier
  | None => normalized
  end.

Definition normalizeInstallLocation (path : string) : string :=
  let path := Strings.ReplaceAll path "/" Strconv.backslash in
  let path := Strings.TrimRight path Strconv.backslash in
  path.

(** The first revision of [part_000]: the check of the project directory,
    the copy of the pre-install script and the install script. *)

Record ProductInfo := {
  Identifier : string;
  Version : string;
  Name : string;
  Publisher : string;
  Description : string
}.

Record BuildInfo := {
  InstallLocation : string;
  PostInstallAction : string;
  SigningCertificate : string;
  Product : ProductInfo
}.

(** The text the install script starts with, around the install location. *)
Definition scriptHead (installLocation : string) : string :=
  "$ErrorActionPreference = 'Stop'" +:+ newline
    +:+ newline
    +:+ "$installLocation = '" +:+ installLocation +:+ "'" +:+ newline
    +:+ newline
    +:+ "# Ensure the install location exists" +:+ newline
    +:+ "New-Item -ItemType Directory -Force -Path $installLocation | Out-Null"
    +:+ newline
    +:+ newline
    +:+ "# Copy payload contents to the install location" +:+ newline
    +:+ "Copy-Item -Path "
    +:+ String Strconv.dquote
          ("$PSScriptRoot\..\payload\*"
             +:+ String Strconv.dquote
                   (" -Destination $installLocation -Recurse -Force"
                      +:+ newline)).

Section Project.
Context {W : Type} `{Os.FileSystem W}.
Variable Join : list string -> string.
Variable Dir : string -> string.
Variable mapUnicodeLower : string -> string.

Definition verifyProjectStructure (projectDir : string) (w : W)
  : option error :=
  let payloadPath := Join [projectDir; "payload"] in
  let scriptsPath := Join [projectDir; "scripts"] in
  let missing :=
    if Os.IsNotExist (Os.Stat payloadPath w)
    then Os.IsNotExist (Os.Stat scriptsPath w)
    else false in
  if missing
  then Some ("either 'payload' or 'scripts' directory must exist "
               +:+ "in the project directory")
  else
    let buildInfoPath := Join [projectDir; "build-info.yaml"] in
    if Os.IsNotExist (Os.Stat buildInfoPath w)
    then Some "'build-info.yaml' file is missing in the project directory"
    else None.

Definition copyFile (src dst : string) (w : W) : W * option error :=
  match Os.ReadFile src w with
  | inr err => (w, Some (Os.osMessage err))
  | inl input =>
      match Os.WriteFile dst input 420 w with
      | (w1, Some err) => (w1, Some (Os.osMessage err))
      | (w1, None) => (w1, None)
      end
  end.

Definition includePreinstallScript (projectDir : string) (w : W)
  : W * option error :=
  let preinstallSrcPath := Join [projectDir; "scripts"; "preinstall.ps1"] in
  let preinstallDstPath :=
    Join [projectDir; "tools"; "chocolateyBeforeModify.ps1"] in
  match Os.Stat preinstallSrcPath w with
  | Some _ => (w, None)
  | None =>
      match Os.MkdirAll (Dir preinstallDstPath) Os.ModePerm w with
      | (w1, Some err) =>
          (w1, Some ("failed to create tools directory: " +:+ Os.osMessage err))
      | (w1, None) =>
          match copyFile preinstallSrcPath preinstallDstPath w1 with
          | (w2, Some err) =>
              (w2, Some ("failed to copy preinstall.ps1 to "
                           +:+ "chocolateyBeforeModify.ps1: " +:+ err))
          | (w2, None) => (w2, None)
          end
      end
  end.

(** The part of [createChocolateyInstallScript] that appends the content of
    [postinstall.ps1] when [os.Stat] finds it. *)
Definition appendPostInstall (projectDir : string) (w : W) (script : string)
  : result string :=
  let postInstallScriptPath :=
    Join [projectDir; "scripts"; "postinstall.ps1"] in
  match Os.Stat postInstallScriptPath w with
  | Some _ => inl script
  | None =>
      let script := script +:+ newline +:+ "# Post-install script contents"
                      +:+ newline in
      match Os.ReadFile postInstallScriptPath w with
      | inr err =>
          inr ("failed to read postinstall.ps1: " +:+ Os.osMessage err)
      | inl postInstallContent => inl (script +:+ postInstallContent)
      end
  end.

(** The switch on the lower-cased [postinstall_action]. *)
Definition appendAction (buildInfo : BuildInfo) (script : string)
  : result string :=
  let action := Strings.ToLower mapUnicodeLower (PostInstallAction buildInfo) in
  if String.eqb action "logout"
  then inl (script +:+ newline +:+ "# Perform logout" +:+ newline
              +:+ "shutdown /l" +:+ newline)
  else if String.eqb action "restart"
  then inl (script +:+ newline +:+ "# Perform restart" +:+ newline
              +:+ "shutdown /r /t 0" +:+ newline)
  else if String.eqb action "" || String.eqb action "none"
  then inl script
  else inr ("invalid postinstall_action: " +:+ PostInstallAction buildInfo).

Definition createChocolateyInstallScript (buildInfo : BuildInfo)
    (projectDir : string) (w : W) : W * option error :=
  let scriptPath := Join [projectDir; "tools"; "chocolateyInstall.ps1"] in
  let installLocation := InstallLocation buildInfo in
  let installLocation := normalizeInstallLocation installLocation in
  let script := scriptHead installLocation in
  match (script <~ appendPostInstall projectDir w script ;;
         appendAction buildInfo script) with
  | inr err => (w, Some err)
  | inl script =>
      match Os.MkdirAll (Dir scriptPath) Os.ModePerm w with
      | (w1, Some err) =>
          (w1, Some ("failed to create tools directory: " +:+ Os.osMessage err))
      | (w1, None) =>
          match Os.WriteFile scriptPath script 420 w1 with
          | (w2, Some err) =>
              (w2, Some ("failed to write chocolateyInstall.ps1: "
                           +:+ Os.osMessage err))
          | (w2, None) => (w2, None)
          end
      end
  end.
End Project.

(** [handlePostInstallScript] of [part_000]. *)

Section PostInstall.
Context {W : Type} `{Os.FileSystem W} `{OsFile.FileHandles W}.
Variable Join : list string -> string.
Variable Dir : string -> string.

(** [os.ModeAppend], the permission argument the code gives [OpenFile]. *)
Definition ModeAppend : Z := Z.shiftl 1 30.

(** The part after the switch: the file is created or opened for append,
    and the command is written. *)
Definition writeCommand (postInstallPath command : string) (w : W)
  : W * option error :=
  let opened : W * option error :=
    if Os.IsNotExist (Os.Stat postInstallPath w)
    then
      match Os.MkdirAll (Dir postInstallPath) Os.ModePerm w with
      | (w1, Some err) =>
          (w1, Some ("failed to create scripts directory: "
                       +:+ Os.osMessage err))
      | (w1, None) =>
          match OsFile.Create postInstallPath w1 with
          | (w2, Some err) =>
              (w2, Some ("failed to create postinstall.ps1: "
                           +:+ Os.osMessage err))
          | (w2, None) => (w2, None)
          end
      end
    else
      match OsFile.OpenAppend postInstallPath ModeAppend w with
      | Some err =>
          (w, Some ("failed to open postinstall.ps1: " +:+ Os.osMessage err))
      | None => (w, None)
      end in
  match opened with
  | (w1, Some err) => (w1, Some err)
  | (w1, None) =>
      match OsFile.FileWrite postInstallPath command w1 with
      | (w2, Some err) =>
          (w2, Some ("failed to write to postinstall.ps1: "
                       +:+ Os.osMessage err))
      | (w2, None) => (w2, None)
      end
  end.

Definition handlePostInstallScript (action projectDir : string) (w : W)
  : W * option error :=
  let postInstallPath := Join [projectDir; "scripts"; "postinstall.ps1"] in
  if String.eqb action "logout"
  then writeCommand postInstallPath ("shutdown /l" +:+ newline) w
  else if String.eqb action "restart"
  then writeCommand postInstallPath ("shutdown /r /t 0" +:+ newline) w
  else if String.eqb action "none"
  then (w, None)
  else (w, Some ("unknown post-install action: " +:+ action)).
End PostInstall.

(** [generateNuspec] and [addScriptToNuspec] of the first revision.  The
    structs [Package], [Metadata] and [FileRef] are declared there as in
    [main.go], and are shared with it here. *)

(** [os.PathSeparator] of the Windows build. *)
Definition PathSeparator : ascii := Strconv.backslash.

(** [nuspec.Files = append(nuspec.Files, ref)]. *)
Definition appendFile (nuspec : MainGo.Package) (ref : MainGo.FileRef)
  : MainGo.Package :=
  {| MainGo.PackageMetadata := MainGo.PackageMetadata nuspec;
     MainGo.Files := MainGo.Files nuspec ++ [ref] |}.

(** [nuspec.Metadata.Readme = readme]. *)
Definition setReadme (nuspec : MainGo.Package) (readme : string)
  : MainGo.Package :=
  {| MainGo.PackageMetadata :=
       {| MainGo.ID := MainGo.ID (MainGo.PackageMetadata nuspec);
          MainGo.MetaVersion :=
            MainGo.MetaVersion (MainGo.PackageMetadata nuspec);
          MainGo.Authors := MainGo.Authors (MainGo.PackageMetadata nuspec);
          MainGo.MetaDescription :=
            MainGo.MetaDescription (MainGo.PackageMetadata nuspec);
          MainGo.Tags := MainGo.Tags (MainGo.PackageMetadata nuspec);
          MainGo.Readme := readme |};
     MainGo.Files := MainGo.Files nuspec |}.

Section Nuspec.
Context {W : Type} `{Os.FileSystem W} `{Filepath.TreeView W}
  `{OsFile.FileHandles W} `{OsFile.FileRemoval W} `{MainGo.XmlEncoder W}.
Variable Join : list string -> string.

(** [filepath.Rel(basepath, targpath)]; the code drops its error. *)
Variable Rel : string -> string -> string.

(** The [WalkFunc] of [generateNuspec], on [nuspec]. *)
Definition nuspecFn (projectDir payloadPath path : string)
    (isDir : option bool) (err : option Os.osError) (nuspec : MainGo.Package)
  : MainGo.Package * option Filepath.walkError :=
  match err with
  | Some e => (nuspec, Some (Filepath.walkFailed (Os.osMessage e)))
  | None =>
      match isDir with
      | Some false =>
          let relPath := Rel projectDir path in
          (appendFile nuspec
             {| MainGo.Src := relPath;
                MainGo.Target :=
                  Strings.TrimPrefix path
                    (payloadPath +:+ String PathSeparator EmptyString) |},
           None)
      | _ => (nuspec, None)
      end
  end.

Definition addScriptToNuspec (nuspec : MainGo.Package)
    (projectDir scriptName target : string) (w : W) : MainGo.Package :=
  let scriptPath := Join [projectDir; "scripts"; scriptName] in
  if negb (Os.IsNotExist (Os.Stat scriptPath w))
  then appendFile nuspec
         {| MainGo.Src := Join ["scripts"; scriptName];
            MainGo.Target := Join ["tools"; target] |}
  else nuspec.

(** [generateNuspec] from the walk of the payload to its end. *)
Definition writeNuspec (projectDir nuspecPath : string)
    (nuspec : MainGo.Package) (w : W) : W * result string :=
  let payloadPath := Join [projectDir; "payload"] in
  match (if negb (Os.IsNotExist (Os.Stat payloadPath w))
         then Filepath.Walk Join (nuspecFn projectDir payloadPath) payloadPath
                (Filepath.Snapshot payloadPath w) nuspec
         else (nuspec, None)) with
  | (_, Some err) => (w, inr ("failed to walk payload directory: " +:+ err))
  | (nuspec, None) =>
      let nuspec :=
        addScriptToNuspec nuspec projectDir "preinstall.ps1"
          "chocolateyBeforeModify.ps1" w in
      let nuspec :=
        addScriptToNuspec nuspec projectDir "postinstall.ps1"
          "chocolateyInstall.ps1" w in
      match OsFile.Create nuspecPath w with
      | (w1, Some err) =>
          (w1, inr ("failed to create .nuspec file: " +:+ Os.osMessage err))
      | (w1, None) =>
          match MainGo.Encode nuspecPath nuspec w1 with
          | (w2, Some err) => (w2, inr ("failed to encode .nuspec: " +:+ err))
          | (w2, None) => (w2, inl nuspecPath)
          end
      end
  end.

(** The deferred function removes the readme on every return that follows
    its writing; an error of [os.Remove] is only logged. *)
Definition generateNuspec (buildInfo : BuildInfo) (projectDir : string)
    (w : W) : W * result string :=
  let product := Product buildInfo in
  let nuspecPath := Join [projectDir; Name product +:+ ".nuspec"] in
  let nuspec :=
    {| MainGo.PackageMetadata :=
         {| MainGo.ID := Identifier product;
            MainGo.MetaVersion := Version product;
            MainGo.Authors := Publisher product;
            MainGo.MetaDescription := Description product;
            MainGo.Tags := "admin";
            MainGo.Readme := EmptyString |};
       MainGo.Files := [] |} in
  if negb (String.eqb (Description product) EmptyString)
  then
    let readmePath := Join [projectDir; "readme.md"] in
    let readmeContent := Description product in
    match Os.WriteFile readmePath readmeContent 420 w with
    | (w1, Some err) =>
        (w1, inr ("failed to write readme.md: " +:+ Os.osMessage err))
    | (w1, None) =>
        let nuspec := setReadme nuspec "readme.md" in
        let nuspec :=
          appendFile nuspec
            {| MainGo.Src := "readme.md"; MainGo.Target := "readme.md" |} in
        match writeNuspec projectDir nuspecPath nuspec w1 with
        | (w2, r) => (fst (OsFile.Remove readmePath w2), r)
        end
    end
  else writeNuspec projectDir nuspecPath nuspec w.
End Nuspec.

(** The check of the action in [main] of the second revision: the map
    [validActions], read at a key; a missing key reads as false. *)
Definition validActions : gmap string bool :=
  {[ "none" := true; "logout" := true; "restart" := true ]}.

Definition actionIsValid (action : string) : bool :=
  default false (validActions !! action).

End Part000.

(** * Vocabulary of the statements *)

(** [hasByte c s]: the byte [c] occurs in [s]. *)
Fixpoint hasByte (c : ascii) (s : string) : bool :=
  match s with
  | EmptyString => false
  | String a s' => Ascii.eqb a c || hasByte c s'
  end.

(** A part is accepted when [strconv.Atoi] returns no error for it, and
    rejected otherwise. *)
Definition accepted (part : string) : Prop :=
  exists n, Strconv.Atoi part = inl n.

Definition rejected (part : string) : Prop :=
  exists e, Strconv.Atoi part = inr e.

(** Printable ASCII other than the double quote and the backslash: the
    bytes [strconv.Quote] copies as they are. *)
Definition plainByte (c : ascii) : bool :=
  let r := byteVal c in
  (32 <=? r) && (r <? 127) && negb (r =? 34) && negb (r =? 92).

Fixpoint plainASCII (s : string) : bool :=
  match s with
  | EmptyString => true
  | String c s' => plainByte c && plainASCII s'
  end.

(** The error of [part_001] for a part count other than 3 or 4. *)
Definition isInvalidVersionFormat (msg : error) : bool :=
  String.prefix "invalid version format: " msg.

(** The three-part form whose first part has four bytes. *)
Definition yearForm (parts : list string) : bool :=
  match parts with
  | [p0; _; _] => (String.length p0 =? 4)%nat
  | _ => false
  end.

(** The label [part_001] gives the error of the part at position [i]. *)
Definition partLabel (i : nat) : string :=
  match i with
  | 0%nat => "invalid major version"
  | 1%nat => "invalid minor version"
  | 2%nat => "invalid build version"
  | _ => "invalid extra build number"
  end.

(** All the bytes of [s] are decimal digits. *)
Fixpoint digitsOnly (s : string) : bool :=
  match s with
  | EmptyString => true
  | String c s' => (48 <=? byteVal c) && (byteVal c <=? 57) && digitsOnly s'
  end.

(** The number a digit string denotes, continuing from [n]. *)
Fixpoint digitsValue (s : string) (n : Z) : Z :=
  match s with
  | EmptyString => n
  | String c s' => digitsValue s' (n * 10 + (byteVal c - 48))
  end.

(** All the bytes of [s] are [c]. *)
Fixpoint allByte (c : ascii) (s : string) : bool :=
  match s with
  | EmptyString => true
  | String a s' => Ascii.eqb a c && allByte c s'
  end.

(** The number of occurrences of [c] at the end of [s]. *)
Fixpoint trailingCount (c : ascii) (s : string) : nat :=
  match s with
  | EmptyString => 0
  | String a s' =>
      if allByte c (String a s') then S (String.length s')
      else trailingCount c s'
  end.

(** [k] times the byte [c]. *)
Fixpoint repeatByte (c : ascii) (k : nat) : string :=
  match k with
  | O => EmptyString
  | S k' => String c (repeatByte c k')
  end.

(** [sub] occurs in [s] as a run of consecutive bytes. *)
Fixpoint containsString (sub s : string) : bool :=
  String.prefix sub s
  || match s with
     | EmptyString => false
     | String _ s' => containsString sub s'
     end.

(** A stand-in for the Unicode paths of [strconv.Quote] and
    [strings.ToLower] in the closed examples, whose strings are ASCII. *)
Definition asciiOnly (s : string) : string := s.

(** [filepath.Join] on clean backslash-separated elements: the elements
    joined by a backslash. *)
Definition joinBackslash (elems : list string) : string :=
  Strings.Join elems (String Strconv.backslash EmptyString).

(** [filepath.Dir] on such a path: everything before its last element. *)
Definition dirBackslash (path : string) : string :=
  joinBackslash (removelast (Strings.Split path Strconv.backslash)).

(** The bundle of the scripts: for each one a header line with its name,
    its content and a newline. *)
Fixpoint bundle (content : string -> string) (scripts : list string)
  : string :=
  match scripts with
  | [] => EmptyString
  | script :: rest =>
      "# Contents of " +:+ script +:+ newline
        +:+ content script +:+ newline +:+ bundle content rest
  end.

(** A file system in memory for the closed examples: the listing of each
    directory and the content of each file, by path. *)
Record memFS := {
  memDirs : gmap string (list Os.DirEntry);
  memFiles : gmap string string
}.

Definition memNotFound (op path : string) : Os.osError :=
  {| Os.osMessage :=
       op +:+ " " +:+ path +:+ ": The system cannot find the file specified.";
     Os.osNotExist := true |}.

#[export] Instance memFS_FileSystem : Os.FileSystem memFS := {|
  Os.Stat path w :=
    match memDirs w !! path, memFiles w !! path with
    | None, None => Some (memNotFound "CreateFile" path)
    | _, _ => None
    end;
  Os.ReadDir path w :=
    match memDirs w !! path with
    | Some entries => inl entries
    | None => inr (memNotFound "open" path)
    end;
  Os.ReadFile path w :=
    match memFiles w !! path with
    | Some content => inl content
    | None => inr (memNotFound "open" path)
    end;
  Os.MkdirAll path perm w :=
    match memDirs w !! path with
    | Some _ => (w, None)
    | None =>
        ({| memDirs := <[path := []]> (memDirs w); memFiles := memFiles w |},
         None)
    end;
  Os.WriteFile path data perm w :=
    ({| memDirs := memDirs w; memFiles := <[path := data]> (memFiles w) |},
     None)
|}.

(** A project with two pre-install scripts, in upper and in lower case,
    among other entries of its scripts directory. *)
Definition sampleProject : memFS :=
  {| memDirs :=
       {[ "proj\scripts" :=
            [ {| Os.Name := "Preinstall-b.PS1"; Os.Type_ := 0 |};
              {| Os.Name := "postinstall.ps1"; Os.Type_ := 0 |};
              {| Os.Name := "preinstall-a.ps1"; Os.Type_ := 0 |};
              {| Os.Name := "preinstall.d.ps1";
                 Os.Type_ := Os.ModeDir |};
              {| Os.Name := "preinstall.txt"; Os.Type_ := 0 |} ] ]};
     memFiles :=
       {[ "proj\scripts\Preinstall-b.PS1" := "Write-Host b";
          "proj\scripts\preinstall-a.ps1" := "Write-Host a";
          "proj\scripts\postinstall.ps1" := "Write-Host post" ]} |}.

Definition sampleContent (script : string) : string :=
  if String.eqb script "Preinstall-b.PS1" then "Write-Host b"
  else "Write-Host a".

(** A project of the first revision, with one script of each kind, and two
    build descriptions for it. *)
Definition sampleProjectOne : memFS :=
  {| memDirs := {[ "proj\scripts" := [] ]};
     memFiles :=
       {[ "proj\scripts\preinstall.ps1" := "Write-Host pre";
          "proj\scripts\postinstall.ps1" := "Write-Host post" ]} |}.

Definition sampleProduct : Part000.ProductInfo :=
  {| Part000.Identifier := "com.example.tool";
     Part000.Version := "1.2.3";
     Part000.Name := "Tool";
     Part000.Publisher := "Example";
     Part000.Description := "" |}.

Definition sampleInfo (action : string) : Part000.BuildInfo :=
  {| Part000.InstallLocation := "C:/Program Files/Tool/";
     Part000.PostInstallAction := action;
     Part000.SigningCertificate := "";
     Part000.Product := sampleProduct |}.

(** A file tree without an entry that cannot be read. *)
Fixpoint readable (t : Filepath.FileTree) : bool :=
  match t with
  | Filepath.LstatFails _ => false
  | Filepath.NotDir => true
  | Filepath.DirUnread _ => false
  | Filepath.DirOf children => forallb (fun c => readable (snd c)) children
  end.

(** The tree holds an entry that is not a directory. *)
Fixpoint hasFile (t : Filepath.FileTree) : bool :=
  match t with
  | Filepath.NotDir => true
  | Filepath.DirOf children => existsb (fun c => hasFile (snd c)) children
  | _ => false
  end.

(** The paths of the entries that are not directories, in the order of the
    tree, each built with [filepath.Join] from the path of its directory. *)
Fixpoint leafPaths (Join : list string -> string) (path : string)
    (t : Filepath.FileTree) : list string :=
  match t with
  | Filepath.NotDir => [path]
  | Filepath.DirOf children =>
      flat_map (fun c => leafPaths Join (Join [path; fst c]) (snd c)) children
  | _ => []
  end.

(** The manifest entry of a payload file: the path relative to the project
    directory, with forward slashes, as source and as target. *)
Definition payloadRef (Rel : string -> string -> string)
    (projectDir path : string) : MainGo.FileRef :=
  {| MainGo.Src := Filepath.ToSlash (Rel projectDir path);
     MainGo.Target := Filepath.ToSlash (Rel projectDir path) |}.

(** The manifest entry of a file of the tools directory. *)
Definition toolsRef (Join : list string -> string) (name : string)
  : MainGo.FileRef :=
  {| MainGo.Src := Join ["tools"; name]; MainGo.Target := Join ["tools"; name] |}.

(** The view [filepath.Walk] has of the file system in memory, to a depth
    of [fuel] directories; the entries of a directory are listed by name
    in sorted order, as [os.ReadDir] returns them. *)
Fixpoint memSnapshot (fuel : nat) (path : string) (w : memFS)
  : Filepath.FileTree :=
  match memDirs w !! path with
  | Some entries =>
      match fuel with
      | O => Filepath.DirUnread (memNotFound "open" path)
      | S fuel' =>
          Filepath.DirOf
            (List.map
               (fun entry =>
                  (Os.Name entry,
                   memSnapshot fuel' (joinBackslash [path; Os.Name entry]) w))
               entries)
      end
  | None =>
      match memFiles w !! path with
      | Some _ => Filepath.NotDir
      | None => Filepath.LstatFails (memNotFound "CreateFile" path)
      end
  end.

#[export] Instance memFS_TreeView : Filepath.TreeView memFS := {|
  Filepath.Snapshot path w := memSnapshot 16 path w
|}.

#[export] Instance memFS_FileHandles : OsFile.FileHandles memFS := {|
  OsFile.OpenAppend path perm w :=
    match memFiles w !! path with
    | Some _ => None
    | None => Some (memNotFound "open" path)
    end;
  OsFile.Create path w :=
    ({| memDirs := memDirs w;
        memFiles := <[path := EmptyString]> (memFiles w) |}, None);
  OsFile.FileWrite path data w :=
    ({| memDirs := memDirs w;
        memFiles :=
          <[path := default EmptyString (memFiles w !! path) +:+ data]>
            (memFiles w) |}, None)
|}.

#[export] Instance memFS_FileRemoval : OsFile.FileRemoval memFS := {|
  OsFile.Remove path w :=
    match memFiles w !! path with
    | Some _ =>
        ({| memDirs := memDirs w; memFiles := delete path (memFiles w) |},
         None)
    | None => (w, Some (memNotFound "remove" path))
    end
|}.

(** A stand-in for the XML of a package in the closed examples: the
    sources of its files, one per line. *)
Definition renderPackage (pkg : MainGo.Package) : string :=
  Strings.Join (List.map MainGo.Src (MainGo.Files pkg)) newline.

#[export] Instance memFS_XmlEncoder : MainGo.XmlEncoder memFS := {|
  MainGo.Encode path pkg w :=
    ({| memDirs := memDirs w;
        memFiles := <[path := renderPackage pkg]> (memFiles w) |}, None)
|}.

(** [filepath.Rel] when the target is below the base: the rest of the
    target after the base and a backslash. *)
Definition relBackslash (base target : string) : string :=
  if String.prefix (base +:+ String Strconv.backslash EmptyString) target
  then sliceFrom (S (String.length base)) target
  else target.

(** A project with a payload of two files, one in a sub-directory, an
    empty sub-directory, and one script of each kind. *)
Definition sampleBuild : memFS :=
  {| memDirs :=
       {[ "proj\payload" :=
            [ {| Os.Name := "bin"; Os.Type_ := Os.ModeDir |};
              {| Os.Name := "empty"; Os.Type_ := Os.ModeDir |};
              {| Os.Name := "readme.txt"; Os.Type_ := 0 |} ];
          "proj\payload\bin" :=
            [ {| Os.Name := "tool.exe"; Os.Type_ := 0 |} ];
          "proj\payload\empty" := [];
          "proj\scripts" :=
            [ {| Os.Name := "postinstall.ps1"; Os.Type_ := 0 |};
              {| Os.Name := "preinstall.ps1"; Os.Type_ := 0 |} ] ]};
     memFiles :=
       {[ "proj\payload\bin\tool.exe" := "MZ";
          "proj\payload\readme.txt" := "read me";
          "proj\scripts\postinstall.ps1" := "Write-Host post";
          "proj\scripts\preinstall.ps1" := "Write-Host pre" ]} |}.

Definition sampleMainProduct : MainGo.ProductInfo :=
  {| MainGo.Identifier := "com.example.tool";
     MainGo.Version := "1.2.3";
     MainGo.Name := "Tool";
     MainGo.Developer := "Example";
     MainGo.Description := EmptyString |}.

Definition sampleMainInfo (action : string) : MainGo.BuildInfo :=
  {| MainGo.InstallLocation := "C:/Program Files/Tool";
     MainGo.PostInstallAction := action;
     MainGo.SigningCertificate := EmptyString;
     MainGo.Product := sampleMainProduct |}.

(** A build description of the first revision with a description of the
    product. *)
Definition sampleDescribed : Part000.BuildInfo :=
  {| Part000.InstallLocation := "C:/Program Files/Tool/";
     Part000.PostInstallAction := "none";
     Part000.SigningCertificate := EmptyString;
     Part000.Product :=
       {| Part000.Identifier := "com.example.tool";
          Part000.Version := "1.2.3";
          Part000.Name := "Tool";
          Part000.Publisher := "Example";
          Part000.Description := "A tool." |} |}.

(** A package keeps the metadata of another and lists its files first. *)
Definition extends (nuspec nuspec' : MainGo.Package) : Prop :=
  MainGo.PackageMetadata nuspec' = MainGo.PackageMetadata nuspec
  /\ exists more, MainGo.Files nuspec' = MainGo.Files nuspec ++ more.

(** * Properties *)

(** ** Sample evaluations *)

Example Atoi_42 : Strconv.Atoi "42" = inl 42.
Proof. reflexivity. Qed.

Example Atoi_neg : Strconv.Atoi "-007" = inl (-7).
Proof. reflexivity. Qed.

Example Atoi_max : Strconv.Atoi "9223372036854775807" = inl Strconv.maxInt.
Proof. reflexivity. Qed.

Example Atoi_over :
  Strconv.Atoi "9223372036854775808"
  = inr {| Strconv.Func := "Atoi"; Strconv.Num := "9223372036854775808";
           Strconv.Err := Strconv.ErrRange |}.
Proof. reflexivity. Qed.

Example Atoi_min : Strconv.Atoi "-9223372036854775808" = inl Strconv.minInt.
Proof. reflexivity. Qed.

Example FormatInt_neg : Strconv.FormatInt (-1000) = "-1000".
Proof. reflexivity. Qed.

Example Quote_a :
  forall qu, Strconv.Quote qu "a"
             = String Strconv.dquote ("a" +:+ String Strconv.dquote "").
Proof. reflexivity. Qed.

Example parseVersion_year :
  forall qu, Part001.parseVersion qu "2024.10.11" = inl "24.10.11".
Proof. reflexivity. Qed.

Example parseVersion_wrap :
  forall qu, Part001.parseVersion qu "1.2.9223372036854775807.0"
             = inl "1.2.-1000".
Proof. reflexivity. Qed.

Example normalize_enforce_double :
  MainGo.normalizeInstallLocation "a//"
  = "a" +:+ String Strconv.backslash (String Strconv.backslash "").
Proof. reflexivity. Qed.

Example normalize_trim :
  Part000.normalizeInstallLocation "C:/Program Files/Foo//"
  = "C:\Program Files\Foo".
Proof. reflexivity. Qed.

(** ** Package [strings]: splitting and joining *)

Lemma Split_not_nil s sep : Strings.Split s sep <> [].
Proof.
  induction s as [|c s IH]; simpl; [done|].
  destruct (Ascii.eqb c sep); [done|].
  destruct (Strings.Split s sep); done.
Qed.

Lemma Join_cons e p ps sep :
  Strings.Join (e :: p :: ps) sep = e +:+ sep +:+ Strings.Join (p :: ps) sep.
Proof. reflexivity. Qed.

Lemma append_String c s t : String c s +:+ t = String c (s +:+ t).
Proof. reflexivity. Qed.

Lemma append_empty_r s : s +:+ "" = s.
Proof. induction s as [|c s IH]; simpl; congruence. Qed.

Lemma append_assoc s t u : (s +:+ t) +:+ u = s +:+ (t +:+ u).
Proof. induction s as [|c s IH]; simpl; congruence. Qed.

Lemma Join_Split s sep :
  Strings.Join (Strings.Split s sep) (String sep "") = s.
Proof.
  induction s as [|c s IH]; simpl; [done|].
  destruct (Ascii.eqb_spec c sep) as [->|Hne].
  - pose proof (Split_not_nil s sep) as Hnil.
    destruct (Strings.Split s sep) as [|p ps]; [done|].
    rewrite Join_cons, IH. reflexivity.
  - destruct (Strings.Split s sep) as [|p ps] eqn:E.
    + by destruct (Split_not_nil s sep).
    + destruct ps as [|q qs]; simpl in *; congruence.
Qed.

Lemma Split_no_sep p sep :
  hasByte sep p = false -> Strings.Split p sep = [p].
Proof.
  induction p as [|c p IH]; simpl; [done|].
  intros [Hc Hp]%orb_false_iff. rewrite Hc, (IH Hp). reflexivity.
Qed.

Lemma Split_app_sep p rest sep :
  hasByte sep p = false ->
  Strings.Split (p +:+ String sep rest) sep = p :: Strings.Split rest sep.
Proof.
  induction p as [|c p IH]; simpl.
  - intros _. by rewrite Ascii.eqb_refl.
  - intros [Hc Hp]%orb_false_iff. rewrite Hc, (IH Hp). reflexivity.
Qed.

Lemma Split_parts_no_sep s sep :
  Forall (fun p => hasByte sep p = false) (Strings.Split s sep).
Proof.
  induction s as [|c s IH]; simpl.
  - by constructor.
  - destruct (Ascii.eqb c sep) eqn:Hc.
    + by constructor.
    + destruct (Strings.Split s sep) as [|p ps].
      * constructor; [|done]. simpl. by rewrite Hc.
      * inversion IH; subst. constructor; [|done]. simpl. by rewrite Hc.
Qed.

(** ** The pass-through [parseVersion] *)

Section PassThrough.
Variable quoteUnicode : string -> string.

Lemma checkParts_ok parts acc r :
  MainGo.checkParts quoteUnicode parts acc = inl r -> r = acc ++ parts.
Proof.
  revert acc. induction parts as [|p parts IH]; simpl; intros acc Hr.
  - injection Hr as <-. by rewrite app_nil_r.
  - destruct (Strconv.Atoi p); [|done].
    rewrite (IH _ Hr), <- app_assoc. reflexivity.
Qed.

Lemma checkParts_accepted parts acc :
  Forall accepted parts ->
  MainGo.checkParts quoteUnicode parts acc = inl (acc ++ parts).
Proof.
  intros Hall. revert acc.
  induction Hall as [|p parts [n Hn] _ IH]; simpl; intros acc.
  - by rewrite app_nil_r.
  - rewrite Hn, IH, <- app_assoc. reflexivity.
Qed.

Lemma checkParts_first_rejected pre part post acc :
  Forall accepted pre -> rejected part ->
  MainGo.checkParts quoteUnicode (pre ++ part :: post) acc
  = inr ("invalid version part: " +:+ Strconv.Quote quoteUnicode part
           +:+ " is not a number").
Proof.
  intros Hpre [e He]. revert acc.
  induction Hpre as [|p pre [n Hn] _ IH]; simpl; intros acc.
  - by rewrite He.
  - rewrite Hn. apply IH.
Qed.

Lemma parseVersion_passthrough_ok versionStr t :
  MainGo.parseVersion quoteUnicode versionStr = inl t -> t = versionStr.
Proof.
  unfold MainGo.parseVersion, bind.
  destruct (MainGo.checkParts _ _ _) as [np|] eqn:E; [|done].
  intros [= <-]. apply checkParts_ok in E. simpl in E. subst np.
  apply (Join_Split versionStr ".").
Qed.
End PassThrough.

(** ** [strconv.Atoi] and [strconv.Quote] *)

Lemma Atoi_error_fields s e :
  Strconv.Atoi s = inr e -> Strconv.Func e = "Atoi" /\ Strconv.Num e = s.
Proof.
  unfold Strconv.Atoi. destruct (Strconv.ParseInt s) as [i [k|]]; [|done].
  intros [= <-]. done.
Qed.

Lemma escapeBytes_plain s :
  plainASCII s = true -> Strconv.escapeBytes s = s /\ Strings.isASCII s = true.
Proof.
  induction s as [|c s IH]; simpl; [done|].
  intros [Hc Hs]%andb_true_iff. destruct (IH Hs) as [IH1 IH2].
  unfold plainByte in Hc. unfold Strconv.escapeByte, Strings.RuneSelf.
  repeat (apply andb_true_iff in Hc as [Hc ?]).
  assert ((byteVal c =? 34) = false) as -> by by destruct (byteVal c =? 34).
  assert ((byteVal c =? 92) = false) as -> by by destruct (byteVal c =? 92).
  rewrite Hc. simpl.
  assert ((byteVal c <? 127) = true) as -> by done.
  rewrite IH1, IH2. split; [done|].
  apply andb_true_iff. split; [|done]. apply Z.ltb_lt. lia.
Qed.

Lemma Quote_plain qu s :
  plainASCII s = true ->
  Strconv.Quote qu s
  = String Strconv.dquote (s +:+ String Strconv.dquote "").
Proof.
  intros Hs. destruct (escapeBytes_plain s Hs) as [He Ha].
  unfold Strconv.Quote. by rewrite Ha, He.
Qed.

(** ** The reducing [parseVersion] of [part_001] *)

Section Reducing.
Variable quoteUnicode : string -> string.

Lemma atoiOr_ok label s n :
  Strconv.Atoi s = inl n -> Part001.atoiOr quoteUnicode label s = inl n.
Proof. unfold Part001.atoiOr. by intros ->. Qed.

Lemma atoiOr_err label s e :
  Strconv.Atoi s = inr e ->
  Part001.atoiOr quoteUnicode label s
  = inr (label +:+ ": strconv.Atoi: parsing "
           +:+ Strconv.Quote quoteUnicode s +:+ ": "
           +:+ Strconv.numErr_Error (Strconv.Err e)).
Proof.
  intros He. unfold Part001.atoiOr. rewrite He.
  destruct (Atoi_error_fields s e He) as [Hf Hn].
  unfold Strconv.NumError_Error. rewrite Hf, Hn. reflexivity.
Qed.

Lemma wrapInt_add_l a b :
  Strconv.wrapInt (Strconv.wrapInt a + b) = Strconv.wrapInt (a + b).
Proof.
  unfold Strconv.wrapInt. f_equal.
  replace ((a + 2 ^ (Strconv.intSize - 1)) mod 2 ^ Strconv.intSize
           - 2 ^ (Strconv.intSize - 1) + b + 2 ^ (Strconv.intSize - 1))
    with ((a + 2 ^ (Strconv.intSize - 1)) mod 2 ^ Strconv.intSize + b)
    by lia.
  rewrite Zplus_mod_idemp_l. f_equal. lia.
Qed.

Lemma wrapInt_in_range z :
  Strconv.minInt <= z <= Strconv.maxInt -> Strconv.wrapInt z = z.
Proof.
  unfold Strconv.wrapInt, Strconv.minInt, Strconv.maxInt, Strconv.intSize.
  intros Hz. rewrite Z.mod_small; lia.
Qed.

Lemma parseVersion_three s p0 p1 p2 major minor build :
  Strings.Split s "." = [p0; p1; p2] ->
  Strconv.Atoi (if (String.length p0 =? 4)%nat then sliceFrom 2 p0 else p0)
  = inl major ->
  Strconv.Atoi p1 = inl minor ->
  Strconv.Atoi p2 = inl build ->
  Part001.parseVersion quoteUnicode s
  = inl (Strconv.FormatInt major +:+ "."
           +:+ Strconv.FormatInt (Z.rem minor 256) +:+ "."
           +:+ Strconv.FormatInt (Z.rem build 65536)).
Proof.
  intros Hs H0 H1 H2. unfold Part001.parseVersion. rewrite Hs.
  destruct (String.length p0 =? 4)%nat;
    rewrite (atoiOr_ok _ _ _ H0); simpl;
    rewrite (atoiOr_ok _ _ _ H1); simpl;
    rewrite (atoiOr_ok _ _ _ H2); reflexivity.
Qed.

Lemma parseVersion_four s p0 p1 p2 p3 major minor build extra :
  Strings.Split s "." = [p0; p1; p2; p3] ->
  Strconv.Atoi p0 = inl major ->
  Strconv.Atoi p1 = inl minor ->
  Strconv.Atoi p2 = inl build ->
  Strconv.Atoi p3 = inl extra ->
  Part001.parseVersion quoteUnicode s
  = inl (Strconv.FormatInt major +:+ "."
           +:+ Strconv.FormatInt (Z.rem minor 256) +:+ "."
           +:+ Strconv.FormatInt
                 (Z.rem (Strconv.wrapInt (build * 1000 + extra)) 65536)).
Proof.
  intros Hs H0 H1 H2 H3. unfold Part001.parseVersion. rewrite Hs.
  rewrite (atoiOr_ok _ _ _ H0); simpl.
  rewrite (atoiOr_ok _ _ _ H1); simpl.
  rewrite (atoiOr_ok _ _ _ H2); simpl.
  rewrite (atoiOr_ok _ _ _ H3); simpl.
  rewrite wrapInt_add_l. reflexivity.
Qed.
End Reducing.

(** ** Printing an [int] and reading it back *)

Lemma byteVal_byteOf z : 0 <= z < 256 -> byteVal (byteOf z) = z.
Proof.
  intros Hz. unfold byteVal, byteOf.
  rewrite N_ascii_embedding by lia. lia.
Qed.

Lemma byteVal_range c : 0 <= byteVal c < 256.
Proof. unfold byteVal. pose proof (N_ascii_bounded c). lia. Qed.

Lemma digitsValue_app s t n :
  digitsValue (s +:+ t) n = digitsValue t (digitsValue s n).
Proof. revert n. induction s as [|c s IH]; simpl; intros n; [done|apply IH]. Qed.

Lemma digitsOnly_app s t :
  digitsOnly (s +:+ t) = digitsOnly s && digitsOnly t.
Proof.
  induction s as [|c s IH]; simpl; [done|].
  rewrite IH. by rewrite andb_assoc.
Qed.

Lemma digitsValue_ge s n : digitsOnly s = true -> 0 <= n -> n <= digitsValue s n.
Proof.
  revert n. induction s as [|c s IH]; simpl; intros n Hd Hn; [lia|].
  apply andb_true_iff in Hd as [[H1 H2]%andb_true_iff Hs].
  apply Z.leb_le in H1, H2.
  etrans; [|apply IH; [done|lia]]. lia.
Qed.

Lemma formatBits_acc fuel u acc :
  Strconv.formatBits fuel u acc = Strconv.formatBits fuel u "" +:+ acc.
Proof.
  revert u acc. induction fuel as [|fuel IH]; simpl; intros u acc; [done|].
  destruct (u <? 10); [done|].
  rewrite (IH _ (String _ acc)), (IH _ (String _ "")), append_assoc.
  reflexivity.
Qed.

Lemma formatBits_digits fuel u :
  fuel <> O -> 0 <= u < 10 ^ Z.of_nat fuel ->
  digitsOnly (Strconv.formatBits fuel u "") = true
  /\ digitsValue (Strconv.formatBits fuel u "") 0 = u
  /\ Strconv.formatBits fuel u "" <> "".
Proof.
  revert u. induction fuel as [|fuel IH]; intros u Hfuel Hu; [done|].
  simpl Strconv.formatBits. destruct (Z.ltb_spec u 10) as [Hlt|Hge].
  - simpl. rewrite byteVal_byteOf by lia.
    repeat split; [|lia|done].
    apply andb_true_iff. split; [|done].
    apply andb_true_iff. split; apply Z.leb_le; lia.
  - rewrite formatBits_acc.
    assert (0 <= u / 10 < 10 ^ Z.of_nat fuel) as Hq.
    { rewrite Nat2Z.inj_succ, Z.pow_succ_r in Hu by lia.
      split; [apply Z.div_pos; lia|].
      apply Z.div_lt_upper_bound; lia. }
    assert (1 <= u / 10) as Hq1.
    { apply Z.div_le_lower_bound; lia. }
    assert (fuel <> O) as Hf.
    { intros ->. simpl in Hq. lia. }
    destruct (IH _ Hf Hq) as (Hd & Hv & Hne).
    pose proof (Z.mod_pos_bound u 10 ltac:(lia)) as Hm.
    rewrite digitsOnly_app, digitsValue_app, Hd, Hv. simpl.
    rewrite byteVal_byteOf by lia.
    repeat split.
    + apply andb_true_iff. split; [|done].
      apply andb_true_iff. split; apply Z.leb_le; lia.
    + pose proof (Z.div_mod u 10 ltac:(lia)). lia.
    + destruct (Strconv.formatBits fuel (u / 10) ""); done.
Qed.

Lemma parseUintLoop_digits s n :
  digitsOnly s = true -> 0 <= n ->
  digitsValue s n <= Strconv.maxUint64 ->
  Strconv.parseUintLoop s n = (digitsValue s n, None).
Proof.
  revert n. induction s as [|c s IH]; simpl; intros n Hd Hn Hmax; [done|].
  apply andb_true_iff in Hd as [Hc Hs].
  unfold Strconv.digitVal. rewrite Hc.
  apply andb_true_iff in Hc as [H1 H2]. apply Z.leb_le in H1, H2.
  pose proof (digitsValue_ge s (n * 10 + (byteVal c - 48)) Hs ltac:(lia)) as Hge.
  assert (Strconv.maxUint64 = 18446744073709551615) as Hm by reflexivity.
  assert (Strconv.maxUint64 / 10 + 1 = 1844674407370955162) as Hcut
    by reflexivity.
  rewrite Hcut.
  destruct (Z.geb_spec n 1844674407370955162) as [?|_]; [lia|].
  destruct (Z.gtb_spec (n * 10 + (byteVal c - 48)) Strconv.maxUint64)
    as [?|_]; [lia|].
  apply IH; [done|lia|done].
Qed.

Lemma Atoi_digits s :
  s <> "" -> digitsOnly s = true ->
  digitsValue s 0 <= Strconv.maxInt ->
  Strconv.Atoi s = inl (digitsValue s 0).
Proof.
  intros Hne Hd Hmax.
  assert (Strconv.maxInt = 9223372036854775807) as Hm by reflexivity.
  assert (Strconv.maxUint64 = 18446744073709551615) as Hu by reflexivity.
  pose proof (parseUintLoop_digits s 0 Hd ltac:(lia) ltac:(lia)) as Hp.
  remember (digitsValue s 0) as v eqn:Hv. clear Hv.
  unfold Strconv.Atoi, Strconv.ParseInt.
  destruct s as [|c s]; [done|].
  assert (Ascii.eqb c "-" = false /\ Ascii.eqb c "+" = false) as [-> ->].
  { simpl in Hd. apply andb_true_iff in Hd as [[H1 H2]%andb_true_iff _].
    apply Z.leb_le in H1, H2.
    split; apply Ascii.eqb_neq; intros ->; vm_compute in H1; done. }
  cbv beta iota zeta. unfold orb, Strconv.ParseUint. rewrite Hp.
  assert (2 ^ (Strconv.intSize - 1) = 9223372036854775808) as -> by reflexivity.
  unfold negb, andb.
  destruct (Z.geb_spec v 9223372036854775808) as [?|_]; [lia|].
  reflexivity.
Qed.

Lemma Atoi_minus_digits s :
  s <> "" -> digitsOnly s = true ->
  digitsValue s 0 <= - Strconv.minInt ->
  Strconv.Atoi (String "-" s) = inl (- digitsValue s 0).
Proof.
  intros Hne Hd Hmax.
  assert (Strconv.minInt = -9223372036854775808) as Hm by reflexivity.
  assert (Strconv.maxUint64 = 18446744073709551615) as Hu by reflexivity.
  pose proof (parseUintLoop_digits s 0 Hd ltac:(lia) ltac:(lia)) as Hp.
  remember (digitsValue s 0) as v eqn:Hv. clear Hv.
  unfold Strconv.Atoi, Strconv.ParseInt.
  change (Ascii.eqb "-" "-") with true. change (Ascii.eqb "-" "+") with false.
  cbv beta iota zeta. unfold orb, Strconv.ParseUint.
  destruct s as [|c s]; [done|]. rewrite Hp.
  assert (2 ^ (Strconv.intSize - 1) = 9223372036854775808) as -> by reflexivity.
  unfold negb, andb.
  destruct (Z.gtb_spec v 9223372036854775808) as [?|_]; [lia|].
  reflexivity.
Qed.

Lemma Atoi_FormatInt i :
  Strconv.minInt <= i <= Strconv.maxInt ->
  Strconv.Atoi (Strconv.FormatInt i) = inl i.
Proof.
  intros Hi.
  assert (Strconv.minInt = -9223372036854775808) as Hmin by reflexivity.
  assert (Strconv.maxInt = 9223372036854775807) as Hmax by reflexivity.
  assert (10 ^ Z.of_nat 20 = 100000000000000000000) as Hpow by reflexivity.
  unfold Strconv.FormatInt. destruct (Z.ltb_spec i 0) as [Hneg|Hpos].
  - destruct (formatBits_digits 20 (- i) ltac:(done) ltac:(lia)) as (Hd & Hv & Hne).
    rewrite Atoi_minus_digits; [|done|done|lia]. f_equal. lia.
  - destruct (formatBits_digits 20 i ltac:(done) ltac:(lia)) as (Hd & Hv & Hne).
    rewrite Atoi_digits; [|done|done|lia]. by f_equal.
Qed.

Lemma digitsOnly_no_dot s : digitsOnly s = true -> hasByte "." s = false.
Proof.
  induction s as [|c s IH]; simpl; [done|].
  intros [[H1 H2]%andb_true_iff Hs]%andb_true_iff.
  rewrite (IH Hs), orb_false_r. apply Ascii.eqb_neq. intros ->.
  vm_compute in H1. done.
Qed.

Lemma FormatInt_no_dot i :
  - 10 ^ 20 < i < 10 ^ 20 -> hasByte "." (Strconv.FormatInt i) = false.
Proof.
  intros Hi. unfold Strconv.FormatInt.
  assert (10 ^ Z.of_nat 20 = 10 ^ 20) as Hpow by reflexivity.
  destruct (Z.ltb_spec i 0) as [Hneg|Hpos].
  - destruct (formatBits_digits 20 (- i) ltac:(done) ltac:(lia)) as (Hd & _).
    cbn [hasByte]. by rewrite (digitsOnly_no_dot _ Hd).
  - destruct (formatBits_digits 20 i ltac:(done) ltac:(lia)) as (Hd & _).
    by apply digitsOnly_no_dot.
Qed.

(** What [strconv.Atoi] accepts: an optional sign and at least one digit. *)

Lemma parseUintLoop_ok_digits s n v :
  Strconv.parseUintLoop s n = (v, None) -> digitsOnly s = true.
Proof.
  revert n. induction s as [|c s IH]; simpl; intros n Hp; [done|].
  unfold Strconv.digitVal in Hp.
  destruct ((48 <=? byteVal c) && (byteVal c <=? 57)); [|done].
  destruct (n >=? Strconv.maxUint64 / 10 + 1); [done|].
  destruct (n * 10 + (byteVal c - 48) >? Strconv.maxUint64); [done|].
  by rewrite (IH _ Hp).
Qed.

Lemma parseUintLoop_range s n un :
  Strconv.parseUintLoop s n = (un, Some Strconv.ErrRange) ->
  un = Strconv.maxUint64.
Proof.
  revert n. induction s as [|c s IH]; simpl; intros n Hp; [done|].
  destruct (Strconv.digitVal c); [|done].
  destruct (n >=? Strconv.maxUint64 / 10 + 1); [by injection Hp|].
  destruct (n * 10 + z >? Strconv.maxUint64); [by injection Hp|].
  by apply IH in Hp.
Qed.

Lemma ParseInt_ok_digits c rest i :
  Strconv.ParseInt (String c rest) = (i, None) ->
  let s1 := if Ascii.eqb c "+" || Ascii.eqb c "-" then rest
            else String c rest in
  s1 <> "" /\ digitsOnly s1 = true.
Proof.
  unfold Strconv.ParseInt.
  set (s1 := if Ascii.eqb c "+" || Ascii.eqb c "-" then rest else String c rest).
  intros Hn. simpl.
  assert (s1 <> "") as Hne.
  { intros Hs1. rewrite Hs1 in Hn. simpl in Hn. done. }
  split; [done|].
  unfold Strconv.ParseUint in Hn. destruct s1 as [|d s1]; [done|].
  destruct (Strconv.parseUintLoop (String d s1) 0) as [un [[]|]] eqn:Hp.
  - done.
  - apply parseUintLoop_range in Hp as ->.
    destruct (Ascii.eqb c "-"); simpl in Hn; done.
  - by apply parseUintLoop_ok_digits in Hp.
Qed.

Lemma Atoi_accepted_shape s :
  accepted s ->
  exists c rest, s = String c rest
    /\ (if Ascii.eqb c "+" || Ascii.eqb c "-"
        then rest <> "" /\ digitsOnly rest = true
        else digitsOnly s = true).
Proof.
  intros [n Hn]. unfold Strconv.Atoi in Hn.
  destruct s as [|c rest]; [done|]. exists c, rest. split; [done|].
  destruct (Strconv.ParseInt (String c rest)) as [i [k|]] eqn:Hp; [done|].
  apply ParseInt_ok_digits in Hp. simpl in Hp.
  destruct (Ascii.eqb c "+" || Ascii.eqb c "-"); tauto.
Qed.

Lemma digit_bounds c :
  (48 <=? byteVal c) && (byteVal c <=? 57) = true -> 0 <= byteVal c - 48 <= 9.
Proof. intros [H1 H2]%andb_true_iff. apply Z.leb_le in H1, H2. lia. Qed.

(** A four-byte part that [Atoi] accepts ends in two digits, so its last
    two bytes are accepted as well. *)
Lemma accepted_year_suffix p0 :
  accepted p0 -> String.length p0 = 4%nat -> accepted (sliceFrom 2 p0).
Proof.
  intros Hacc Hlen.
  destruct (Atoi_accepted_shape p0 Hacc) as (c0 & rest & -> & Hshape).
  destruct rest as [|c1 [|c2 [|c3 [|? ?]]]]; try done. simpl.
  assert (digitsOnly (String c2 (String c3 "")) = true) as Hd.
  { destruct (Ascii.eqb c0 "+" || Ascii.eqb c0 "-"); simpl in Hshape |- *.
    - destruct Hshape as [_ H]. by apply andb_true_iff in H as [_ H].
    - apply andb_true_iff in Hshape as [_ H].
      by apply andb_true_iff in H as [_ H]. }
  exists (digitsValue (String c2 (String c3 "")) 0).
  apply Atoi_digits; [done|done|].
  simpl in Hd |- *.
  apply andb_true_iff in Hd as [H2 [H3 _]%andb_true_iff].
  apply digit_bounds in H2, H3.
  assert (Strconv.maxInt = 9223372036854775807) as -> by reflexivity. lia.
Qed.

(** C1 (amended): when [strconv.Atoi] rejects a dot-separated part and
    accepts the parts before it, the pass-through [parseVersion] fails with
    the error "invalid version part" that holds the part as [%q] prints it;
    the reducing [parseVersion] fails, for three or four parts (in the year
    form: when the rejected part is not the first one), with the error of
    that position, which holds the message of [Atoi] with the part as
    [strconv.Quote] prints it.  The quoted form is the part itself between
    double quotes when the part is printable ASCII without double quote and
    backslash.  In particular "1.a.3" fails with an error that shows "a". *)
Theorem parseVersion_rejected_part
    (quoteUnicode : string -> string) (versionStr : string)
    (pre : list string) (part : string) (post : list string)
    (e : Strconv.NumError) :
  Strings.Split versionStr "." = pre ++ part :: post ->
  Forall accepted pre ->
  Strconv.Atoi part = inr e ->
  MainGo.parseVersion quoteUnicode versionStr
  = inr ("invalid version part: " +:+ Strconv.Quote quoteUnicode part
           +:+ " is not a number")
  /\ ((List.length (pre ++ part :: post) = 3%nat
       \/ List.length (pre ++ part :: post) = 4%nat) ->
      (yearForm (pre ++ part :: post) = true -> pre <> []) ->
      Part001.parseVersion quoteUnicode versionStr
      = inr (partLabel (List.length pre) +:+ ": strconv.Atoi: parsing "
               +:+ Strconv.Quote quoteUnicode part +:+ ": "
               +:+ Strconv.numErr_Error (Strconv.Err e)))
  /\ (plainASCII part = true ->
      Strconv.Quote quoteUnicode part
      = String Strconv.dquote (part +:+ String Strconv.dquote ""))
  /\ MainGo.parseVersion quoteUnicode "1.a.3"
     = inr ("invalid version part: "
              +:+ String Strconv.dquote
                    ("a" +:+ String Strconv.dquote " is not a number"))
  /\ Part001.parseVersion quoteUnicode "1.a.3"
     = inr ("invalid minor version: strconv.Atoi: parsing "
              +:+ String Strconv.dquote
                    ("a" +:+ String Strconv.dquote ": invalid syntax")).
Proof.
  intros Hsplit Hpre He. repeat split.
  - unfold MainGo.parseVersion. rewrite Hsplit.
    rewrite checkParts_first_rejected; [done|done|by exists e].
  - intros Hlen Hyear. unfold Part001.parseVersion. rewrite Hsplit.
    pose proof (atoiOr_err quoteUnicode) as Herr.
    destruct pre as [|x0 pre].
    { assert (yearForm ([] ++ part :: post) = false) as Hy.
      { destruct (yearForm _); [by destruct Hyear|done]. }
      simpl in *. destruct post as [|a [|b [|c [|? ?]]]];
        simpl in Hlen; try lia.
      - simpl in Hy. rewrite Hy, (Herr _ _ _ He). reflexivity.
      - rewrite (Herr _ _ _ He). reflexivity. }
    apply Forall_cons in Hpre as [Hx0 Hpre].
    assert (exists m, Part001.atoiOr quoteUnicode "invalid major version" x0
                      = inl m) as [m0 Hm0].
    { destruct Hx0 as [m Hm]. exists m. by apply atoiOr_ok. }
    assert (String.length x0 = 4%nat ->
            exists m, Part001.atoiOr quoteUnicode "invalid year"
                        (sliceFrom 2 x0) = inl m) as Hyr.
    { intros Hl. destruct (accepted_year_suffix x0 Hx0 Hl) as [m Hm].
      exists m. by apply atoiOr_ok. }
    destruct pre as [|x1 pre].
    { simpl in *. destruct post as [|b [|c [|? ?]]]; simpl in Hlen; try lia.
      - destruct (Nat.eqb_spec (String.length x0) 4) as [Hl|_].
        + destruct (Hyr Hl) as [m ->]. simpl.
          rewrite (Herr _ _ _ He). reflexivity.
        + rewrite Hm0. simpl. rewrite (Herr _ _ _ He). reflexivity.
      - rewrite Hm0. simpl. rewrite (Herr _ _ _ He). reflexivity. }
    apply Forall_cons in Hpre as [[m1 Hx1] Hpre].
    destruct pre as [|x2 pre].
    { simpl in *. destruct post as [|c [|? ?]]; simpl in Hlen; try lia.
      - destruct (Nat.eqb_spec (String.length x0) 4) as [Hl|_].
        + destruct (Hyr Hl) as [m ->]. simpl.
          rewrite (atoiOr_ok _ _ _ _ Hx1). simpl.
          rewrite (Herr _ _ _ He). reflexivity.
        + rewrite Hm0. simpl. rewrite (atoiOr_ok _ _ _ _ Hx1). simpl.
          rewrite (Herr _ _ _ He). reflexivity.
      - rewrite Hm0. simpl. rewrite (atoiOr_ok _ _ _ _ Hx1). simpl.
        rewrite (Herr _ _ _ He). reflexivity. }
    apply Forall_cons in Hpre as [[m2 Hx2] Hpre].
    destruct pre as [|x3 pre].
    { simpl in *. destruct post as [|? ?]; simpl in Hlen; try lia.
      rewrite Hm0. simpl. rewrite (atoiOr_ok _ _ _ _ Hx1). simpl.
      rewrite (atoiOr_ok _ _ _ _ Hx2). simpl.
      rewrite (Herr _ _ _ He). reflexivity. }
    simpl in Hlen. rewrite length_app in Hlen. simpl in Hlen. lia.
  - apply Quote_plain.
Qed.

(** The theorem at "1.a.3", whose second part is rejected. *)
Lemma parseVersion_rejected_part_witness :
  Strings.Split "1.a.3" "." = ["1"] ++ "a" :: ["3"]
  /\ Forall accepted ["1"]
  /\ Strconv.Atoi "a"
     = inr {| Strconv.Func := "Atoi"; Strconv.Num := "a";
              Strconv.Err := Strconv.ErrSyntax |}
  /\ MainGo.parseVersion asciiOnly "1.a.3"
     = inr ("invalid version part: " +:+ Strconv.Quote asciiOnly "a"
              +:+ " is not a number")
  /\ Part001.parseVersion asciiOnly "1.a.3"
     = inr ("invalid minor version: strconv.Atoi: parsing "
              +:+ Strconv.Quote asciiOnly "a" +:+ ": invalid syntax")
  /\ Strconv.Quote asciiOnly "a"
     = String Strconv.dquote ("a" +:+ String Strconv.dquote "").
Proof.
  assert (Strings.Split "1.a.3" "." = ["1"] ++ "a" :: ["3"]) as H1
    by reflexivity.
  assert (Forall accepted ["1"]) as H2.
  { constructor; [|constructor]. exists 1. reflexivity. }
  assert (Strconv.Atoi "a"
          = inr {| Strconv.Func := "Atoi"; Strconv.Num := "a";
                   Strconv.Err := Strconv.ErrSyntax |}) as H3
    by reflexivity.
  destruct (parseVersion_rejected_part asciiOnly "1.a.3" ["1"] "a" ["3"] _
              H1 H2 H3) as (Ha & Hb & Hc & _).
  split; [exact H1|]. split; [exact H2|]. split; [exact H3|].
  split; [exact Ha|]. split.
  - apply Hb; [by left|]. intros _. discriminate.
  - apply Hc. reflexivity.
Defined.

(** C1, the claim as stated fails: a part with a sign is not a
    non-negative integer, yet [strconv.Atoi] accepts it and both revisions
    return a version; with a part count other than 3 or 4 the reducing
    revision reports the format, not the part; and [%q] escapes a double
    quote, so the part is not in the message byte for byte. *)
Lemma parseVersion_signed_part_accepted :
  Strconv.Atoi "-2" = inl (-2)
  /\ MainGo.parseVersion asciiOnly "1.-2.3" = inl "1.-2.3"
  /\ Part001.parseVersion asciiOnly "1.-2.3" = inl "1.-2.3"
  /\ Part001.parseVersion asciiOnly "1.a" = inr "invalid version format: 1.a"
  /\ MainGo.parseVersion asciiOnly
       ("1.a" +:+ String Strconv.dquote "b.3")
     = inr ("invalid version part: "
              +:+ String Strconv.dquote
                    ("a\" +:+ String Strconv.dquote
                       ("b" +:+ String Strconv.dquote " is not a number")))
  /\ containsString ("a" +:+ String Strconv.dquote "b")
       ("invalid version part: "
          +:+ String Strconv.dquote
                ("a\" +:+ String Strconv.dquote
                   ("b" +:+ String Strconv.dquote " is not a number")))
     = false.
Proof. repeat split. Qed.

(** C2: for a version string of three dot-separated parts, a first part of
    four bytes contributes only its last two bytes, read by [Atoi], as the
    major component, and a first part of any other length is read whole;
    minor and build are reduced by 256 and 65536.  In particular
    "2024.10.11" gives "24.10.11". *)
Theorem parseVersion_three_parts
    (quoteUnicode : string -> string) (versionStr p0 p1 p2 : string)
    (minor build : Z) :
  Strings.Split versionStr "." = [p0; p1; p2] ->
  Strconv.Atoi p1 = inl minor ->
  Strconv.Atoi p2 = inl build ->
  (forall major,
      String.length p0 = 4%nat ->
      Strconv.Atoi (sliceFrom 2 p0) = inl major ->
      (exists a b, p0 = String a (String b (sliceFrom 2 p0)))
      /\ String.length (sliceFrom 2 p0) = 2%nat
      /\ Part001.parseVersion quoteUnicode versionStr
         = inl (Strconv.FormatInt major +:+ "."
                  +:+ Strconv.FormatInt (Z.rem minor 256) +:+ "."
                  +:+ Strconv.FormatInt (Z.rem build 65536)))
  /\ (forall major,
         String.length p0 <> 4%nat ->
         Strconv.Atoi p0 = inl major ->
         Part001.parseVersion quoteUnicode versionStr
         = inl (Strconv.FormatInt major +:+ "."
                  +:+ Strconv.FormatInt (Z.rem minor 256) +:+ "."
                  +:+ Strconv.FormatInt (Z.rem build 65536)))
  /\ Part001.parseVersion quoteUnicode "2024.10.11" = inl "24.10.11".
Proof.
  intros Hs H1 H2. split; [|split; [|reflexivity]].
  - intros major Hlen H0. split; [|split].
    + destruct p0 as [|a [|b rest]]; try done. by exists a, b.
    + destruct p0 as [|a [|b [|c [|d [|? ?]]]]]; done.
    + apply (parseVersion_three _ _ p0 p1 p2); try done.
      by rewrite Hlen.
  - intros major Hlen H0.
    apply (parseVersion_three _ _ p0 p1 p2); try done.
    by destruct (Nat.eqb_spec (String.length p0) 4).
Qed.

(** The theorem at "2024.10.11", in the year form. *)
Lemma parseVersion_three_parts_witness :
  Strings.Split "2024.10.11" "." = ["2024"; "10"; "11"]
  /\ Strconv.Atoi "10" = inl 10
  /\ Strconv.Atoi "11" = inl 11
  /\ Strconv.Atoi (sliceFrom 2 "2024") = inl 24
  /\ Part001.parseVersion asciiOnly "2024.10.11"
     = inl (Strconv.FormatInt 24 +:+ "."
              +:+ Strconv.FormatInt (Z.rem 10 256) +:+ "."
              +:+ Strconv.FormatInt (Z.rem 11 65536)).
Proof.
  assert (Strings.Split "2024.10.11" "." = ["2024"; "10"; "11"]) as Hs
    by reflexivity.
  assert (Strconv.Atoi "10" = inl 10) as H1 by reflexivity.
  assert (Strconv.Atoi "11" = inl 11) as H2 by reflexivity.
  assert (Strconv.Atoi (sliceFrom 2 "2024") = inl 24) as H0 by reflexivity.
  destruct (parseVersion_three_parts asciiOnly "2024.10.11" "2024" "10" "11"
              10 11 Hs H1 H2) as (Hyear & _ & _).
  destruct (Hyear 24 eq_refl H0) as (_ & _ & Hr).
  split; [exact Hs|]. split; [exact H1|]. split; [exact H2|].
  split; [exact H0|exact Hr].
Defined.

(** What the code computes for a version string of four dot-separated
    parts that [Atoi] accepts: the build is [part3 * 1000 + part4] in the
    64-bit [int], minor and build are then taken through Go's remainders
    [% 256] and [% 65536], and the result is "major.minor.build".  When
    minor is not negative and [part3 * 1000 + part4] is between 0 and the
    largest [int], these are the sum itself and the mathematical residues,
    as the specification has them.  In particular "1.2.3.456" gives
    "1.2.3456" and "1.300.70000" gives "1.44.4464". *)
Theorem parseVersion_four_parts
    (quoteUnicode : string -> string) (versionStr p0 p1 p2 p3 : string)
    (major minor build extra : Z) :
  Strings.Split versionStr "." = [p0; p1; p2; p3] ->
  Strconv.Atoi p0 = inl major ->
  Strconv.Atoi p1 = inl minor ->
  Strconv.Atoi p2 = inl build ->
  Strconv.Atoi p3 = inl extra ->
  Part001.parseVersion quoteUnicode versionStr
  = inl (Strconv.FormatInt major +:+ "."
           +:+ Strconv.FormatInt (Z.rem minor 256) +:+ "."
           +:+ Strconv.FormatInt
                 (Z.rem (Strconv.wrapInt (build * 1000 + extra)) 65536))
  /\ (0 <= minor ->
      0 <= build * 1000 + extra <= Strconv.maxInt ->
      Part001.parseVersion quoteUnicode versionStr
      = inl (Strconv.FormatInt major +:+ "."
               +:+ Strconv.FormatInt (minor mod 256) +:+ "."
               +:+ Strconv.FormatInt ((build * 1000 + extra) mod 65536)))
  /\ Part001.parseVersion quoteUnicode "1.2.3.456" = inl "1.2.3456"
  /\ Part001.parseVersion quoteUnicode "1.300.70000" = inl "1.44.4464".
Proof.
  intros Hs H0 H1 H2 H3.
  pose proof (parseVersion_four quoteUnicode _ _ _ _ _ _ _ _ _
                Hs H0 H1 H2 H3) as Hgo.
  split; [exact Hgo|]. split; [|split; reflexivity].
  intros Hminor Hsum. rewrite Hgo.
  rewrite wrapInt_in_range.
  - rewrite !Z.rem_mod_nonneg by lia. reflexivity.
  - assert (Strconv.minInt = -9223372036854775808) as -> by reflexivity. lia.
Qed.

(** The theorem at "1.2.3.456", within the range of [int]. *)
Lemma parseVersion_four_parts_witness :
  Strings.Split "1.2.3.456" "." = ["1"; "2"; "3"; "456"]
  /\ Strconv.Atoi "1" = inl 1
  /\ Strconv.Atoi "2" = inl 2
  /\ Strconv.Atoi "3" = inl 3
  /\ Strconv.Atoi "456" = inl 456
  /\ 0 <= 2
  /\ 0 <= 3 * 1000 + 456 <= Strconv.maxInt
  /\ Part001.parseVersion asciiOnly "1.2.3.456"
     = inl (Strconv.FormatInt 1 +:+ "."
              +:+ Strconv.FormatInt (2 mod 256) +:+ "."
              +:+ Strconv.FormatInt ((3 * 1000 + 456) mod 65536)).
Proof.
  assert (Strings.Split "1.2.3.456" "." = ["1"; "2"; "3"; "456"]) as Hs
    by reflexivity.
  assert (Strconv.Atoi "1" = inl 1) as H0 by reflexivity.
  assert (Strconv.Atoi "2" = inl 2) as H1 by reflexivity.
  assert (Strconv.Atoi "3" = inl 3) as H2 by reflexivity.
  assert (Strconv.Atoi "456" = inl 456) as H3 by reflexivity.
  assert (0 <= 2) as Hm by lia.
  assert (0 <= 3 * 1000 + 456 <= Strconv.maxInt) as Hb
    by (split; vm_compute; discriminate).
  destruct (parseVersion_four_parts asciiOnly "1.2.3.456" "1" "2" "3" "456"
              1 2 3 456 Hs H0 H1 H2 H3) as (_ & Hr & _).
  split; [exact Hs|]. split; [exact H0|]. split; [exact H1|].
  split; [exact H2|]. split; [exact H3|]. split; [exact Hm|].
  split; [exact Hb|exact (Hr Hm Hb)].
Defined.

(** C3, a defect of the code: with the third part at the largest [int]
    the product by 1000 wraps around and the remainder keeps its sign, so
    the build printed is -1000, not [(part3 * 1000 + part4) mod 65536 =
    64536].  The comment above the two remainders says they ensure that
    minor and build fit within their ranges; a negative component does
    not. *)
Lemma parseVersion_build_wraps :
  Strings.Split "1.2.9223372036854775807.0" "."
  = ["1"; "2"; "9223372036854775807"; "0"]
  /\ Strconv.Atoi "9223372036854775807" = inl 9223372036854775807
  /\ Part001.parseVersion asciiOnly "1.2.9223372036854775807.0"
     = inl "1.2.-1000"
  /\ (9223372036854775807 * 1000 + 0) mod 65536 = 64536.
Proof. repeat split. Qed.

(** ** The format error of [part_001] *)

Lemma atoiOr_label qu label s msg :
  Part001.atoiOr qu label s = inr msg ->
  exists rest, msg = label +:+ ": " +:+ rest.
Proof.
  unfold Part001.atoiOr. destruct (Strconv.Atoi s); [done|].
  intros [= <-]. eauto.
Qed.

(** C4: the reducing [parseVersion] fails with the error "invalid version
    format" exactly when the number of dot-separated parts is neither 3 nor
    4, and the message then ends with the version string as given.  In
    particular "1.2" fails with this error. *)
Theorem parseVersion_invalid_format
    (quoteUnicode : string -> string) (versionStr : string) :
  ((exists msg, Part001.parseVersion quoteUnicode versionStr = inr msg
                /\ isInvalidVersionFormat msg = true)
   <-> (List.length (Strings.Split versionStr ".") <> 3%nat
        /\ List.length (Strings.Split versionStr ".") <> 4%nat))
  /\ ((exists msg, Part001.parseVersion quoteUnicode versionStr = inr msg
                   /\ isInvalidVersionFormat msg = true)
      -> Part001.parseVersion quoteUnicode versionStr
         = inr ("invalid version format: " +:+ versionStr))
  /\ Part001.parseVersion quoteUnicode "1.2"
     = inr "invalid version format: 1.2".
Proof.
  assert (forall msg,
             (List.length (Strings.Split versionStr ".") = 3%nat
              \/ List.length (Strings.Split versionStr ".") = 4%nat) ->
             Part001.parseVersion quoteUnicode versionStr = inr msg ->
             isInvalidVersionFormat msg = false) as Hparts.
  { intros msg Hlen. unfold Part001.parseVersion.
    destruct (Strings.Split versionStr ".") as [|p0 [|p1 [|p2 [|p3 [|? ?]]]]];
      simpl in Hlen; try lia.
    - destruct (String.length p0 =? 4)%nat.
      + destruct (Part001.atoiOr _ "invalid year" _) eqn:E0; simpl;
          [|apply atoiOr_label in E0 as [r ->]; by intros [= <-]].
        destruct (Part001.atoiOr _ "invalid minor version" _) eqn:E1; simpl;
          [|apply atoiOr_label in E1 as [r ->]; by intros [= <-]].
        destruct (Part001.atoiOr _ "invalid build version" _) eqn:E2; simpl;
          [|apply atoiOr_label in E2 as [r ->]; by intros [= <-]].
        done.
      + destruct (Part001.atoiOr _ "invalid major version" _) eqn:E0; simpl;
          [|apply atoiOr_label in E0 as [r ->]; by intros [= <-]].
        destruct (Part001.atoiOr _ "invalid minor version" _) eqn:E1; simpl;
          [|apply atoiOr_label in E1 as [r ->]; by intros [= <-]].
        destruct (Part001.atoiOr _ "invalid build version" _) eqn:E2; simpl;
          [|apply atoiOr_label in E2 as [r ->]; by intros [= <-]].
        done.
    - destruct (Part001.atoiOr _ "invalid major version" _) eqn:E0; simpl;
        [|apply atoiOr_label in E0 as [r ->]; by intros [= <-]].
      destruct (Part001.atoiOr _ "invalid minor version" _) eqn:E1; simpl;
        [|apply atoiOr_label in E1 as [r ->]; by intros [= <-]].
      destruct (Part001.atoiOr _ "invalid build version" _) eqn:E2; simpl;
        [|apply atoiOr_label in E2 as [r ->]; by intros [= <-]].
      destruct (Part001.atoiOr _ "invalid extra build number" _) eqn:E3; simpl;
        [|apply atoiOr_label in E3 as [r ->]; by intros [= <-]].
      done. }
  assert (List.length (Strings.Split versionStr ".") <> 3%nat ->
          List.length (Strings.Split versionStr ".") <> 4%nat ->
          Part001.parseVersion quoteUnicode versionStr
          = inr ("invalid version format: " +:+ versionStr)) as Hother.
  { intros H3 H4. unfold Part001.parseVersion.
    destruct (Strings.Split versionStr ".") as [|p0 [|p1 [|p2 [|p3 [|? ?]]]]];
      simpl in H3, H4; done. }
  assert ((exists msg, Part001.parseVersion quoteUnicode versionStr = inr msg
                       /\ isInvalidVersionFormat msg = true)
          -> List.length (Strings.Split versionStr ".") <> 3%nat
             /\ List.length (Strings.Split versionStr ".") <> 4%nat) as Hfwd.
  { intros (msg & Hmsg & Hfmt).
    split; intros Hl; rewrite (Hparts msg) in Hfmt; auto; done. }
  split; [split|split].
  - exact Hfwd.
  - intros [H3 H4]. eexists. split; [by apply Hother|].
    unfold isInvalidVersionFormat. simpl. by destruct versionStr.
  - intros Hex. destruct (Hfwd Hex). by apply Hother.
  - reflexivity.
Qed.

(** ** Re-normalising a version *)

Lemma rem_small_abs a b : - b < a < b -> Z.rem a b = a.
Proof.
  intros Ha. destruct (Z.le_gt_cases 0 a) as [Hpos|Hneg].
  - apply Z.rem_small. lia.
  - replace a with (- (- a)) at 1 by lia.
    rewrite Z.rem_opp_l by lia. rewrite Z.rem_small by lia. lia.
Qed.

Lemma Split_three a b c :
  hasByte "." a = false -> hasByte "." b = false -> hasByte "." c = false ->
  Strings.Split (a +:+ "." +:+ b +:+ "." +:+ c) "." = [a; b; c].
Proof.
  intros Ha Hb Hc.
  change (a +:+ "." +:+ b +:+ "." +:+ c)
    with (a +:+ String "." (b +:+ String "." c)).
  rewrite (Split_app_sep a _ "." Ha), (Split_app_sep b _ "." Hb).
  by rewrite (Split_no_sep c "." Hc).
Qed.




(** ** Separators and trailing backslashes *)

Lemma hasByte_app c s t : hasByte c (s +:+ t) = hasByte c s || hasByte c t.
Proof.
  induction s as [|a s IH]; simpl; [done|]. by rewrite IH, orb_assoc.
Qed.

Lemma ReplaceAll_no_old s old new :
  old <> new -> hasByte old (Strings.ReplaceAll s old new) = false.
Proof.
  intros Hne. induction s as [|c s IH]; simpl; [done|].
  rewrite IH, orb_false_r.
  destruct (Ascii.eqb_spec c old) as [->|Hc]; by apply Ascii.eqb_neq.
Qed.

Lemma ReplaceAll_id s old new :
  hasByte old s = false -> Strings.ReplaceAll s old new = s.
Proof.
  induction s as [|c s IH]; simpl; [done|].
  intros [Hc Hs]%orb_false_iff. by rewrite Hc, (IH Hs).
Qed.

Lemma ReplaceAll_length s old new :
  String.length (Strings.ReplaceAll s old new) = String.length s.
Proof. induction s as [|c s IH]; simpl; congruence. Qed.

Lemma ReplaceAll_get s old new i :
  String.get i (Strings.ReplaceAll s old new)
  = (fun c => if Ascii.eqb c old then new else c) <$> String.get i s.
Proof.
  revert i. induction s as [|c s IH]; intros i; simpl; [done|].
  destruct i as [|i]; [done|apply IH].
Qed.

Lemma NormalizePath_ReplaceAll s :
  Part000.NormalizePath s = Strings.ReplaceAll s "/" Strconv.backslash.
Proof.
  unfold Part000.NormalizePath, Part000.FromSlash.
  change (Ascii.eqb Part000.Separator "/") with false. cbv iota.
  change Part000.Separator with Strconv.backslash.
  induction s as [|c s IH]; simpl; [done|]. rewrite IH. f_equal.
  destruct (Ascii.eqb_spec c Strconv.backslash) as [->|Hc]; [done|].
  reflexivity.
Qed.

Lemma allByte_length c s :
  allByte c s = true -> trailingCount c s = String.length s.
Proof. destruct s as [|a s]; simpl; [done|]. by intros ->. Qed.

Lemma allByte_repeat c s :
  allByte c s = true -> s = repeatByte c (String.length s).
Proof.
  induction s as [|a s IH]; simpl; [done|].
  intros [Ha Hs]%andb_true_iff. apply Ascii.eqb_eq in Ha as ->.
  by rewrite <- (IH Hs).
Qed.

Lemma TrimRight_empty_iff c s :
  Strings.TrimRight s c = "" <-> allByte c s = true.
Proof.
  induction s as [|a s IH]; simpl; [done|].
  destruct (Strings.TrimRight s c) as [|b r].
  - rewrite (proj1 IH eq_refl), andb_true_r.
    destruct (Ascii.eqb a c); done.
  - split; [done|]. intros [_ Hs]%andb_true_iff.
    by apply IH in Hs.
Qed.

Lemma TrimRight_decompose c s :
  Strings.TrimRight s c +:+ repeatByte c (trailingCount c s) = s.
Proof.
  induction s as [|a s IH]; [done|].
  cbn [trailingCount]. destruct (allByte c (String a s)) eqn:Hall.
  - rewrite (proj2 (TrimRight_empty_iff c (String a s)) Hall).
    symmetry. exact (allByte_repeat c (String a s) Hall).
  - cbn [Strings.TrimRight].
    destruct (Strings.TrimRight s c) as [|b r] eqn:Htrim.
    + pose proof (proj1 (TrimRight_empty_iff c s) Htrim) as Hs.
      simpl in Hall. rewrite Hs, andb_true_r in Hall. rewrite Hall.
      simpl in IH |- *. by rewrite IH.
    + simpl in IH |- *. by rewrite IH.
Qed.

Lemma trailingCount_TrimRight c s :
  trailingCount c (Strings.TrimRight s c) = 0%nat.
Proof.
  induction s as [|a s IH]; [done|]. cbn [Strings.TrimRight].
  destruct (Strings.TrimRight s c) as [|b r] eqn:Htrim.
  - destruct (Ascii.eqb a c) eqn:Ha; [done|]. simpl. by rewrite Ha.
  - cbn [trailingCount]. destruct (allByte c (String a (String b r))) eqn:Hall.
    + assert (allByte c (String b r) = true) as Hbr.
      { change (Ascii.eqb a c && allByte c (String b r) = true) in Hall.
        by apply andb_true_iff in Hall as [_ Hall]. }
      apply allByte_length in Hbr. rewrite IH in Hbr. done.
    + exact IH.
Qed.

Lemma trailingCount_zero_TrimRight c s :
  trailingCount c s = 0%nat -> Strings.TrimRight s c = s.
Proof.
  intros Hz. pose proof (TrimRight_decompose c s) as Hd.
  rewrite Hz in Hd. simpl in Hd. by rewrite append_empty_r in Hd.
Qed.

Lemma hasByte_TrimRight d c s :
  hasByte d s = false -> hasByte d (Strings.TrimRight s c) = false.
Proof.
  intros Hs. rewrite <- (TrimRight_decompose c s), hasByte_app in Hs.
  by apply orb_false_iff in Hs as [Hs _].
Qed.

Lemma HasSuffix_cons a b s c :
  Strings.HasSuffix (String a (String b s)) (String c "")
  = Strings.HasSuffix (String b s) (String c "").
Proof.
  unfold Strings.HasSuffix. cbn [String.length].
  replace (S (S (String.length s)) - 1)%nat with (S (String.length s)) by lia.
  replace (S (String.length s) - 1)%nat with (String.length s) by lia.
  reflexivity.
Qed.

Lemma HasSuffix_one c s :
  Strings.HasSuffix s (String c "") = negb (trailingCount c s =? 0)%nat.
Proof.
  induction s as [|a s IH]; [done|].
  destruct s as [|b s].
  - unfold Strings.HasSuffix. simpl. rewrite andb_true_r.
    by destruct (Ascii.eqb a c).
  - rewrite HasSuffix_cons, IH. cbn [trailingCount].
    destruct (allByte c (String a (String b s))) eqn:Hall; [|done].
    assert (allByte c (String b s) = true) as Hbs.
    { change (Ascii.eqb a c && allByte c (String b s) = true) in Hall.
      by apply andb_true_iff in Hall as [_ Hall]. }
    by rewrite Hbs.
Qed.

Lemma allByte_snoc c s : allByte c (s +:+ String c "") = allByte c s.
Proof.
  induction s as [|a s IH]; simpl.
  - by rewrite Ascii.eqb_refl.
  - by rewrite IH.
Qed.

Lemma length_snoc s c : String.length (s +:+ String c "") = S (String.length s).
Proof. induction s as [|a s IH]; simpl; congruence. Qed.

Lemma trailingCount_snoc c s :
  trailingCount c (s +:+ String c "") = S (trailingCount c s).
Proof.
  induction s as [|a s IH].
  - simpl. by rewrite Ascii.eqb_refl.
  - change (String a s +:+ String c "") with (String a (s +:+ String c "")).
    cbn [trailingCount].
    change (String a (s +:+ String c "")) with (String a s +:+ String c "").
    rewrite allByte_snoc, length_snoc.
    destruct (allByte c (String a s)); [done|exact IH].
Qed.

Lemma enforce_unfold path :
  MainGo.normalizeInstallLocation path
  = Strings.ReplaceAll path "/" Strconv.backslash
      +:+ (if (trailingCount Strconv.backslash
                 (Strings.ReplaceAll path "/" Strconv.backslash) =? 0)%nat
           then String Strconv.backslash "" else "").
Proof.
  unfold MainGo.normalizeInstallLocation. rewrite HasSuffix_one, negb_involutive.
  destruct (trailingCount _ _ =? 0)%nat; [done|by rewrite append_empty_r].
Qed.

(** C7 (amended): both revisions of [normalizeInstallLocation] first
    replace every forward slash with a backslash and leave the other bytes
    as they are.  The trimming revision then removes all the trailing
    backslashes, so its result has none.  The other revision appends one
    backslash when the replaced path does not end in one and otherwise
    leaves the path as it is: its result ends in at least one backslash, in
    exactly one unless the replaced path ended in several. *)
Theorem normalizeInstallLocation_trailing (path : string) :
  hasByte "/" (Strings.ReplaceAll path "/" Strconv.backslash) = false
  /\ (forall i,
         String.get i (Strings.ReplaceAll path "/" Strconv.backslash)
         = (fun c => if Ascii.eqb c "/" then Strconv.backslash else c)
             <$> String.get i path)
  /\ Part000.normalizeInstallLocation path
       +:+ repeatByte Strconv.backslash
             (trailingCount Strconv.backslash
                (Strings.ReplaceAll path "/" Strconv.backslash))
     = Strings.ReplaceAll path "/" Strconv.backslash
  /\ trailingCount Strconv.backslash (Part000.normalizeInstallLocation path)
     = 0%nat
  /\ MainGo.normalizeInstallLocation path
     = Strings.ReplaceAll path "/" Strconv.backslash
         +:+ (if (trailingCount Strconv.backslash
                    (Strings.ReplaceAll path "/" Strconv.backslash) =? 0)%nat
              then String Strconv.backslash "" else "")
  /\ trailingCount Strconv.backslash (MainGo.normalizeInstallLocation path)
     = Nat.max 1 (trailingCount Strconv.backslash
                    (Strings.ReplaceAll path "/" Strconv.backslash)).
Proof.
  split; [by apply ReplaceAll_no_old|].
  split; [intros i; apply ReplaceAll_get|].
  split; [apply TrimRight_decompose|].
  split; [apply trailingCount_TrimRight|].
  split; [apply enforce_unfold|].
  rewrite enforce_unfold.
  destruct (Nat.eqb_spec
              (trailingCount Strconv.backslash
                 (Strings.ReplaceAll path "/" Strconv.backslash)) 0)
    as [Hz|Hnz].
  - rewrite trailingCount_snoc, Hz. reflexivity.
  - rewrite append_empty_r. lia.
Qed.

(** C7, the claim as stated fails: on a path that ends in two separators
    the revision that adds a backslash returns a path that ends in two
    backslashes. *)
Lemma normalizeInstallLocation_keeps_two :
  MainGo.normalizeInstallLocation "C:/Tools//"
  = "C:\Tools" +:+ String Strconv.backslash (String Strconv.backslash "")
  /\ trailingCount Strconv.backslash
       (MainGo.normalizeInstallLocation "C:/Tools//") = 2%nat.
Proof. split; reflexivity. Qed.

(** C9: [normalizeInstallLocation] is idempotent, in the revision that
    adds a trailing backslash and in the revision that trims them. *)
Theorem normalizeInstallLocation_idempotent (path : string) :
  MainGo.normalizeInstallLocation (MainGo.normalizeInstallLocation path)
  = MainGo.normalizeInstallLocation path
  /\ Part000.normalizeInstallLocation (Part000.normalizeInstallLocation path)
     = Part000.normalizeInstallLocation path.
Proof.
  pose proof (normalizeInstallLocation_trailing path)
    as (Hslash & _ & _ & Htrim & Henf & Hcount).
  split.
  - assert (hasByte "/" (MainGo.normalizeInstallLocation path) = false) as Hs.
    { rewrite Henf, hasByte_app, Hslash.
      by destruct (trailingCount _ _ =? 0)%nat. }
    rewrite (enforce_unfold (MainGo.normalizeInstallLocation path)).
    rewrite (ReplaceAll_id _ _ _ Hs), Hcount.
    destruct (Nat.eqb_spec (Nat.max 1 (trailingCount Strconv.backslash
               (Strings.ReplaceAll path "/" Strconv.backslash))) 0); [lia|].
    apply append_empty_r.
  - unfold Part000.normalizeInstallLocation in *.
    rewrite ReplaceAll_id by by apply hasByte_TrimRight.
    by apply trailingCount_zero_TrimRight.
Qed.

(** ** [resolveInstallLocation] *)

(** C8: [resolveInstallLocation] returns a result for every input and
    every table: the identifier of the table when the normalised path is
    one of its keys, and otherwise the normalised path, which is the input
    with every forward slash replaced by a backslash and nothing else
    changed; the empty string is passed through as the empty string. *)
Theorem resolveInstallLocation_total
    (installLocation : string) (dirs : gmap string string) :
  ((exists identifier,
       dirs !! Part000.NormalizePath installLocation = Some identifier
       /\ Part000.resolveInstallLocation installLocation dirs = identifier)
   \/ (dirs !! Part000.NormalizePath installLocation = None
       /\ Part000.resolveInstallLocation installLocation dirs
          = Part000.NormalizePath installLocation))
  /\ String.length (Part000.NormalizePath installLocation)
     = String.length installLocation
  /\ (forall i,
         String.get i (Part000.NormalizePath installLocation)
         = (fun c => if Ascii.eqb c "/" then Strconv.backslash else c)
             <$> String.get i installLocation)
  /\ Part000.NormalizePath "" = "".
Proof.
  split; [|split; [|split; [|reflexivity]]].
  - unfold Part000.resolveInstallLocation.
    destruct (dirs !! Part000.NormalizePath installLocation) as [id|];
      [left; by exists id|by right].
  - rewrite NormalizePath_ReplaceAll. apply ReplaceAll_length.
  - intros i. rewrite NormalizePath_ReplaceAll. apply ReplaceAll_get.
Qed.

Lemma mapLiteral_lookup_acc (entries : list (string * string))
    (m : gmap string string) k v :
  (forall k' v', (k', v') ∈ entries -> k' = k -> v' = v) ->
  (m !! k = Some v \/ exists v0, (k, v0) ∈ entries) ->
  foldl (fun m kv => <[kv.1 := kv.2]> m) m entries !! k = Some v.
Proof.
  revert m. induction entries as [|[k1 v1] entries IH]; intros m Hall Hin.
  - destruct Hin as [Hm|[v0 Hv0]]; [done|]. by apply elem_of_nil in Hv0.
  - simpl. apply IH.
    + intros k' v' Hk'. apply Hall. by right.
    + destruct (decide (k1 = k)) as [->|Hne].
      * left. rewrite (Hall k v1); [apply lookup_insert_eq|by left|done].
      * destruct Hin as [Hm|[v0 Hv0]].
        -- left. by rewrite lookup_insert_ne.
        -- apply elem_of_cons in Hv0 as [[= ? ?]|Hv0]; [done|].
           right. by exists v0.
Qed.

Lemma mapLiteral_lookup entries k v :
  (k, v) ∈ entries ->
  (forall k' v', (k', v') ∈ entries -> k' = k -> v' = v) ->
  Part000.mapLiteral entries !! k = Some v.
Proof.
  intros Hin Hall. apply mapLiteral_lookup_acc; [done|]. right. by exists v.
Qed.

(** C5: [resolveInstallLocation] returns the identifier of the table when
    the path, with its separators normalised, is equal to a key of the
    table, and the normalised path otherwise; a key that is only a prefix
    of the path does not match.  With the table of
    [getStandardDirectories], the Desktop directory of the user's home
    gives "DesktopFolder" (the path [filepath.Join] builds for it has no
    forward slash and is not the path of a standard directory with another
    identifier). *)
Theorem resolveInstallLocation_exact_match
    (Join : list string -> string) (homeDir : string) :
  hasByte "/" (Join [homeDir; "Desktop"]) = false ->
  Forall (fun kv => kv.1 = Join [homeDir; "Desktop"] -> kv.2 = "DesktopFolder")
    (Part000.standardEntries Join homeDir) ->
  (forall installLocation (dirs : gmap string string) identifier,
      dirs !! Strings.ReplaceAll installLocation "/" Strconv.backslash
      = Some identifier ->
      Part000.resolveInstallLocation installLocation dirs = identifier)
  /\ (forall installLocation (dirs : gmap string string),
         dirs !! Strings.ReplaceAll installLocation "/" Strconv.backslash
         = None ->
         Part000.resolveInstallLocation installLocation dirs
         = Strings.ReplaceAll installLocation "/" Strconv.backslash)
  /\ Part000.resolveInstallLocation "C:/Program Files/Foo"
       {[ "C:\Program Files" := "ProgramFilesFolder" ]}
     = "C:\Program Files\Foo"
  /\ (exists dirs,
         Part000.getStandardDirectories Join (Some homeDir) = Some dirs
         /\ Part000.resolveInstallLocation (Join [homeDir; "Desktop"]) dirs
            = "DesktopFolder").
Proof.
  intros Hslash Hkeys. split; [|split; [|split]].
  - intros il dirs id Hid. unfold Part000.resolveInstallLocation.
    by rewrite NormalizePath_ReplaceAll, Hid.
  - intros il dirs Hnone. unfold Part000.resolveInstallLocation.
    by rewrite NormalizePath_ReplaceAll, Hnone.
  - unfold Part000.resolveInstallLocation.
    rewrite NormalizePath_ReplaceAll, lookup_singleton_ne; [done|].
    vm_compute. discriminate.
  - eexists. split; [reflexivity|].
    unfold Part000.resolveInstallLocation.
    rewrite NormalizePath_ReplaceAll, (ReplaceAll_id _ _ _ Hslash).
    rewrite (mapLiteral_lookup _ (Join [homeDir; "Desktop"]) "DesktopFolder");
      [done| |].
    + unfold Part000.standardEntries. do 11 apply list_elem_of_further.
      apply list_elem_of_here.
    + intros k' v' Hin Hk'. rewrite Forall_forall in Hkeys.
      apply (Hkeys (k', v') Hin Hk').
Qed.

(** The theorem for the home directory C:\Users\me. *)
Lemma resolveInstallLocation_exact_match_witness :
  hasByte "/" (joinBackslash ["C:\Users\me"; "Desktop"]) = false
  /\ Forall (fun kv => kv.1 = joinBackslash ["C:\Users\me"; "Desktop"]
                       -> kv.2 = "DesktopFolder")
       (Part000.standardEntries joinBackslash "C:\Users\me")
  /\ (exists dirs,
         Part000.getStandardDirectories joinBackslash (Some "C:\Users\me")
         = Some dirs
         /\ Part000.resolveInstallLocation "C:\Users\me\Desktop" dirs
            = "DesktopFolder").
Proof.
  assert (hasByte "/" (joinBackslash ["C:\Users\me"; "Desktop"]) = false)
    as H1 by reflexivity.
  assert (Forall (fun kv => kv.1 = joinBackslash ["C:\Users\me"; "Desktop"]
                            -> kv.2 = "DesktopFolder")
            (Part000.standardEntries joinBackslash "C:\Users\me")) as H2.
  { unfold Part000.standardEntries.
    repeat (apply Forall_cons; split;
            [intros H; first [reflexivity | vm_compute in H; discriminate]|]).
    apply Forall_nil_2. }
  destruct (resolveInstallLocation_exact_match joinBackslash "C:\Users\me"
              H1 H2) as (_ & _ & _ & Hdesktop).
  split; [exact H1|]. split; [exact H2|exact Hdesktop].
Defined.

(** ** The pre-install scripts *)

(** The result of [sort.Strings] is determined by its input: every sorted
    arrangement of the names is the one [Sort.Strings] returns. *)
Lemma sortStrings_unique l l' :
  l' ≡ₚ l -> StronglySorted String.le l' -> l' = Sort.Strings l.
Proof.
  intros Hperm Hsorted. apply (StronglySorted_unique String.le); [done| |].
  - apply StronglySorted_merge_sort; apply _.
  - unfold Sort.Strings. by rewrite merge_sort_Permutation.
Qed.

Section ScriptBundle.
Context {W : Type} `{Os.FileSystem W}.
Variable Join : list string -> string.
Variable Dir : string -> string.
Variable mapUnicodeLower : string -> string.

Lemma collectScripts_filter entries acc :
  MainGo.collectScripts mapUnicodeLower entries acc
  = acc ++ List.map Os.Name
             (List.filter (MainGo.isPreinstall mapUnicodeLower) entries).
Proof.
  revert acc. induction entries as [|entry entries IH]; intros acc; simpl.
  - by rewrite app_nil_r.
  - destruct (MainGo.isPreinstall mapUnicodeLower entry); simpl.
    + by rewrite IH, <- app_assoc.
    + apply IH.
Qed.

Lemma combineScripts_ok projectDir (w : W) content scripts acc :
  (forall script, script ∈ scripts ->
     Os.ReadFile (Join [projectDir; "scripts"; script]) w
     = inl (content script)) ->
  MainGo.combineScripts Join projectDir w scripts acc
  = inl (acc +:+ bundle content scripts).
Proof.
  revert acc. induction scripts as [|script scripts IH]; intros acc Hread.
  - simpl. by rewrite append_empty_r.
  - cbn [MainGo.combineScripts bundle].
    rewrite (Hread script) by by left.
    rewrite IH by (intros s Hs; apply Hread; by right).
    by rewrite !append_assoc.
Qed.

(** C10: when the scripts directory can be read, [getPreinstallScripts]
    returns the names of exactly the entries that are regular files and
    whose lower-cased name starts with "preinstall" and ends with ".ps1",
    in ascending byte-wise lexicographic order.  When there is such a
    script, every one of them can be read and the tools directory and the
    file can be written, [includePreinstallScripts] writes to
    tools/chocolateyBeforeModify.ps1 the scripts in that order, each as a
    line "# Contents of <name>", its content and a newline. *)
Theorem preinstall_scripts_bundled
    (projectDir : string) (w : W) (entries : list Os.DirEntry) :
  Os.IsNotExist (Os.Stat (Join [projectDir; "scripts"]) w) = false ->
  Os.ReadDir (Join [projectDir; "scripts"]) w = inl entries ->
  exists scripts,
    MainGo.getPreinstallScripts Join mapUnicodeLower projectDir w
    = inl scripts
    /\ scripts
         ≡ₚ List.map Os.Name
              (List.filter
                 (fun entry =>
                    Os.IsRegular (Os.Type_ entry)
                    && Strings.HasPrefix
                         (Strings.ToLower mapUnicodeLower (Os.Name entry))
                         "preinstall"
                    && Strings.HasSuffix
                         (Strings.ToLower mapUnicodeLower (Os.Name entry))
                         ".ps1")
                 entries)
    /\ StronglySorted String.le scripts
    /\ (forall (content : string -> string) (w1 w2 : W),
           scripts <> [] ->
           (forall script, script ∈ scripts ->
              Os.ReadFile (Join [projectDir; "scripts"; script]) w
              = inl (content script)) ->
           Os.MkdirAll
             (Dir (Join [projectDir; "tools"; "chocolateyBeforeModify.ps1"]))
             Os.ModePerm w
           = (w1, None) ->
           Os.WriteFile
             (Join [projectDir; "tools"; "chocolateyBeforeModify.ps1"])
             (bundle content scripts) 420 w1
           = (w2, None) ->
           MainGo.includePreinstallScripts Join Dir mapUnicodeLower
             projectDir w
           = (w2, None)).
Proof.
  intros Hstat Hdir.
  assert (MainGo.getPreinstallScripts Join mapUnicodeLower projectDir w
          = inl (Sort.Strings
                   (List.map Os.Name
                      (List.filter (MainGo.isPreinstall mapUnicodeLower)
                         entries)))) as Hget.
  { unfold MainGo.getPreinstallScripts.
    by rewrite Hstat, Hdir, collectScripts_filter. }
  eexists. split; [exact Hget|]. split; [|split].
  - unfold Sort.Strings. by rewrite merge_sort_Permutation.
  - apply StronglySorted_merge_sort; apply _.
  - intros content w1 w2 Hne Hread Hmk Hwr.
    unfold MainGo.includePreinstallScripts. rewrite Hget.
    destruct (Sort.Strings _) as [|script scripts] eqn:Hs; [done|].
    cbn [List.length Nat.eqb].
    rewrite (combineScripts_ok projectDir w content _ "" Hread).
    change ("" +:+ bundle content (script :: scripts))
      with (bundle content (script :: scripts)).
    by rewrite Hmk, Hwr.
Qed.
(** Without a scripts directory there is no script and nothing is written. *)
Lemma includePreinstallScripts_no_directory (projectDir : string) (w : W) :
  Os.IsNotExist (Os.Stat (Join [projectDir; "scripts"]) w) = true ->
  MainGo.getPreinstallScripts Join mapUnicodeLower projectDir w = inl []
  /\ MainGo.includePreinstallScripts Join Dir mapUnicodeLower projectDir w
     = (w, None).
Proof.
  intros Hstat.
  assert (MainGo.getPreinstallScripts Join mapUnicodeLower projectDir w
          = inl []) as Hget.
  { unfold MainGo.getPreinstallScripts. by rewrite Hstat. }
  split; [exact Hget|].
  unfold MainGo.includePreinstallScripts. by rewrite Hget.
Qed.

(** A script that cannot be read stops the bundling: nothing is written and
    the error names the script. *)
Lemma combineScripts_unreadable projectDir (w : W) content done_ script rest
    err acc :
  (forall s, s ∈ done_ ->
     Os.ReadFile (Join [projectDir; "scripts"; s]) w = inl (content s)) ->
  Os.ReadFile (Join [projectDir; "scripts"; script]) w = inr err ->
  MainGo.combineScripts Join projectDir w (done_ ++ script :: rest) acc
  = inr ("failed to read " +:+ script +:+ ": " +:+ Os.osMessage err).
Proof.
  revert acc. induction done_ as [|s done_ IH]; intros acc Hread Herr.
  - simpl. by rewrite Herr.
  - cbn [app MainGo.combineScripts]. rewrite (Hread s) by by left.
    apply IH; [|done]. intros s' Hs'. apply Hread. by right.
Qed.
End ScriptBundle.

(** The theorem on the sample project: two scripts are selected, and the
    bundle is written under the tools directory. *)
Lemma preinstall_scripts_bundled_witness :
  Os.IsNotExist
    (Os.Stat (joinBackslash ["proj"; "scripts"]) sampleProject) = false
  /\ MainGo.getPreinstallScripts joinBackslash asciiOnly "proj" sampleProject
     = inl ["Preinstall-b.PS1"; "preinstall-a.ps1"]
  /\ MainGo.includePreinstallScripts joinBackslash dirBackslash asciiOnly
       "proj" sampleProject
     = ({| memDirs := <["proj\tools" := []]> (memDirs sampleProject);
           memFiles :=
             <["proj\tools\chocolateyBeforeModify.ps1" :=
                 bundle sampleContent ["Preinstall-b.PS1"; "preinstall-a.ps1"]]>
               (memFiles sampleProject) |},
        None).
Proof.
  assert (Os.IsNotExist
            (Os.Stat (joinBackslash ["proj"; "scripts"]) sampleProject)
          = false) as Hstat by (vm_compute; reflexivity).
  destruct (preinstall_scripts_bundled joinBackslash dirBackslash asciiOnly
              "proj" sampleProject _ Hstat eq_refl)
    as (scripts & Hget & _ & _ & Hinclude).
  assert (scripts = ["Preinstall-b.PS1"; "preinstall-a.ps1"]) as ->.
  { vm_compute in Hget. by injection Hget. }
  split; [exact Hstat|]. split; [exact Hget|].
  eapply (Hinclude sampleContent).
  - discriminate.
  - intros script Hs.
    apply elem_of_cons in Hs as [->|Hs]; [vm_compute; reflexivity|].
    apply elem_of_cons in Hs as [->|Hs]; [vm_compute; reflexivity|].
    by apply elem_of_nil in Hs.
  - vm_compute. reflexivity.
  - vm_compute. reflexivity.
Defined.

(** ** The table of standard directories on a sample home directory *)

Example resolve_program_files :
  Part000.resolveInstallLocation "C:/Program Files"
    (Part000.mapLiteral (Part000.standardEntries joinBackslash "C:\Users\me"))
  = "ProgramFilesFolder".
Proof. vm_compute. reflexivity. Qed.

Example resolve_program_files_child :
  Part000.resolveInstallLocation "C:/Program Files/Foo"
    (Part000.mapLiteral (Part000.standardEntries joinBackslash "C:\Users\me"))
  = "C:\Program Files\Foo".
Proof. vm_compute. reflexivity. Qed.

Example resolve_trailing_separator :
  Part000.resolveInstallLocation "C:/Program Files/"
    (Part000.mapLiteral (Part000.standardEntries joinBackslash "C:\Users\me"))
  = "C:\Program Files" +:+ String Strconv.backslash "".
Proof. vm_compute. reflexivity. Qed.

(** * Further properties of the code *)

(** ** The versions the pass-through [parseVersion] accepts *)

Lemma checkParts_ok_accepted qu parts acc r :
  MainGo.checkParts qu parts acc = inl r -> Forall accepted parts.
Proof.
  revert acc. induction parts as [|p parts IH]; simpl; intros acc Hr.
  - constructor.
  - destruct (Strconv.Atoi p) as [n|e] eqn:Hp; [|done].
    constructor; [by exists n|by apply (IH _ Hr)].
Qed.

Lemma checkParts_err_rejected qu parts acc msg :
  MainGo.checkParts qu parts acc = inr msg -> Exists rejected parts.
Proof.
  revert acc. induction parts as [|p parts IH]; simpl; intros acc Hr; [done|].
  destruct (Strconv.Atoi p) as [n|e] eqn:Hp.
  - apply Exists_cons_tl. by apply (IH _ Hr).
  - apply Exists_cons_hd. by exists e.
Qed.

Lemma parseVersion_passthrough_accepted qu versionStr :
  Forall accepted (Strings.Split versionStr ".") ->
  MainGo.parseVersion qu versionStr = inl versionStr.
Proof.
  intros Hall. unfold MainGo.parseVersion, bind.
  rewrite (checkParts_accepted qu _ [] Hall). simpl.
  f_equal. apply (Join_Split versionStr ".").
Qed.

(** X1: the pass-through [parseVersion] never alters a version: it returns
    the version string exactly as given when [strconv.Atoi] accepts every
    dot-separated part, and an error when it rejects one. *)
Theorem parseVersion_passthrough_unchanged
    (quoteUnicode : string -> string) (versionStr : string) :
  (forall t, MainGo.parseVersion quoteUnicode versionStr = inl t ->
             t = versionStr /\ Forall accepted (Strings.Split versionStr "."))
  /\ (forall msg, MainGo.parseVersion quoteUnicode versionStr = inr msg ->
                  Exists rejected (Strings.Split versionStr "."))
  /\ (MainGo.parseVersion quoteUnicode versionStr = inl versionStr
      <-> Forall accepted (Strings.Split versionStr ".")).
Proof.
  assert (forall t, MainGo.parseVersion quoteUnicode versionStr = inl t ->
                    t = versionStr
                    /\ Forall accepted (Strings.Split versionStr ".")) as Hok.
  { intros t Ht. split; [by apply (parseVersion_passthrough_ok quoteUnicode)|].
    unfold MainGo.parseVersion, bind in Ht.
    destruct (MainGo.checkParts _ _ _) as [np|] eqn:E; [|done].
    by apply checkParts_ok_accepted in E. }
  split; [exact Hok|]. split.
  - intros msg Hmsg. unfold MainGo.parseVersion, bind in Hmsg.
    destruct (MainGo.checkParts _ _ _) as [np|e] eqn:E; [done|].
    by apply checkParts_err_rejected in E.
  - split; [intros Ht; by apply (Hok _ Ht)|].
    apply parseVersion_passthrough_accepted.
Qed.

(** ** The range of [strconv.Atoi] *)

Lemma parseUintLoop_value s n v :
  Strconv.parseUintLoop s n = (v, None) -> v = digitsValue s n.
Proof.
  revert n. induction s as [|c s IH]; simpl; intros n Hp.
  - by injection Hp.
  - unfold Strconv.digitVal in Hp.
    destruct ((48 <=? byteVal c) && (byteVal c <=? 57)); [|done].
    destruct (n >=? Strconv.maxUint64 / 10 + 1); [done|].
    destruct (n * 10 + (byteVal c - 48) >? Strconv.maxUint64); [done|].
    by apply IH.
Qed.

Lemma Atoi_range s n :
  Strconv.Atoi s = inl n -> Strconv.minInt <= n <= Strconv.maxInt.
Proof.
  unfold Strconv.Atoi.
  destruct (Strconv.ParseInt s) as [i [k|]] eqn:Hp; [done|]. intros [= <-].
  assert (Strconv.minInt = -9223372036854775808) as -> by reflexivity.
  assert (Strconv.maxInt = 9223372036854775807) as -> by reflexivity.
  unfold Strconv.ParseInt in Hp. destruct s as [|c rest]; [done|].
  set (s1 := if Ascii.eqb c "+" || Ascii.eqb c "-" then rest
             else String c rest) in Hp.
  unfold Strconv.ParseUint in Hp. destruct s1 as [|d s1]; [done|].
  assert (2 ^ (Strconv.intSize - 1) = 9223372036854775808) as Hcut
    by reflexivity.
  rewrite Hcut in Hp.
  destruct (Strconv.parseUintLoop (String d s1) 0) as [un [[]|]] eqn:Hu.
  - done.
  - apply parseUintLoop_range in Hu as ->.
    destruct (Ascii.eqb c "-"); simpl in Hp; done.
  - pose proof (parseUintLoop_ok_digits _ _ _ Hu) as Hd.
    apply parseUintLoop_value in Hu.
    pose proof (digitsValue_ge _ 0 Hd ltac:(lia)) as Hge. rewrite <- Hu in Hge.
    destruct (Ascii.eqb c "-"); simpl in Hp.
    + destruct (Z.gtb_spec un 9223372036854775808); [done|].
      injection Hp as <-. lia.
    + destruct (Z.geb_spec un 9223372036854775808); [done|].
      injection Hp as <-. lia.
Qed.

(** ** What the reducing [parseVersion] returns *)

Lemma atoiOr_inl qu label s n :
  Part001.atoiOr qu label s = inl n -> Strconv.Atoi s = inl n.
Proof. unfold Part001.atoiOr. destruct (Strconv.Atoi s); [|done]. congruence. Qed.

Lemma finish_bounds major minor build t :
  Strconv.minInt <= major <= Strconv.maxInt ->
  Part001.finish major minor build = inl t ->
  exists major' minor' build',
    Strconv.minInt <= major' <= Strconv.maxInt
    /\ - 256 < minor' < 256
    /\ - 65536 < build' < 65536
    /\ t = Strconv.FormatInt major' +:+ "." +:+ Strconv.FormatInt minor'
             +:+ "." +:+ Strconv.FormatInt build'.
Proof.
  intros Hmajor [= <-]. exists major, (Z.rem minor 256), (Z.rem build 65536).
  pose proof (Z.rem_bound_abs minor 256 ltac:(lia)).
  pose proof (Z.rem_bound_abs build 65536 ltac:(lia)).
  repeat split; try lia.
Qed.

Lemma parseVersion_reducing_inv qu s t :
  Part001.parseVersion qu s = inl t ->
  exists major minor build,
    Strconv.minInt <= major <= Strconv.maxInt
    /\ - 256 < minor < 256
    /\ - 65536 < build < 65536
    /\ t = Strconv.FormatInt major +:+ "." +:+ Strconv.FormatInt minor
             +:+ "." +:+ Strconv.FormatInt build.
Proof.
  unfold Part001.parseVersion.
  destruct (Strings.Split s ".") as [|p0 [|p1 [|p2 [|p3 [|? ?]]]]]; try done.
  - destruct (if (String.length p0 =? 4)%nat
              then Part001.atoiOr qu "invalid year" (sliceFrom 2 p0)
              else Part001.atoiOr qu "invalid major version" p0)
      as [major|] eqn:E0; [|done].
    assert (Strconv.minInt <= major <= Strconv.maxInt) as Hmajor.
    { destruct (String.length p0 =? 4)%nat;
        apply atoiOr_inl in E0; by apply Atoi_range in E0. }
    simpl.
    destruct (Part001.atoiOr qu "invalid minor version" p1); [|done]. simpl.
    destruct (Part001.atoiOr qu "invalid build version" p2); [|done]. simpl.
    by apply finish_bounds.
  - destruct (Part001.atoiOr qu "invalid major version" p0)
      as [major|] eqn:E0; [|done].
    apply atoiOr_inl, Atoi_range in E0. simpl.
    destruct (Part001.atoiOr qu "invalid minor version" p1); [|done]. simpl.
    destruct (Part001.atoiOr qu "invalid build version" p2); [|done]. simpl.
    destruct (Part001.atoiOr qu "invalid extra build number" p3); [|done].
    simpl. by apply finish_bounds.
Qed.

Lemma canonical_parts major minor build :
  Strconv.minInt <= major <= Strconv.maxInt ->
  - 256 < minor < 256 ->
  - 65536 < build < 65536 ->
  Strings.Split
    (Strconv.FormatInt major +:+ "." +:+ Strconv.FormatInt minor
       +:+ "." +:+ Strconv.FormatInt build) "."
  = [Strconv.FormatInt major; Strconv.FormatInt minor; Strconv.FormatInt build]
  /\ Strconv.Atoi (Strconv.FormatInt major) = inl major
  /\ Strconv.Atoi (Strconv.FormatInt minor) = inl minor
  /\ Strconv.Atoi (Strconv.FormatInt build) = inl build.
Proof.
  intros Hmajor Hminor Hbuild.
  assert (Strconv.minInt = -9223372036854775808) as Hmin by reflexivity.
  assert (Strconv.maxInt = 9223372036854775807) as Hmax by reflexivity.
  assert (10 ^ 20 = 100000000000000000000) as Hpow by reflexivity.
  split; [apply Split_three; apply FormatInt_no_dot; lia|].
  repeat split; apply Atoi_FormatInt; lia.
Qed.

(** X2: a version the reducing [parseVersion] returns has exactly three
    components, printed as [%d] prints an [int], with minor strictly between
    -256 and 256 and build strictly between -65536 and 65536; the
    pass-through [parseVersion] of the other revisions accepts it and
    returns it unchanged. *)
Theorem parseVersion_reducing_output
    (quoteUnicode : string -> string) (versionStr t : string) :
  Part001.parseVersion quoteUnicode versionStr = inl t ->
  (exists major minor build,
      Strconv.minInt <= major <= Strconv.maxInt
      /\ - 256 < minor < 256
      /\ - 65536 < build < 65536
      /\ t = Strconv.FormatInt major +:+ "." +:+ Strconv.FormatInt minor
               +:+ "." +:+ Strconv.FormatInt build
      /\ Strings.Split t "."
         = [Strconv.FormatInt major; Strconv.FormatInt minor;
            Strconv.FormatInt build])
  /\ MainGo.parseVersion quoteUnicode t = inl t.
Proof.
  intros Ht.
  destruct (parseVersion_reducing_inv _ _ _ Ht)
    as (major & minor & build & Hmajor & Hminor & Hbuild & ->).
  destruct (canonical_parts major minor build Hmajor Hminor Hbuild)
    as (Hsplit & H0 & H1 & H2).
  split.
  - exists major, minor, build.
    split; [exact Hmajor|]. split; [exact Hminor|]. split; [exact Hbuild|].
    split; [reflexivity|exact Hsplit].
  - apply parseVersion_passthrough_accepted. rewrite Hsplit.
    repeat constructor; eexists; eassumption.
Qed.

(** The theorem at "2024.300.70000.5". *)
Lemma parseVersion_reducing_output_witness :
  Part001.parseVersion asciiOnly "2024.300.70000.5" = inl "2024.44.7557"
  /\ MainGo.parseVersion asciiOnly "2024.44.7557" = inl "2024.44.7557".
Proof.
  assert (Part001.parseVersion asciiOnly "2024.300.70000.5"
          = inl "2024.44.7557") as Ht by reflexivity.
  split; [exact Ht|].
  exact (proj2 (parseVersion_reducing_output asciiOnly _ _ Ht)).
Defined.

Lemma canonical_fixed qu major minor build :
  Strconv.minInt <= major <= Strconv.maxInt ->
  - 256 < minor < 256 ->
  - 65536 < build < 65536 ->
  String.length (Strconv.FormatInt major) <> 4%nat ->
  Part001.parseVersion qu
    (Strconv.FormatInt major +:+ "." +:+ Strconv.FormatInt minor
       +:+ "." +:+ Strconv.FormatInt build)
  = inl (Strconv.FormatInt major +:+ "." +:+ Strconv.FormatInt minor
           +:+ "." +:+ Strconv.FormatInt build).
Proof.
  intros Hmajor Hminor Hbuild Hlen.
  destruct (canonical_parts major minor build Hmajor Hminor Hbuild)
    as (Hsplit & H0 & H1 & H2).
  rewrite (parseVersion_three qu _ _ _ _ major minor build Hsplit);
    [by rewrite !rem_small_abs| |done|done].
  destruct (String.length (Strconv.FormatInt major) =? 4)%nat eqn:E; [|done].
  apply Nat.eqb_eq in E. contradiction.
Qed.

Lemma year_suffix_value p0 :
  accepted p0 -> String.length p0 = 4%nat ->
  exists n, Strconv.Atoi (sliceFrom 2 p0) = inl n /\ 0 <= n <= 99.
Proof.
  intros Hacc Hlen.
  destruct (Atoi_accepted_shape p0 Hacc) as (c0 & rest & -> & Hshape).
  destruct rest as [|c1 [|c2 [|c3 [|? ?]]]]; try done.
  assert (digitsOnly (String c2 (String c3 "")) = true) as Hd.
  { destruct (Ascii.eqb c0 "+" || Ascii.eqb c0 "-"); simpl in Hshape |- *.
    - destruct Hshape as [_ Hs]. by apply andb_true_iff in Hs as [_ Hs].
    - apply andb_true_iff in Hshape as [_ Hs].
      by apply andb_true_iff in Hs as [_ Hs]. }
  assert (0 <= digitsValue (String c2 (String c3 "")) 0 <= 99) as Hv.
  { simpl in Hd |- *.
    apply andb_true_iff in Hd as [H2 [H3 _]%andb_true_iff].
    apply digit_bounds in H2, H3. lia. }
  exists (digitsValue (String c2 (String c3 "")) 0). split; [|exact Hv].
  apply Atoi_digits; [done|done|].
  assert (Strconv.maxInt = 9223372036854775807) as -> by reflexivity. lia.
Qed.

Lemma FormatInt_short n :
  0 <= n <= 99 -> String.length (Strconv.FormatInt n) <> 4%nat.
Proof.
  intros Hn. unfold Strconv.FormatInt.
  destruct (Z.ltb_spec n 0) as [?|_]; [lia|].
  change (Strconv.formatBits 20 n "")
    with (if n <? 10 then String (byteOf (48 + n)) ""
          else Strconv.formatBits 19 (n / 10)
                 (String (byteOf (48 + n mod 10)) "")).
  destruct (Z.ltb_spec n 10) as [?|Hge]; [done|].
  change (Strconv.formatBits 19 (n / 10) (String (byteOf (48 + n mod 10)) ""))
    with (if n / 10 <? 10
          then String (byteOf (48 + n / 10))
                 (String (byteOf (48 + n mod 10)) "")
          else Strconv.formatBits 18 (n / 10 / 10)
                 (String (byteOf (48 + (n / 10) mod 10))
                    (String (byteOf (48 + n mod 10)) ""))).
  destruct (Z.ltb_spec (n / 10) 10) as [?|Hq]; [done|].
  assert (n / 10 < 10) by (apply Z.div_lt_upper_bound; lia). lia.
Qed.

(** X3: the reducing [parseVersion] is not idempotent, but it settles
    after one more step: a version it returns is accepted when given back,
    and what it then returns is a fixed point. *)
Theorem parseVersion_reducing_settles
    (quoteUnicode : string -> string) (versionStr t : string) :
  Part001.parseVersion quoteUnicode versionStr = inl t ->
  exists u,
    Part001.parseVersion quoteUnicode t = inl u
    /\ Part001.parseVersion quoteUnicode u = inl u.
Proof.
  intros Ht.
  destruct (parseVersion_reducing_inv _ _ _ Ht)
    as (major & minor & build & Hmajor & Hminor & Hbuild & ->).
  destruct (Nat.eq_dec (String.length (Strconv.FormatInt major)) 4%nat)
    as [Hlen|Hlen].
  - destruct (canonical_parts major minor build Hmajor Hminor Hbuild)
      as (Hsplit & H0 & H1 & H2).
    destruct (year_suffix_value (Strconv.FormatInt major)
                ltac:(by exists major) Hlen) as (cut & Hcut & Hrange).
    exists (Strconv.FormatInt cut +:+ "." +:+ Strconv.FormatInt minor
              +:+ "." +:+ Strconv.FormatInt build).
    split.
    + rewrite (parseVersion_three quoteUnicode _ _ _ _ cut minor build Hsplit);
        [by rewrite !rem_small_abs| |done|done].
      by rewrite Hlen.
    + apply canonical_fixed; [|done|done|by apply FormatInt_short].
      assert (Strconv.minInt = -9223372036854775808) as -> by reflexivity.
      assert (Strconv.maxInt = 9223372036854775807) as -> by reflexivity.
      lia.
  - eexists. split; by apply canonical_fixed.
Qed.

(** The theorem at "2024.1.2.3": the first result has a four-byte major,
    which the second step cuts to its last two digits. *)
Lemma parseVersion_reducing_settles_witness :
  Part001.parseVersion asciiOnly "2024.1.2.3" = inl "2024.1.2003"
  /\ Part001.parseVersion asciiOnly "2024.1.2003" = inl "24.1.2003"
  /\ exists u,
       Part001.parseVersion asciiOnly "2024.1.2003" = inl u
       /\ Part001.parseVersion asciiOnly u = inl u.
Proof.
  assert (Part001.parseVersion asciiOnly "2024.1.2.3" = inl "2024.1.2003")
    as Ht by reflexivity.
  split; [exact Ht|]. split; [reflexivity|].
  exact (parseVersion_reducing_settles asciiOnly _ _ Ht).
Defined.

(** ** The two [normalizeInstallLocation] together, and [NormalizePath] *)

Lemma TrimRight_snoc c s :
  Strings.TrimRight (s +:+ String c "") c = Strings.TrimRight s c.
Proof.
  induction s as [|a s IH].
  - simpl. by rewrite Ascii.eqb_refl.
  - change (String a s +:+ String c "") with (String a (s +:+ String c "")).
    cbn [Strings.TrimRight]. by rewrite IH.
Qed.

Lemma trim_no_slash path :
  hasByte "/" (Part000.normalizeInstallLocation path) = false.
Proof.
  unfold Part000.normalizeInstallLocation.
  by apply hasByte_TrimRight, ReplaceAll_no_old.
Qed.

Lemma enforce_no_slash path :
  hasByte "/" (MainGo.normalizeInstallLocation path) = false.
Proof.
  rewrite enforce_unfold, hasByte_app, ReplaceAll_no_old by done.
  by destruct (trailingCount _ _ =? 0)%nat.
Qed.

(** X4: trimming after adding a trailing backslash gives the trimmed path,
    and adding after trimming gives the trimmed path followed by exactly
    one backslash, whatever number of separators the input ends in. *)
Theorem normalizeInstallLocation_compose (path : string) :
  Part000.normalizeInstallLocation (MainGo.normalizeInstallLocation path)
  = Part000.normalizeInstallLocation path
  /\ MainGo.normalizeInstallLocation (Part000.normalizeInstallLocation path)
     = Part000.normalizeInstallLocation path +:+ String Strconv.backslash ""
  /\ trailingCount Strconv.backslash
       (MainGo.normalizeInstallLocation
          (Part000.normalizeInstallLocation path)) = 1%nat.
Proof.
  assert (MainGo.normalizeInstallLocation
            (Part000.normalizeInstallLocation path)
          = Part000.normalizeInstallLocation path
              +:+ String Strconv.backslash "") as Henf.
  { rewrite enforce_unfold, (ReplaceAll_id _ _ _ (trim_no_slash path)).
    unfold Part000.normalizeInstallLocation.
    by rewrite trailingCount_TrimRight. }
  split; [|split; [exact Henf|]].
  - unfold Part000.normalizeInstallLocation at 1.
    rewrite (ReplaceAll_id _ _ _ (enforce_no_slash path)), enforce_unfold.
    destruct (trailingCount _ _ =? 0)%nat.
    + by rewrite TrimRight_snoc.
    + by rewrite append_empty_r.
  - rewrite Henf, trailingCount_snoc.
    unfold Part000.normalizeInstallLocation.
    by rewrite trailingCount_TrimRight.
Qed.

(** X5: [NormalizePath] is idempotent and leaves no forward slash, so the
    spelling of the separators does not matter afterwards:
    [resolveInstallLocation] and both revisions of
    [normalizeInstallLocation] give the same result on a path and on its
    normalised form. *)
Theorem NormalizePath_canonical
    (input : string) (dirs : gmap string string) :
  Part000.NormalizePath (Part000.NormalizePath input)
  = Part000.NormalizePath input
  /\ hasByte "/" (Part000.NormalizePath input) = false
  /\ Part000.resolveInstallLocation (Part000.NormalizePath input) dirs
     = Part000.resolveInstallLocation input dirs
  /\ Part000.normalizeInstallLocation (Part000.NormalizePath input)
     = Part000.normalizeInstallLocation input
  /\ MainGo.normalizeInstallLocation (Part000.NormalizePath input)
     = MainGo.normalizeInstallLocation input.
Proof.
  assert (hasByte "/" (Part000.NormalizePath input) = false) as Hslash.
  { rewrite NormalizePath_ReplaceAll. by apply ReplaceAll_no_old. }
  assert (Part000.NormalizePath (Part000.NormalizePath input)
          = Part000.NormalizePath input) as Hidem.
  { rewrite (NormalizePath_ReplaceAll (Part000.NormalizePath input)).
    by apply ReplaceAll_id. }
  split; [exact Hidem|]. split; [exact Hslash|]. split; [|split].
  - unfold Part000.resolveInstallLocation. by rewrite Hidem.
  - unfold Part000.normalizeInstallLocation.
    rewrite (ReplaceAll_id _ _ _ Hslash). by rewrite NormalizePath_ReplaceAll.
  - unfold MainGo.normalizeInstallLocation.
    rewrite (ReplaceAll_id _ _ _ Hslash). by rewrite NormalizePath_ReplaceAll.
Qed.

(** ** The check of the project directory *)

Section ProjectChecks.
Context {W : Type} `{Os.FileSystem W}.
Variable Join : list string -> string.
Variable Dir : string -> string.
Variable mapUnicodeLower : string -> string.

(** X6: the two revisions of [verifyProjectStructure] return the same
    result on every project directory and file system.  They return no
    error exactly when [os.Stat] does not report the payload directory or
    does not report the scripts directory as not existing, and does not
    report [build-info.yaml] as not existing; any other error of [os.Stat]
    (such as a denied access) counts as present.  When both directories
    are missing, that is the error reported, whether or not
    [build-info.yaml] exists. *)
Theorem verifyProjectStructure_revisions (projectDir : string) (w : W) :
  MainGo.verifyProjectStructure Join projectDir w
  = Part000.verifyProjectStructure Join projectDir w
  /\ (MainGo.verifyProjectStructure Join projectDir w = None
      <-> (Os.IsNotExist (Os.Stat (Join [projectDir; "payload"]) w) = false
           \/ Os.IsNotExist (Os.Stat (Join [projectDir; "scripts"]) w) = false)
          /\ Os.IsNotExist (Os.Stat (Join [projectDir; "build-info.yaml"]) w)
             = false)
  /\ (Os.IsNotExist (Os.Stat (Join [projectDir; "payload"]) w)
      && Os.IsNotExist (Os.Stat (Join [projectDir; "scripts"]) w) = true
      <-> MainGo.verifyProjectStructure Join projectDir w
          = Some ("either 'payload' or 'scripts' directory must exist "
                    +:+ "in the project directory")).
Proof.
  unfold MainGo.verifyProjectStructure, Part000.verifyProjectStructure.
  destruct (Os.IsNotExist (Os.Stat (Join [projectDir; "payload"]) w));
    destruct (Os.IsNotExist (Os.Stat (Join [projectDir; "scripts"]) w));
    destruct (Os.IsNotExist (Os.Stat (Join [projectDir; "build-info.yaml"]) w));
    simpl; (split; [reflexivity|]); split; split; intros; try done;
    intuition congruence.
Qed.

(** ** Pre-install and post-install scripts *)

Lemma collectPostScripts_filter entries acc :
  MainGo.collectPostScripts mapUnicodeLower entries acc
  = acc ++ List.map Os.Name
             (List.filter (MainGo.isPostinstall mapUnicodeLower) entries).
Proof.
  revert acc. induction entries as [|entry entries IH]; intros acc; simpl.
  - by rewrite app_nil_r.
  - destruct (MainGo.isPostinstall mapUnicodeLower entry); simpl.
    + by rewrite IH, <- app_assoc.
    + apply IH.
Qed.

Lemma prefix_pre_post s :
  Strings.HasPrefix s "preinstall" = true ->
  Strings.HasPrefix s "postinstall" = true -> False.
Proof.
  unfold Strings.HasPrefix.
  intros [_ Hpre]%andb_true_iff [_ Hpost]%andb_true_iff.
  destruct s as [|c0 [|c1 s]]; simpl in Hpre, Hpost; try done.
  - destruct (Ascii.eqb c0 "p"); done.
  - destruct (Ascii.eqb c0 "p"); [|done].
    destruct (Ascii.eqb_spec c1 "r") as [->|]; [|done].
    done.
Qed.

Lemma sorted_names_elem (P : Os.DirEntry -> bool) entries name :
  name ∈ Sort.Strings (List.map Os.Name (List.filter P entries)) ->
  exists entry, entry ∈ entries /\ P entry = true /\ Os.Name entry = name.
Proof.
  unfold Sort.Strings. rewrite merge_sort_Permutation.
  rewrite list_elem_of_In, in_map_iff.
  intros (entry & Hname & Hin). apply filter_In in Hin as [Hin HP].
  exists entry. by rewrite list_elem_of_In.
Qed.

(** X7: [getPostinstallScripts] returns its names in ascending byte-wise
    order, each a name that in lower case starts with "postinstall" and
    ends with ".ps1", and no
    script is both a pre-install and a post-install script: on the same
    file system the names [getPreinstallScripts] returns and the names
    [getPostinstallScripts] returns are disjoint. *)
Theorem pre_post_scripts_disjoint
    (projectDir : string) (w : W) (preScripts postScripts : list string) :
  MainGo.getPreinstallScripts Join mapUnicodeLower projectDir w
  = inl preScripts ->
  MainGo.getPostinstallScripts Join mapUnicodeLower projectDir w
  = inl postScripts ->
  StronglySorted String.le postScripts
  /\ (forall name, name ∈ postScripts ->
        Strings.HasPrefix (Strings.ToLower mapUnicodeLower name) "postinstall"
        = true
        /\ Strings.HasSuffix (Strings.ToLower mapUnicodeLower name) ".ps1"
           = true)
  /\ (forall name, name ∈ preScripts -> name ∉ postScripts).
Proof.
  unfold MainGo.getPreinstallScripts, MainGo.getPostinstallScripts.
  destruct (Os.IsNotExist (Os.Stat (Join [projectDir; "scripts"]) w)).
  { intros [= <-] [= <-]. split; [constructor|].
    split; intros name Hn; by apply elem_of_nil in Hn. }
  destruct (Os.ReadDir (Join [projectDir; "scripts"]) w) as [entries|];
    [|done].
  rewrite collectScripts_filter, collectPostScripts_filter. simpl.
  intros [= <-] [= <-]. split; [|split].
  - apply StronglySorted_merge_sort; apply _.
  - intros name Hn.
    apply sorted_names_elem in Hn as (entry & _ & Hpost & <-).
    unfold MainGo.isPostinstall in Hpost.
    apply andb_true_iff in Hpost as [[_ Hp]%andb_true_iff Hs]. done.
  - intros name Hpre Hpost.
    apply sorted_names_elem in Hpre as (e1 & _ & H1 & <-).
    apply sorted_names_elem in Hpost as (e2 & _ & H2 & Hname).
    unfold MainGo.isPreinstall in H1. unfold MainGo.isPostinstall in H2.
    apply andb_true_iff in H1 as [[_ H1]%andb_true_iff _].
    apply andb_true_iff in H2 as [[_ H2]%andb_true_iff _].
    rewrite Hname in H2. by apply (prefix_pre_post _ H1 H2).
Qed.
End ProjectChecks.

(** The theorem on the sample project. *)
Lemma pre_post_scripts_disjoint_witness :
  MainGo.getPreinstallScripts joinBackslash asciiOnly "proj" sampleProject
  = inl ["Preinstall-b.PS1"; "preinstall-a.ps1"]
  /\ MainGo.getPostinstallScripts joinBackslash asciiOnly "proj" sampleProject
     = inl ["postinstall.ps1"]
  /\ forall name,
       name ∈ ["Preinstall-b.PS1"; "preinstall-a.ps1"] ->
       name ∉ ["postinstall.ps1"].
Proof.
  assert (MainGo.getPreinstallScripts joinBackslash asciiOnly "proj"
            sampleProject
          = inl ["Preinstall-b.PS1"; "preinstall-a.ps1"]) as Hpre
    by (vm_compute; reflexivity).
  assert (MainGo.getPostinstallScripts joinBackslash asciiOnly "proj"
            sampleProject
          = inl ["postinstall.ps1"]) as Hpost
    by (vm_compute; reflexivity).
  split; [exact Hpre|]. split; [exact Hpost|].
  exact (proj2 (proj2 (pre_post_scripts_disjoint joinBackslash asciiOnly
                         "proj" sampleProject _ _ Hpre Hpost))).
Defined.

(** ** The install script of the first revision of [part_000] *)

Section InstallScript.
Context {W : Type} `{Os.FileSystem W}.
Variable Join : list string -> string.
Variable Dir : string -> string.
Variable mapUnicodeLower : string -> string.

Lemma appendPostInstall_prefix projectDir (w : W) script script' :
  Part000.appendPostInstall Join projectDir w script = inl script' ->
  exists rest, script' = script +:+ rest.
Proof.
  unfold Part000.appendPostInstall.
  destruct (Os.Stat _ w).
  - intros [= <-]. exists "". by rewrite append_empty_r.
  - destruct (Os.ReadFile _ w) as [content|]; [|done].
    intros [= <-]. eexists. rewrite !append_assoc. reflexivity.
Qed.

Lemma appendAction_prefix buildInfo script script' :
  Part000.appendAction mapUnicodeLower buildInfo script = inl script' ->
  exists rest, script' = script +:+ rest.
Proof.
  unfold Part000.appendAction.
  repeat match goal with
         | |- context [if ?b then _ else _] => destruct b
         end; try done; intros [= <-].
  - eexists. reflexivity.
  - eexists. reflexivity.
  - exists "". by rewrite append_empty_r.
Qed.

(** X8: with a [postinstall_action] that, in lower case, is none of
    "logout", "restart", "none" and the empty string,
    [createChocolateyInstallScript] fails and leaves the file system as it
    was: no directory is made and no script is written.  Unless reading an
    existing [postinstall.ps1] failed first, the error is "invalid
    postinstall_action" followed by the action as it was written. *)
Theorem createChocolateyInstallScript_invalid_action
    (buildInfo : Part000.BuildInfo) (projectDir : string) (w : W) :
  Strings.ToLower mapUnicodeLower (Part000.PostInstallAction buildInfo)
    ∉ ["logout"; "restart"; ""; "none"] ->
  exists err,
    Part000.createChocolateyInstallScript Join Dir mapUnicodeLower
      buildInfo projectDir w
    = (w, Some err)
    /\ (err = "invalid postinstall_action: "
                +:+ Part000.PostInstallAction buildInfo
        \/ exists e,
             Os.Stat (Join [projectDir; "scripts"; "postinstall.ps1"]) w = None
             /\ Os.ReadFile (Join [projectDir; "scripts"; "postinstall.ps1"]) w
                = inr e
             /\ err = "failed to read postinstall.ps1: " +:+ Os.osMessage e).
Proof.
  intros Haction.
  assert (forall script,
             Part000.appendAction mapUnicodeLower buildInfo script
             = inr ("invalid postinstall_action: "
                      +:+ Part000.PostInstallAction buildInfo)) as Hact.
  { intros script. unfold Part000.appendAction.
    destruct (String.eqb_spec
                (Strings.ToLower mapUnicodeLower
                   (Part000.PostInstallAction buildInfo)) "logout") as [E|_].
    { destruct Haction. rewrite E. set_solver. }
    destruct (String.eqb_spec
                (Strings.ToLower mapUnicodeLower
                   (Part000.PostInstallAction buildInfo)) "restart") as [E|_].
    { destruct Haction. rewrite E. set_solver. }
    destruct (String.eqb_spec
                (Strings.ToLower mapUnicodeLower
                   (Part000.PostInstallAction buildInfo)) "") as [E|_].
    { destruct Haction. rewrite E. set_solver. }
    destruct (String.eqb_spec
                (Strings.ToLower mapUnicodeLower
                   (Part000.PostInstallAction buildInfo)) "none") as [E|_].
    { destruct Haction. rewrite E. set_solver. }
    reflexivity. }
  unfold Part000.createChocolateyInstallScript, bind.
  destruct (Part000.appendPostInstall Join projectDir w _) as [script|e] eqn:E.
  - rewrite Hact. eexists. split; [reflexivity|by left].
  - eexists. split; [reflexivity|]. right.
    unfold Part000.appendPostInstall in E.
    destruct (Os.Stat _ w) eqn:Hstat; [done|].
    destruct (Os.ReadFile _ w) as [content|e'] eqn:Hread; [done|].
    injection E as <-. by exists e'.
Qed.

(** X9: when [createChocolateyInstallScript] returns no error, it has made
    the tools directory and written one file, tools/chocolateyInstall.ps1,
    whose text starts with the fixed head around the install location as
    the trimming [normalizeInstallLocation] returns it: with no forward
    slash and no trailing backslash. *)
Theorem createChocolateyInstallScript_written
    (buildInfo : Part000.BuildInfo) (projectDir : string) (w w' : W) :
  Part000.createChocolateyInstallScript Join Dir mapUnicodeLower
    buildInfo projectDir w
  = (w', None) ->
  exists (rest : string) (w1 : W),
    Os.MkdirAll (Dir (Join [projectDir; "tools"; "chocolateyInstall.ps1"]))
      Os.ModePerm w
    = (w1, None)
    /\ Os.WriteFile (Join [projectDir; "tools"; "chocolateyInstall.ps1"])
         (Part000.scriptHead
            (Part000.normalizeInstallLocation
               (Part000.InstallLocation buildInfo)) +:+ rest)
         420 w1
       = (w', None)
    /\ hasByte "/"
         (Part000.normalizeInstallLocation (Part000.InstallLocation buildInfo))
       = false
    /\ trailingCount Strconv.backslash
         (Part000.normalizeInstallLocation (Part000.InstallLocation buildInfo))
       = 0%nat.
Proof.
  unfold Part000.createChocolateyInstallScript, bind.
  destruct (Part000.appendPostInstall Join projectDir w _) as [s1|] eqn:E1;
    [|done].
  destruct (Part000.appendAction mapUnicodeLower buildInfo s1) as [s2|] eqn:E2;
    [|done].
  apply appendPostInstall_prefix in E1 as [r1 ->].
  apply appendAction_prefix in E2 as [r2 ->].
  destruct (Os.MkdirAll _ Os.ModePerm w) as [w1 [e|]] eqn:Hmk; [done|].
  destruct (Os.WriteFile _ _ 420 w1) as [w2 [e|]] eqn:Hwr; [done|].
  intros [= <-]. exists (r1 +:+ r2), w1.
  split; [reflexivity|]. split; [by rewrite <- append_assoc|].
  split; [apply trim_no_slash|].
  unfold Part000.normalizeInstallLocation. apply trailingCount_TrimRight.
Qed.

(** X10: [includePreinstallScript] of the first revision does nothing and
    reports no error when [os.Stat] fails on scripts/preinstall.ps1 for any
    reason; when [os.Stat] succeeds and the function returns no error, it
    has made the tools directory and written to
    tools/chocolateyBeforeModify.ps1 exactly the bytes it read from the
    script. *)
Theorem includePreinstallScript_copy (projectDir : string) (w : W) :
  (Os.Stat (Join [projectDir; "scripts"; "preinstall.ps1"]) w <> None ->
   Part000.includePreinstallScript Join Dir projectDir w = (w, None))
  /\ (Os.Stat (Join [projectDir; "scripts"; "preinstall.ps1"]) w = None ->
      forall w' : W,
        Part000.includePreinstallScript Join Dir projectDir w = (w', None) ->
        exists (w1 : W) (content : string),
          Os.MkdirAll
            (Dir (Join [projectDir; "tools"; "chocolateyBeforeModify.ps1"]))
            Os.ModePerm w
          = (w1, None)
          /\ Os.ReadFile (Join [projectDir; "scripts"; "preinstall.ps1"]) w1
             = inl content
          /\ Os.WriteFile
               (Join [projectDir; "tools"; "chocolateyBeforeModify.ps1"])
               content 420 w1
             = (w', None)).
Proof.
  unfold Part000.includePreinstallScript, Part000.copyFile.
  destruct (Os.Stat _ w) as [e|] eqn:Hstat.
  - split; [reflexivity|discriminate].
  - split; [done|]. intros _ w'.
    destruct (Os.MkdirAll _ Os.ModePerm w) as [w1 [e|]] eqn:Hmk; [done|].
    destruct (Os.ReadFile _ w1) as [content|e] eqn:Hread; [|done].
    destruct (Os.WriteFile _ content 420 w1) as [w2 [e|]] eqn:Hwr; [done|].
    intros [= <-]. by exists w1, content.
Qed.
End InstallScript.

(** The theorem for the action "Shutdown". *)
Lemma createChocolateyInstallScript_invalid_action_witness :
  (Strings.ToLower asciiOnly
     (Part000.PostInstallAction (sampleInfo "Shutdown"))
     ∉ ["logout"; "restart"; ""; "none"])
  /\ Part000.createChocolateyInstallScript joinBackslash dirBackslash
       asciiOnly (sampleInfo "Shutdown") "proj" sampleProjectOne
     = (sampleProjectOne, Some "invalid postinstall_action: Shutdown").
Proof.
  assert (Strings.ToLower asciiOnly
            (Part000.PostInstallAction (sampleInfo "Shutdown"))
            ∉ ["logout"; "restart"; ""; "none"]) as Hact.
  { vm_compute. intros Hin.
    repeat (apply elem_of_cons in Hin as [Hin|Hin]; [discriminate|]).
    by apply elem_of_nil in Hin. }
  split; [exact Hact|].
  destruct (createChocolateyInstallScript_invalid_action joinBackslash
              dirBackslash asciiOnly (sampleInfo "Shutdown") "proj"
              sampleProjectOne Hact) as (err & Hres & _).
  rewrite Hres. vm_compute in Hres. injection Hres as <-. reflexivity.
Defined.

(** The theorem for the action "Restart", on the sample project. *)
Lemma createChocolateyInstallScript_written_witness :
  exists w' rest,
    Part000.createChocolateyInstallScript joinBackslash dirBackslash
      asciiOnly (sampleInfo "Restart") "proj" sampleProjectOne
    = (w', None)
    /\ memFiles w' !! "proj\tools\chocolateyInstall.ps1"
       = Some (Part000.scriptHead "C:\Program Files\Tool" +:+ rest).
Proof.
  destruct (Part000.createChocolateyInstallScript joinBackslash dirBackslash
              asciiOnly (sampleInfo "Restart") "proj" sampleProjectOne)
    as [w' r] eqn:Hrun.
  assert (r = None) as -> by (vm_compute in Hrun; by injection Hrun).
  destruct (createChocolateyInstallScript_written joinBackslash dirBackslash
              asciiOnly (sampleInfo "Restart") "proj" sampleProjectOne w' Hrun)
    as (rest & w1 & Hmk & Hwr & _).
  exists w', rest. split; [reflexivity|].
  simpl in Hwr. injection Hwr as <-. simpl.
  apply lookup_insert_eq.
Defined.

(** The theorem on a project without scripts/preinstall.ps1, which is
    left as it is, and on the sample project, whose pre-install script is
    copied. *)
Lemma includePreinstallScript_copy_witness :
  Part000.includePreinstallScript joinBackslash dirBackslash "proj"
    sampleProject
  = (sampleProject, None)
  /\ exists w',
       Part000.includePreinstallScript joinBackslash dirBackslash "proj"
         sampleProjectOne
       = (w', None)
       /\ memFiles w' !! "proj\tools\chocolateyBeforeModify.ps1"
          = Some "Write-Host pre".
Proof.
  split.
  - apply (includePreinstallScript_copy joinBackslash dirBackslash "proj"
             sampleProject).
    vm_compute. discriminate.
  - destruct (Part000.includePreinstallScript joinBackslash dirBackslash
                "proj" sampleProjectOne) as [w' r] eqn:Hrun.
    assert (r = None) as -> by (vm_compute in Hrun; by injection Hrun).
    assert (Os.Stat (joinBackslash ["proj"; "scripts"; "preinstall.ps1"])
              sampleProjectOne = None) as Hstat by (vm_compute; reflexivity).
    destruct (proj2 (includePreinstallScript_copy joinBackslash dirBackslash
                       "proj" sampleProjectOne) Hstat w' Hrun)
      as (w1 & content & Hmk & Hread & Hwr).
    exists w'. split; [reflexivity|].
    assert (content = "Write-Host pre") as ->.
    { simpl in Hmk. injection Hmk as <-. vm_compute in Hread.
      by injection Hread. }
    simpl in Hwr. injection Hwr as <-. simpl. apply lookup_insert_eq.
Defined.

(** ** [filepath.Walk] and the payload *)

Lemma FileTree_nested_ind (P : Filepath.FileTree -> Prop) :
  (forall err, P (Filepath.LstatFails err)) ->
  P Filepath.NotDir ->
  (forall err, P (Filepath.DirUnread err)) ->
  (forall children,
      Forall (fun c => P (snd c)) children -> P (Filepath.DirOf children)) ->
  forall t, P t.
Proof.
  intros Hlstat Hfile Hunread Hdir. fix IH 1.
  intros [err| |err|children]; [apply Hlstat|apply Hfile|apply Hunread|].
  apply Hdir. induction children as [|[name child] rest IHrest].
  - constructor.
  - constructor; [apply IH|apply IHrest].
Qed.

Lemma hasFile_leafPaths Join path t :
  hasFile t = negb (match leafPaths Join path t with [] => true | _ => false end).
Proof.
  revert path. induction t as [err| |err|children IH] using FileTree_nested_ind;
    intros path; try reflexivity.
  cbn [hasFile leafPaths].
  induction IH as [|[name child] rest Hchild _ IHrest]; [reflexivity|].
  cbn [fst snd] in Hchild.
  cbn [existsb flat_map fst snd]. rewrite (Hchild (Join [path; name])), IHrest.
  destruct (leafPaths Join (Join [path; name]) child); [|reflexivity].
  reflexivity.
Qed.

Section Payload.
Context {W : Type} `{Os.FileSystem W} `{Filepath.TreeView W}
  `{OsFile.FileHandles W} `{MainGo.XmlEncoder W}.
Variable Join : list string -> string.
Variable Dir : string -> string.
Variable Rel : string -> string -> string.
Variable mapUnicodeLower : string -> string.

(** On a readable tree the walk of [payloadDirectoryHasFiles] ends with
    [hasFiles] set when the tree holds a file, and with [SkipDir] when a
    file is directly in the directory it ends in. *)
Lemma walk_hasFiles t :
  readable t = true ->
  forall path b,
    Filepath.walk Join MainGo.hasFilesFn path t b
    = (b || hasFile t,
       match t with
       | Filepath.NotDir => Some Filepath.SkipDir
       | Filepath.DirOf children =>
           if existsb (fun c => negb (Filepath.isDir (snd c))) children
           then Some Filepath.SkipDir else None
       | _ => None
       end).
Proof.
  induction t as [err| |err|children IH] using FileTree_nested_ind;
    intros Hread path b; try done.
  - simpl. by rewrite orb_true_r.
  - cbn [Filepath.walk MainGo.hasFilesFn readable hasFile] in *.
    revert b Hread.
    induction IH as [|[name child] rest Hchild _ IHrest]; intros b Hread.
    + simpl. by rewrite orb_false_r.
    + cbn [forallb snd] in Hread. cbn [snd] in Hchild.
      apply andb_true_iff in Hread as [Hc Hrest].
      cbn [Filepath.walkNames existsb snd].
      destruct child as [err| |err|grand]; try done.
      * simpl. by rewrite orb_true_r.
      * rewrite (Hchild Hc). cbn [Filepath.isDir negb orb].
        destruct (existsb _ grand);
          rewrite (IHrest _ Hrest), orb_assoc; reflexivity.
Qed.

(** X11: [payloadDirectoryHasFiles] returns false and no error when
    [os.Stat] reports the payload directory as not existing, whatever the
    walk would find.  Otherwise, when nothing under the directory is
    unreadable, it returns no error, and returns true exactly when the
    tree under it holds an entry that is not a directory; a payload made
    only of directories, however nested, counts as empty. *)
Theorem payloadDirectoryHasFiles_readable (payloadDir : string) (w : W) :
  (Os.IsNotExist (Os.Stat payloadDir w) = false ->
   readable (Filepath.Snapshot payloadDir w) = true) ->
  MainGo.payloadDirectoryHasFiles Join payloadDir w
  = (negb (Os.IsNotExist (Os.Stat payloadDir w))
     && hasFile (Filepath.Snapshot payloadDir w),
     None)
  /\ (Os.IsNotExist (Os.Stat payloadDir w) = true ->
      MainGo.payloadDirectoryHasFiles Join payloadDir w = (false, None))
  /\ (Os.IsNotExist (Os.Stat payloadDir w) = false ->
      MainGo.payloadDirectoryHasFiles Join payloadDir w
      = (hasFile (Filepath.Snapshot payloadDir w), None)).
Proof.
  intros Hread. unfold MainGo.payloadDirectoryHasFiles.
  destruct (Os.IsNotExist (Os.Stat payloadDir w)).
  { split; [reflexivity|]. split; [reflexivity|discriminate]. }
  specialize (Hread eq_refl).
  assert (Filepath.Walk Join MainGo.hasFilesFn payloadDir
            (Filepath.Snapshot payloadDir w) false
          = (hasFile (Filepath.Snapshot payloadDir w), None)) as ->.
  { unfold Filepath.Walk. rewrite (walk_hasFiles _ Hread). simpl.
    destruct (Filepath.Snapshot payloadDir w) as [err| |err|children];
      try reflexivity.
    by destruct (existsb _ children). }
  split; [reflexivity|]. split; [discriminate|reflexivity].
Qed.
End Payload.

(** The theorem on a project without a payload directory, and on a
    payload with a file in a sub-directory. *)
Lemma payloadDirectoryHasFiles_readable_witness :
  Os.IsNotExist (Os.Stat "proj\payload" sampleProject) = true
  /\ MainGo.payloadDirectoryHasFiles joinBackslash "proj\payload"
       sampleProject
     = (false, None)
  /\ Os.IsNotExist (Os.Stat "proj\payload" sampleBuild) = false
  /\ readable (Filepath.Snapshot "proj\payload" sampleBuild) = true
  /\ MainGo.payloadDirectoryHasFiles joinBackslash "proj\payload" sampleBuild
     = (true, None).
Proof.
  assert (Os.IsNotExist (Os.Stat "proj\payload" sampleProject) = true)
    as Habsent by (vm_compute; reflexivity).
  assert (Os.IsNotExist (Os.Stat "proj\payload" sampleBuild) = false)
    as Hpresent by (vm_compute; reflexivity).
  assert (readable (Filepath.Snapshot "proj\payload" sampleBuild) = true)
    as Hread by (vm_compute; reflexivity).
  split; [exact Habsent|]. split.
  { apply (payloadDirectoryHasFiles_readable joinBackslash "proj\payload"
             sampleProject); [|exact Habsent].
    intros Hexists. rewrite Habsent in Hexists. discriminate. }
  split; [exact Hpresent|]. split; [exact Hread|].
  destruct (payloadDirectoryHasFiles_readable joinBackslash "proj\payload"
              sampleBuild (fun _ => Hread)) as (_ & _ & Hfiles).
  rewrite (Hfiles Hpresent). vm_compute. reflexivity.
Defined.

(** ** The install script and the manifest of [main.go] *)

Lemma enforce_not_empty path : MainGo.normalizeInstallLocation path <> "".
Proof.
  unfold MainGo.normalizeInstallLocation.
  destruct (Strings.ReplaceAll path "/" Strconv.backslash) as [|c s];
    [done|].
  by destruct (negb _).
Qed.

Section Manifest.
Context {W : Type} `{Os.FileSystem W} `{Filepath.TreeView W}
  `{OsFile.FileHandles W} `{MainGo.XmlEncoder W}.
Variable Join : list string -> string.
Variable Dir : string -> string.
Variable Rel : string -> string -> string.
Variable mapUnicodeLower : string -> string.

Lemma payload_check payloadDir (w : W) :
  readable (Filepath.Snapshot payloadDir w) = true ->
  MainGo.payloadDirectoryHasFiles Join payloadDir w
  = (negb (Os.IsNotExist (Os.Stat payloadDir w))
     && hasFile (Filepath.Snapshot payloadDir w),
     None).
Proof.
  intros Hread. unfold MainGo.payloadDirectoryHasFiles.
  destruct (Os.IsNotExist (Os.Stat payloadDir w)); [reflexivity|].
  unfold Filepath.Walk. rewrite (walk_hasFiles Join _ Hread). simpl.
  destruct (Filepath.Snapshot payloadDir w) as [err| |err|children];
    try reflexivity.
  by destruct (existsb _ children).
Qed.

Lemma main_appendAction_prefix buildInfo script script' :
  MainGo.appendAction mapUnicodeLower buildInfo script = inl script' ->
  exists rest, script' = script +:+ rest.
Proof.
  unfold MainGo.appendAction.
  repeat match goal with
         | |- context [if ?b then _ else _] => destruct b
         end; try done; intros [= <-].
  - eexists. rewrite !append_assoc. reflexivity.
  - eexists. rewrite !append_assoc. reflexivity.
  - eexists. rewrite !append_assoc. reflexivity.
  - exists "". by rewrite append_empty_r.
Qed.

(** X12: with a [postinstall_action] that, in lower case, is none of
    "logout", "restart", "none" and the empty string,
    [createChocolateyInstallScript] of [main.go] fails and leaves the file
    system as it was.  Unless the check of the payload folder failed first,
    the error is "unsupported post-install action" followed by the action
    in lower case, not as it was written. *)
Theorem createChocolateyInstallScript_unsupported_action
    (buildInfo : MainGo.BuildInfo) (projectDir : string) (w : W) :
  Strings.ToLower mapUnicodeLower (MainGo.PostInstallAction buildInfo)
    ∉ [""; "logout"; "restart"; "none"] ->
  exists err,
    MainGo.createChocolateyInstallScript Join Dir mapUnicodeLower
      buildInfo projectDir w
    = (w, Some err)
    /\ (err = "unsupported post-install action: "
                +:+ Strings.ToLower mapUnicodeLower
                      (MainGo.PostInstallAction buildInfo)
        \/ exists e,
             snd (MainGo.payloadDirectoryHasFiles Join
                    (Join [projectDir; "payload"]) w)
             = Some e
             /\ err = "failed to check payload folder: " +:+ e).
Proof.
  intros Haction.
  assert (forall script,
             MainGo.appendAction mapUnicodeLower buildInfo script
             = inr ("unsupported post-install action: "
                      +:+ Strings.ToLower mapUnicodeLower
                            (MainGo.PostInstallAction buildInfo))) as Hact.
  { intros script. unfold MainGo.appendAction.
    destruct (String.eqb_spec
                (Strings.ToLower mapUnicodeLower
                   (MainGo.PostInstallAction buildInfo)) "") as [E|_].
    { destruct Haction. rewrite E. repeat constructor. }
    destruct (String.eqb_spec
                (Strings.ToLower mapUnicodeLower
                   (MainGo.PostInstallAction buildInfo)) "logout") as [E|_].
    { destruct Haction. rewrite E. repeat constructor. }
    destruct (String.eqb_spec
                (Strings.ToLower mapUnicodeLower
                   (MainGo.PostInstallAction buildInfo)) "restart") as [E|_].
    { destruct Haction. rewrite E. repeat constructor. }
    destruct (String.eqb_spec
                (Strings.ToLower mapUnicodeLower
                   (MainGo.PostInstallAction buildInfo)) "none") as [E|_].
    { destruct Haction. rewrite E. repeat constructor. }
    reflexivity. }
  unfold MainGo.createChocolateyInstallScript.
  destruct (MainGo.payloadDirectoryHasFiles Join _ w) as [b [e|]] eqn:E.
  - eexists. split; [reflexivity|]. right. by exists e.
  - rewrite Hact. eexists. split; [reflexivity|by left].
Qed.

(** X13: when nothing under the payload directory is unreadable and
    [createChocolateyInstallScript] of [main.go] returns no error, it has
    made the tools directory and written tools/chocolateyInstall.ps1 with
    a text that starts with the preference line, the install location as
    the enforcing [normalizeInstallLocation] returns it (never empty:
    an empty location is written as one backslash), and then the block
    that copies the payload exactly when the payload tree holds an entry
    that is not a directory, the script-only notice otherwise.  With no
    post-install script in the project nothing else is written. *)
Theorem createChocolateyInstallScript_payload_block
    (buildInfo : MainGo.BuildInfo) (projectDir : string) (w w' : W) :
  readable (Filepath.Snapshot (Join [projectDir; "payload"]) w) = true ->
  MainGo.createChocolateyInstallScript Join Dir mapUnicodeLower
    buildInfo projectDir w
  = (w', None) ->
  exists (rest : string) (w1 w2 : W) (postScripts : list string),
    Os.MkdirAll (Dir (Join [projectDir; "tools"; "chocolateyInstall.ps1"]))
      Os.ModePerm w
    = (w1, None)
    /\ Os.WriteFile (Join [projectDir; "tools"; "chocolateyInstall.ps1"])
         ("$ErrorActionPreference = 'Stop'" +:+ newline +:+ newline
            +:+ "$installLocation = '"
            +:+ MainGo.normalizeInstallLocation
                  (MainGo.InstallLocation buildInfo)
            +:+ "'" +:+ newline +:+ newline
            +:+ (if negb (Os.IsNotExist
                            (Os.Stat (Join [projectDir; "payload"]) w))
                    && hasFile
                         (Filepath.Snapshot (Join [projectDir; "payload"]) w)
                 then MainGo.payloadBlock
                 else MainGo.scriptOnlyBlock)
            +:+ rest)
         420 w1
       = (w2, None)
    /\ MainGo.normalizeInstallLocation (MainGo.InstallLocation buildInfo)
       <> ""
    /\ MainGo.getPostinstallScripts Join mapUnicodeLower projectDir w2
       = inl postScripts
    /\ (postScripts = [] -> w' = w2).
Proof.
  intros Hread. unfold MainGo.createChocolateyInstallScript.
  rewrite (payload_check _ _ Hread).
  set (hasPayloadFiles :=
         negb (Os.IsNotExist (Os.Stat (Join [projectDir; "payload"]) w))
         && hasFile (Filepath.Snapshot (Join [projectDir; "payload"]) w)).
  cbv zeta.
  match goal with
  | |- context [MainGo.appendAction _ _ ?s] => set (script := s)
  end.
  destruct (MainGo.appendAction mapUnicodeLower buildInfo script)
    as [script'|] eqn:Eact; [|done].
  apply main_appendAction_prefix in Eact as [rest ->].
  destruct (Os.MkdirAll _ Os.ModePerm w) as [w1 [e|]] eqn:Hmk; [done|].
  destruct (Os.WriteFile _ _ 420 w1) as [w2 [e|]] eqn:Hwr; [done|].
  destruct (MainGo.getPostinstallScripts Join mapUnicodeLower projectDir w2)
    as [postScripts|] eqn:Hpost; [|done].
  intros Hrun. exists rest, w1, w2, postScripts.
  split; [reflexivity|]. split.
  { rewrite <- Hwr. f_equal. subst script.
    destruct hasPayloadFiles; by rewrite !append_assoc. }
  split; [apply enforce_not_empty|]. split; [exact Hpost|].
  intros ->. simpl in Hrun. by injection Hrun.
Qed.

(** The walk of [generateNuspec] over a readable tree adds one entry for
    each entry that is not a directory, in the order of the tree. *)
Lemma walk_nuspec projectDir t :
  readable t = true ->
  forall path files,
    Filepath.walk Join (MainGo.nuspecFn Rel projectDir) path t files
    = (files ++ List.map (payloadRef Rel projectDir) (leafPaths Join path t),
       None).
Proof.
  induction t as [err| |err|children IH] using FileTree_nested_ind;
    intros Hread path files; try done.
  cbn [Filepath.walk MainGo.nuspecFn readable leafPaths] in *.
  revert files Hread.
  induction IH as [|[name child] rest Hchild _ IHrest]; intros files Hread.
  - simpl. by rewrite app_nil_r.
  - cbn [forallb snd] in Hread. cbn [snd] in Hchild.
    apply andb_true_iff in Hread as [Hc Hrest].
    cbn [Filepath.walkNames flat_map fst snd].
    destruct child as [err| |err|grand]; try done.
    + rewrite (Hchild Hc), (IHrest _ Hrest), map_app, app_assoc.
      reflexivity.
    + rewrite (Hchild Hc), (IHrest _ Hrest), map_app, app_assoc.
      reflexivity.
Qed.

(** X14: when nothing under the payload directory is unreadable and
    [generateNuspec] of [main.go] returns a path, the path is that of
    <name>.nuspec in the project directory and the package it encoded
    lists, in this order: one entry for each payload entry that is not a
    directory, in the order of the walk, with its path relative to the
    project directory as source and as target, without a backslash;
    tools/chocolateyInstall.ps1; and tools/chocolateyBeforeModify.ps1
    exactly when there is a pre-install script.  It lists a payload file
    exactly when [payloadDirectoryHasFiles] returns true, so the manifest
    and the install script agree on whether there is a payload. *)
Theorem generateNuspec_files
    (buildInfo : MainGo.BuildInfo) (projectDir : string) (w w' : W)
    (nuspecPath : string) :
  readable (Filepath.Snapshot (Join [projectDir; "payload"]) w) = true ->
  MainGo.generateNuspec Join Rel mapUnicodeLower buildInfo projectDir w
  = (w', inl nuspecPath) ->
  exists (payloadRefs : list MainGo.FileRef) (preScripts : list string)
         (pkg : MainGo.Package) (w1 : W),
    nuspecPath
    = Join [projectDir;
            MainGo.Name (MainGo.Product buildInfo) +:+ ".nuspec"]
    /\ payloadRefs
       = (if Os.IsNotExist (Os.Stat (Join [projectDir; "payload"]) w)
          then []
          else List.map (payloadRef Rel projectDir)
                 (leafPaths Join (Join [projectDir; "payload"])
                    (Filepath.Snapshot (Join [projectDir; "payload"]) w)))
    /\ MainGo.getPreinstallScripts Join mapUnicodeLower projectDir w
       = inl preScripts
    /\ OsFile.Create nuspecPath w = (w1, None)
    /\ MainGo.Encode nuspecPath pkg w1 = (w', None)
    /\ MainGo.Files pkg
       = payloadRefs
           ++ [toolsRef Join "chocolateyInstall.ps1"]
           ++ match preScripts with
              | [] => []
              | _ :: _ => [toolsRef Join "chocolateyBeforeModify.ps1"]
              end
    /\ Forall (fun ref => MainGo.Target ref = MainGo.Src ref
                          /\ hasByte Strconv.backslash (MainGo.Src ref) = false)
         payloadRefs
    /\ MainGo.payloadDirectoryHasFiles Join (Join [projectDir; "payload"]) w
       = (match payloadRefs with [] => false | _ :: _ => true end, None).
Proof.
  intros Hread. unfold MainGo.generateNuspec. cbv zeta.
  set (payloadPath := Join [projectDir; "payload"]) in *.
  set (payloadRefs :=
         if Os.IsNotExist (Os.Stat payloadPath w) then []
         else List.map (payloadRef Rel projectDir)
                (leafPaths Join payloadPath (Filepath.Snapshot payloadPath w))).
  assert ((if negb (Os.IsNotExist (Os.Stat payloadPath w))
           then Filepath.Walk Join (MainGo.nuspecFn Rel projectDir)
                  payloadPath (Filepath.Snapshot payloadPath w) []
           else ([], None))
          = (payloadRefs, None)) as ->.
  { subst payloadRefs. destruct (Os.IsNotExist (Os.Stat payloadPath w));
      [reflexivity|].
    simpl. unfold Filepath.Walk. by rewrite (walk_nuspec _ _ Hread). }
  destruct (MainGo.getPreinstallScripts Join mapUnicodeLower projectDir w)
    as [preScripts|] eqn:Hpre; [|done].
  destruct (OsFile.Create _ w) as [w1 [e|]] eqn:Hcreate; [done|].
  match goal with
  | |- context [MainGo.Encode _ ?p w1] => set (pkg := p)
  end.
  destruct (MainGo.Encode _ pkg w1) as [w2 [e|]] eqn:Henc; [done|].
  intros [= <- <-]. exists payloadRefs, preScripts, pkg, w1.
  split; [reflexivity|]. split; [reflexivity|]. split; [reflexivity|].
  split; [exact Hcreate|]. split; [exact Henc|]. split.
  { subst pkg. cbn [MainGo.Files]. unfold toolsRef.
    destruct preScripts; simpl; by rewrite <- ?app_assoc. }
  split.
  { subst payloadRefs. destruct (Os.IsNotExist _); [constructor|].
    apply Forall_forall. intros ref Hin.
    apply list_elem_of_In, in_map_iff in Hin as [p [<- _]].
    split; [reflexivity|]. cbn [payloadRef MainGo.Src].
    unfold Filepath.ToSlash.
    change (Ascii.eqb Filepath.Separator "/") with false. cbv iota.
    by apply ReplaceAll_no_old. }
  rewrite (payload_check _ _ Hread). f_equal. subst payloadRefs.
  destruct (Os.IsNotExist _); [reflexivity|]. cbn [negb andb].
  rewrite (hasFile_leafPaths Join payloadPath).
  by destruct (leafPaths Join payloadPath _).
Qed.
End Manifest.

(** The theorem for the action "Shutdown". *)
Lemma createChocolateyInstallScript_unsupported_action_witness :
  (Strings.ToLower asciiOnly
     (MainGo.PostInstallAction (sampleMainInfo "Shutdown"))
     ∉ [""; "logout"; "restart"; "none"])
  /\ MainGo.createChocolateyInstallScript joinBackslash dirBackslash
       asciiOnly (sampleMainInfo "Shutdown") "proj" sampleBuild
     = (sampleBuild, Some "unsupported post-install action: shutdown").
Proof.
  assert (Strings.ToLower asciiOnly
            (MainGo.PostInstallAction (sampleMainInfo "Shutdown"))
            ∉ [""; "logout"; "restart"; "none"]) as Hact.
  { vm_compute. intros Hin.
    repeat (apply elem_of_cons in Hin as [Hin|Hin]; [discriminate|]).
    by apply elem_of_nil in Hin. }
  split; [exact Hact|].
  destruct (createChocolateyInstallScript_unsupported_action joinBackslash
              dirBackslash asciiOnly (sampleMainInfo "Shutdown") "proj"
              sampleBuild Hact) as (err & Hres & _).
  rewrite Hres. vm_compute in Hres. injection Hres as <-. reflexivity.
Defined.

(** The theorem on the sample build, whose payload holds files. *)
Lemma createChocolateyInstallScript_payload_block_witness :
  exists w',
    MainGo.createChocolateyInstallScript joinBackslash dirBackslash
      asciiOnly (sampleMainInfo "Restart") "proj" sampleBuild
    = (w', None)
    /\ String.prefix
         ("$ErrorActionPreference = 'Stop'" +:+ newline +:+ newline
            +:+ "$installLocation = 'C:\Program Files\Tool\'"
            +:+ newline +:+ newline +:+ MainGo.payloadBlock)
         (default EmptyString
            (memFiles w' !! "proj\tools\chocolateyInstall.ps1"))
       = true.
Proof.
  destruct (MainGo.createChocolateyInstallScript joinBackslash dirBackslash
              asciiOnly (sampleMainInfo "Restart") "proj" sampleBuild)
    as [w' r] eqn:Hrun.
  assert (r = None) as -> by (vm_compute in Hrun; by injection Hrun).
  assert (readable
            (Filepath.Snapshot (joinBackslash ["proj"; "payload"]) sampleBuild)
          = true) as Hread by (vm_compute; reflexivity).
  destruct (createChocolateyInstallScript_payload_block joinBackslash
              dirBackslash asciiOnly (sampleMainInfo "Restart") "proj"
              sampleBuild w' Hread Hrun)
    as (rest & w1 & w2 & postScripts & Hmk & Hwr & _ & Hpost & _).
  exists w'. split; [reflexivity|].
  vm_compute in Hrun. injection Hrun as <-.
  vm_compute. reflexivity.
Defined.

(** The theorem on the sample build: two payload files, the install
    script and the script of the pre-install step. *)
Lemma generateNuspec_files_witness :
  exists w' pkg,
    MainGo.generateNuspec joinBackslash relBackslash asciiOnly
      (sampleMainInfo "none") "proj" sampleBuild
    = (w', inl "proj\Tool.nuspec")
    /\ List.map MainGo.Src (MainGo.Files pkg)
       = ["payload/bin/tool.exe"; "payload/readme.txt";
          "tools\chocolateyInstall.ps1"; "tools\chocolateyBeforeModify.ps1"].
Proof.
  destruct (MainGo.generateNuspec joinBackslash relBackslash asciiOnly
              (sampleMainInfo "none") "proj" sampleBuild)
    as [w' r] eqn:Hrun.
  assert (r = inl "proj\Tool.nuspec") as ->
    by (vm_compute in Hrun; by injection Hrun).
  assert (readable
            (Filepath.Snapshot (joinBackslash ["proj"; "payload"]) sampleBuild)
          = true) as Hread by (vm_compute; reflexivity).
  destruct (generateNuspec_files joinBackslash relBackslash asciiOnly
              (sampleMainInfo "none") "proj" sampleBuild w' _ Hread Hrun)
    as (payloadRefs & preScripts & pkg & w1 & _ & Hrefs & Hpre & _ & _
        & Hfiles & _).
  exists w', pkg. split; [reflexivity|].
  rewrite Hfiles, Hrefs.
  vm_compute in Hpre. injection Hpre as <-.
  vm_compute. reflexivity.
Defined.

(** ** The post-install action of the second revision of [part_000] *)

Section PostInstallAction.
Context {W : Type} `{Os.FileSystem W} `{OsFile.FileHandles W}.
Variable Join : list string -> string.
Variable Dir : string -> string.

Lemma actionIsValid_cases action :
  Part000.actionIsValid action
  = String.eqb action "logout" || String.eqb action "restart"
    || String.eqb action "none".
Proof.
  unfold Part000.actionIsValid, Part000.validActions.
  destruct (String.eqb_spec action "logout") as [->|Hl]; [done|].
  destruct (String.eqb_spec action "restart") as [->|Hr]; [done|].
  destruct (String.eqb_spec action "none") as [->|Hn]; [done|].
  by rewrite !lookup_insert_ne, lookup_singleton_ne.
Qed.

Lemma writeCommand_error path command (w w' : W) err :
  Part000.writeCommand Dir path command w = (w', Some err) ->
  String.prefix "failed to " err = true.
Proof.
  unfold Part000.writeCommand.
  destruct (Os.IsNotExist (Os.Stat path w)).
  - destruct (Os.MkdirAll _ Os.ModePerm w) as [w1 [e|]];
      [by intros [= <- <-]|].
    destruct (OsFile.Create path w1) as [w2 [e|]]; [by intros [= <- <-]|].
    destruct (OsFile.FileWrite path command w2) as [w3 [e|]];
      [by intros [= <- <-]|done].
  - destruct (OsFile.OpenAppend path _ w) as [e|]; [by intros [= <- <-]|].
    destruct (OsFile.FileWrite path command w) as [w3 [e|]];
      [by intros [= <- <-]|done].
Qed.

(** X15: [handlePostInstallScript] reports an unknown post-install action,
    leaving the file system as it was, exactly for the actions that the
    map [validActions] of [main] does not hold: every action but "none",
    "logout" and "restart", compared as written, so also the empty action
    and "Logout".  After the check of [main] has passed, the function
    never reports an unknown action. *)
Theorem handlePostInstallScript_unknown_action
    (action projectDir : string) (w : W) :
  Part000.handlePostInstallScript Join Dir action projectDir w
  = (w, Some ("unknown post-install action: " +:+ action))
  <-> Part000.actionIsValid action = false.
Proof.
  rewrite actionIsValid_cases. unfold Part000.handlePostInstallScript.
  destruct (String.eqb action "logout") eqn:El.
  { split; [|done]. intros Hrun%writeCommand_error. discriminate. }
  destruct (String.eqb action "restart") eqn:Er.
  { split; [|done]. intros Hrun%writeCommand_error. discriminate. }
  destruct (String.eqb action "none") eqn:En; [|done].
  split; done.
Qed.
End PostInstallAction.

(** ** The manifest of the first revision of [part_000] *)

Section WalkInvariant.
Context {S : Type}.
Variable Join : list string -> string.
Variable walkFn :
  string -> option bool -> option Os.osError -> S
  -> S * option Filepath.walkError.
Variable R : S -> S -> Prop.
Hypothesis R_refl : forall s, R s s.
Hypothesis R_trans : forall s1 s2 s3, R s1 s2 -> R s2 s3 -> R s1 s3.
Hypothesis walkFn_R :
  forall path isDir err s, R s (fst (walkFn path isDir err s)).

(** A relation that every call of the [WalkFunc] keeps holds between the
    state before and after the walk, however the walk ends. *)
Lemma walk_related t :
  forall path s, R s (fst (Filepath.walk Join walkFn path t s)).
Proof.
  induction t as [err| |err|children IH] using FileTree_nested_ind;
    intros path s; try apply walkFn_R.
  cbn [Filepath.walk].
  pose proof (walkFn_R path (Some true) None s) as Hdir.
  destruct (walkFn path (Some true) None s) as [s1 [e|]]; [exact Hdir|].
  cbn [fst] in Hdir. apply (R_trans _ _ _ Hdir). clear Hdir s.
  revert s1. induction IH as [|[name child] rest Hchild _ IHrest]; intros s.
  - apply R_refl.
  - cbn [snd] in Hchild. cbn [Filepath.walkNames].
    assert (forall s1 o,
               Filepath.walk Join walkFn (Join [path; name]) child s = (s1, o) ->
               R s (fst (match o with
                         | None =>
                             Filepath.walkNames Join walkFn
                               (Filepath.walk Join walkFn) path rest s1
                         | Some e =>
                             match Filepath.isDir child, e with
                             | true, Filepath.SkipDir =>
                                 Filepath.walkNames Join walkFn
                                   (Filepath.walk Join walkFn) path rest s1
                             | _, _ => (s1, Some e)
                             end
                         end))) as Hstep.
    { intros s1 o Hwalk. pose proof (Hchild (Join [path; name]) s) as Hc.
      rewrite Hwalk in Hc. cbn [fst] in Hc.
      destruct o as [e|]; [|exact (R_trans _ _ _ Hc (IHrest s1))].
      destruct (Filepath.isDir child), e; try exact Hc.
      exact (R_trans _ _ _ Hc (IHrest s1)). }
    destruct child as [err| |err|grand].
    + pose proof (walkFn_R (Join [path; name]) None (Some err) s) as Hc.
      destruct (walkFn (Join [path; name]) None (Some err) s)
        as [s1 [[|e]|]]; cbn [fst] in Hc;
        try exact Hc; exact (R_trans _ _ _ Hc (IHrest s1)).
    + destruct (Filepath.walk Join walkFn (Join [path; name]) Filepath.NotDir s)
        as [s1 o] eqn:Hwalk.
      exact (Hstep s1 o eq_refl).
    + destruct (Filepath.walk Join walkFn (Join [path; name])
                  (Filepath.DirUnread err) s) as [s1 o] eqn:Hwalk.
      exact (Hstep s1 o eq_refl).
    + destruct (Filepath.walk Join walkFn (Join [path; name])
                  (Filepath.DirOf grand) s) as [s1 o] eqn:Hwalk.
      exact (Hstep s1 o eq_refl).
Qed.
End WalkInvariant.

Lemma extends_refl nuspec : extends nuspec nuspec.
Proof. split; [reflexivity|]. exists []. by rewrite app_nil_r. Qed.

Lemma extends_trans n1 n2 n3 : extends n1 n2 -> extends n2 n3 -> extends n1 n3.
Proof.
  intros [Hm1 [more1 Hf1]] [Hm2 [more2 Hf2]]. split; [congruence|].
  exists (more1 ++ more2). by rewrite Hf2, Hf1, app_assoc.
Qed.

Lemma extends_appendFile nuspec ref :
  extends nuspec (Part000.appendFile nuspec ref).
Proof. split; [reflexivity|]. by exists [ref]. Qed.

Section FirstManifest.
Context {W : Type} `{Os.FileSystem W} `{Filepath.TreeView W}
  `{OsFile.FileHandles W} `{OsFile.FileRemoval W} `{MainGo.XmlEncoder W}.
Variable Join : list string -> string.
Variable Rel : string -> string -> string.

Lemma addScriptToNuspec_extends nuspec projectDir scriptName target (w : W) :
  extends nuspec
    (Part000.addScriptToNuspec Join nuspec projectDir scriptName target w).
Proof.
  unfold Part000.addScriptToNuspec.
  destruct (negb _); [apply extends_appendFile|apply extends_refl].
Qed.

Lemma writeNuspec_extends projectDir nuspecPath nuspec (w w' : W) path :
  Part000.writeNuspec Join Rel projectDir nuspecPath nuspec w
  = (w', inl path) ->
  path = nuspecPath
  /\ exists (pkg : MainGo.Package) (w1 : W),
       MainGo.Encode nuspecPath pkg w1 = (w', None) /\ extends nuspec pkg.
Proof.
  unfold Part000.writeNuspec. cbv zeta.
  set (payloadPath := Join [projectDir; "payload"]).
  assert (extends nuspec
            (fst (if negb (Os.IsNotExist (Os.Stat payloadPath w))
                  then Filepath.Walk Join
                         (Part000.nuspecFn Rel projectDir payloadPath)
                         payloadPath (Filepath.Snapshot payloadPath w) nuspec
                  else (nuspec, None)))) as Hwalk.
  { destruct (negb _); [|apply extends_refl].
    unfold Filepath.Walk.
    pose proof (walk_related Join
                  (Part000.nuspecFn Rel projectDir payloadPath) extends
                  extends_refl extends_trans) as Hrel.
    specialize (Hrel ltac:(intros p d e s; unfold Part000.nuspecFn;
                           destruct e; [apply extends_refl|];
                           destruct d as [[|]|];
                           try apply extends_refl;
                           apply extends_appendFile)
                  (Filepath.Snapshot payloadPath w) payloadPath nuspec).
    by destruct (Filepath.walk _ _ _ _ _) as [s1 [[|e]|]]. }
  destruct (if negb (Os.IsNotExist (Os.Stat payloadPath w))
            then _ else _) as [walked [e|]]; [done|].
  cbn [fst] in Hwalk.
  destruct (OsFile.Create nuspecPath w) as [w1 [e|]]; [done|].
  match goal with
  | |- context [MainGo.Encode _ ?p w1] => set (pkg := p)
  end.
  destruct (MainGo.Encode nuspecPath pkg w1) as [w2 [e|]] eqn:Henc; [done|].
  intros [= <- <-]. split; [reflexivity|]. exists pkg, w1.
  split; [exact Henc|].
  apply (extends_trans _ _ _ Hwalk). subst pkg.
  eapply extends_trans; apply addScriptToNuspec_extends.
Qed.

(** X16: with a description of the product, [generateNuspec] of the first
    revision writes it to readme.md in the project directory; when that
    succeeds, whatever happens next, the function ends by removing
    readme.md again.  When it returns a path, the package it encoded names
    readme.md as its readme and lists it first among its files: the
    manifest that is returned refers to a file that the function has
    already removed. *)
Theorem generateNuspec_readme_removed
    (buildInfo : Part000.BuildInfo) (projectDir : string) (w w' : W)
    (r : result string) :
  Part000.Description (Part000.Product buildInfo) <> "" ->
  Part000.generateNuspec Join Rel buildInfo projectDir w = (w', r) ->
  (exists e,
      Os.WriteFile (Join [projectDir; "readme.md"])
        (Part000.Description (Part000.Product buildInfo)) 420 w
      = (w', Some e)
      /\ r = inr ("failed to write readme.md: " +:+ Os.osMessage e))
  \/ (exists (w1 w2 : W),
         Os.WriteFile (Join [projectDir; "readme.md"])
           (Part000.Description (Part000.Product buildInfo)) 420 w
         = (w1, None)
         /\ w' = fst (OsFile.Remove (Join [projectDir; "readme.md"]) w2)
         /\ forall nuspecPath,
              r = inl nuspecPath ->
              exists (pkg : MainGo.Package) (w3 : W),
                MainGo.Encode nuspecPath pkg w3 = (w2, None)
                /\ MainGo.Readme (MainGo.PackageMetadata pkg) = "readme.md"
                /\ head (MainGo.Files pkg)
                   = Some {| MainGo.Src := "readme.md";
                             MainGo.Target := "readme.md" |}).
Proof.
  intros Hdesc. unfold Part000.generateNuspec. cbv zeta.
  destruct (String.eqb_spec
              (Part000.Description (Part000.Product buildInfo)) "")
    as [E|_]; [done|].
  cbn [negb].
  destruct (Os.WriteFile _ _ 420 w) as [w1 [e|]] eqn:Hwr.
  - intros [= <- <-]. left. by exists e.
  - destruct (Part000.writeNuspec Join Rel projectDir _ _ w1)
      as [w2 r'] eqn:Hrun.
    intros [= <- <-]. right. exists w1, w2.
    split; [reflexivity|]. split; [reflexivity|].
    intros nuspecPath ->.
    apply writeNuspec_extends in Hrun
      as (-> & pkg & w3 & Henc & Hmeta & more & Hfiles).
    exists pkg, w3. split; [exact Henc|].
    split; [by rewrite Hmeta|]. by rewrite Hfiles.
Qed.
End FirstManifest.

(** The theorem on the sample build: the manifest lists readme.md, and the
    file is gone when the function returns. *)
Lemma generateNuspec_readme_removed_witness :
  exists w',
    Part000.generateNuspec joinBackslash relBackslash sampleDescribed "proj"
      sampleBuild
    = (w', inl "proj\Tool.nuspec")
    /\ memFiles w' !! "proj\readme.md" = None
    /\ String.prefix ("readme.md" +:+ newline)
         (default EmptyString (memFiles w' !! "proj\Tool.nuspec"))
       = true.
Proof.
  destruct (Part000.generateNuspec joinBackslash relBackslash sampleDescribed
              "proj" sampleBuild) as [w' r] eqn:Hrun.
  assert (r = inl "proj\Tool.nuspec") as ->
    by (vm_compute in Hrun; by injection Hrun).
  assert (Part000.Description (Part000.Product sampleDescribed) <> "")
    as Hdesc by done.
  destruct (generateNuspec_readme_removed joinBackslash relBackslash
              sampleDescribed "proj" sampleBuild w' _ Hdesc Hrun)
    as [(e & _ & He)|(w1 & w2 & _ & Hremoved & _)]; [discriminate|].
  exists w'. split; [reflexivity|].
  clear Hremoved. vm_compute in Hrun. injection Hrun as <-.
  split; vm_compute; reflexivity.
Defined.
